(** * Task Tab: a shallow embedding of [newtab.js] and [service_worker.js]

    The development follows the layout of the sources:

    - JavaScript values the code manipulates (strings as sequences of
      UTF-16 code units, [String.prototype.trim], [String(n)] and
      [padStart]);
    - the [Date] operations the code calls, written after the abstract
      operations of ECMAScript ([Day], [DayFromYear], [YearFromTime],
      [MonthFromTime], [DateFromTime], [WeekDay], [MakeDay], [MakeDate]);
    - the task list and its actions ([createTask], [addTask], [toggleTask],
      [deleteTask], [clearCompleted], [deleteLastTask]);
    - the daily history ([snapshotToday]), the streak computation
      ([calculateStreak]) and the calendar grid ([renderCalendar]);
    - the badge listener of the service worker.

    Asynchronous storage calls are awaited one after the other in the
    sources, so they are modelled as sequential reads and writes of a
    [Storage] record that is threaded through a small state monad.  A
    handler reads the clock once: the several [new Date()] of one handler
    fall on the same instant.  Numbers are integers ([Z]); construction of
    DOM nodes is kept as the data the nodes show.  The host enters through
    its clock, its time zone and [crypto.randomUUID]: see [Env]. *)

From Stdlib Require Import ZArith List Bool Ascii String Lia Permutation Sorted.
From stdpp Require Import base option list gmap strings pretty fin_maps sorting.

Local Open Scope Z_scope.

(* ================================================================== *)
(** * JavaScript strings *)
(* ================================================================== *)

Module JsString.

(** User-entered text is a sequence of UTF-16 code units. *)
Definition codeUnit := N.
Definition jsstring := list codeUnit.

(** The code units of an ASCII literal, for readable examples. *)
Fixpoint codeUnits (s : string) : jsstring :=
  match s with
  | EmptyString => []
  | String c r => N_of_ascii c :: codeUnits r
  end.

(** [WhiteSpace] and [LineTerminator] of ECMAScript, the code units that
    [trim] strips. *)
Definition isWhiteSpace (c : codeUnit) : bool :=
  ((9 <=? c) && (c <=? 13) || (c =? 32) || (c =? 160) || (c =? 5760)
   || (8192 <=? c) && (c <=? 8202) || (c =? 8232) || (c =? 8233)
   || (c =? 8239) || (c =? 8287) || (c =? 12288) || (c =? 65279))%N.

Fixpoint trimStart (s : jsstring) : jsstring :=
  match s with
  | [] => []
  | c :: r => if isWhiteSpace c then trimStart r else s
  end.

Definition trimEnd (s : jsstring) : jsstring := rev (trimStart (rev s)).

(** [s.trim()] *)
Definition trim (s : jsstring) : jsstring := trimEnd (trimStart s).

(** Truthiness of a string: the empty string is the only falsy one. *)
Definition truthy (s : jsstring) : bool :=
  match s with [] => false | _ :: _ => true end.

(** A string is trimmed when it neither starts nor ends with white
    space. *)
Definition trimmed (s : jsstring) : Prop :=
  (forall c r, s = c :: r -> isWhiteSpace c = false) /\
  (forall c r, s = r ++ [c] -> isWhiteSpace c = false).

(** A blank string: empty, or white space only. *)
Definition blank (s : jsstring) : Prop := Forall (fun c => isWhiteSpace c = true) s.

End JsString.
Import JsString.

(* ================================================================== *)
(** * Tasks *)
(* ================================================================== *)

(** [{ id, text, done, createdAt }].  [createdAt] is the ISO rendering of
    the clock at creation; it is kept as the clock reading. *)
Record Task := mkTask {
  id : string;
  text : jsstring;
  done : bool;
  createdAt : Z
}.

(** What one user action can observe of the outside world: the clock
    ([new Date()], as the local time it shows, in milliseconds), the next
    value of [crypto.randomUUID()], and the host time zone (the offset from
    UTC, in milliseconds, in force at a given instant). *)
Record Env := mkEnv {
  now : Z;
  randomUUID : string;
  LocalTZA : Z -> Z
}.

(** [createTask(text)] *)
Definition createTask (env : Env) (txt : jsstring) : Task :=
  {| id := randomUUID env;
     text := trim txt;
     done := false;
     createdAt := now env |}.

Module TaskList.

(** [tasks.find((t) => t.id === id)] followed by
    [if (task) task.done = !task.done]: the first task with that id is
    updated in place, the array is otherwise untouched. *)
Fixpoint toggleFirst (i : string) (tasks : list Task) : list Task :=
  match tasks with
  | [] => []
  | t :: r =>
      if String.eqb (id t) i
      then {| id := id t; text := text t; done := negb (done t);
              createdAt := createdAt t |} :: r
      else t :: toggleFirst i r
  end.

(** [tasks.filter((t) => t.id !== id)] *)
Definition removeId (i : string) (tasks : list Task) : list Task :=
  List.filter (fun t => negb (String.eqb (id t) i)) tasks.

(** [tasks.filter((t) => !t.done)] *)
Definition notDone (tasks : list Task) : list Task :=
  List.filter (fun t => negb (done t)) tasks.

(** [tasks.splice(i, 1)] *)
Definition splice1 (i : nat) (tasks : list Task) : list Task :=
  take i tasks ++ drop (S i) tasks.

(** The loop of [deleteLastTask]:
    [for (let i = tasks.length - 1; i >= 0; i--)], looking for the first
    index, from the end, whose task is not done.  [n] is [i + 1]. *)
Fixpoint lastNotDone (tasks : list Task) (n : nat) : option nat :=
  match n with
  | O => None
  | S i =>
      match tasks !! i with
      | Some t => if done t then lastNotDone tasks i else Some i
      | None => lastNotDone tasks i
      end
  end.

End TaskList.

(* ================================================================== *)
(** * Dates *)
(* ================================================================== *)

(** A [Date] is followed by the local time it shows: the number of
    milliseconds between local midnight of 1 January 1970 and the local
    wall-clock reading.  The getters the sources use ([getFullYear],
    [getMonth], [getDate], [getDay]) read local fields, so they are
    functions of that value alone.  [setDate] hands a local time to the
    host, and so does the subtraction of two dates read from strings; the
    host answers through its time zone, which has no instant for a local
    time its clocks skip: see [LocalTime] and [UTC].  Time values are taken
    inside the range of [Date], where [TimeClip] changes nothing; the
    statements that depend on it say so. *)
Module JsDate.

Definition msPerDay : Z := 86400000.

(** The host time zone: [tz t] is the offset from UTC, in milliseconds, in
    force at the instant [t], a UTC time value. *)
Abbreviation TimeZone := (Z -> Z).

(** [LocalTime(t)]: the local time shown at the instant [t]. *)
Definition LocalTime (tz : TimeZone) (t : Z) : Z := t + tz t.

(** [UTC(t)]: the instant of the local time [l].  Of the instants that
    show [l] ECMAScript takes the earliest; for a local time that no
    instant shows, skipped when the clocks are put forward, it takes the
    instant [l] would have had with the offset in force before the change.
    The offsets before and after are looked up one day away on either side
    of [l], which finds them in a zone whose changes lie at least two days
    apart and whose offsets stay within a day of UTC. *)
Definition UTC (tz : TimeZone) (l : Z) : Z :=
  let before := tz (l - msPerDay) in
  let after := tz (l + msPerDay) in
  if tz (l - before) =? before then l - before
  else if tz (l - after) =? after then l - after
  else l - before.

Definition Day (t : Z) : Z := t / msPerDay.
Definition TimeWithinDay (t : Z) : Z := t mod msPerDay.

Definition isLeapYear (y : Z) : bool :=
  (y mod 4 =? 0) && (negb (y mod 100 =? 0) || (y mod 400 =? 0)).

Definition DaysInYear (y : Z) : Z := if isLeapYear y then 366 else 365.

Definition DayFromYear (y : Z) : Z :=
  365 * (y - 1970) + (y - 1969) / 4 - (y - 1901) / 100 + (y - 1601) / 400.

(** The largest [y] with [DayFromYear y <= n]: a first guess from the mean
    length of a Gregorian year, corrected by at most one. *)
Definition YearFromDay (n : Z) : Z :=
  let y0 := 1970 + (400 * n) / 146097 in
  if n <? DayFromYear y0 then y0 - 1
  else if DayFromYear (y0 + 1) <=? n then y0 + 1
  else y0.

Definition YearFromTime (t : Z) : Z := YearFromDay (Day t).

Definition DayWithinYear (t : Z) : Z := Day t - DayFromYear (YearFromTime t).

Definition InLeapYear (t : Z) : Z :=
  if isLeapYear (YearFromTime t) then 1 else 0.

(** Month number, 0 = January, of the day [d] of a year ([l] is 1 in a
    leap year). *)
Definition monthOfYearDay (l d : Z) : Z :=
  if d <? 31 then 0
  else if d <? 59 + l then 1
  else if d <? 90 + l then 2
  else if d <? 120 + l then 3
  else if d <? 151 + l then 4
  else if d <? 181 + l then 5
  else if d <? 212 + l then 6
  else if d <? 243 + l then 7
  else if d <? 273 + l then 8
  else if d <? 304 + l then 9
  else if d <? 334 + l then 10
  else 11.

(** Number of days of the year before month [m]. *)
Definition daysBeforeMonth (l m : Z) : Z :=
  match m with
  | 0 => 0
  | 1 => 31
  | 2 => 59 + l
  | 3 => 90 + l
  | 4 => 120 + l
  | 5 => 151 + l
  | 6 => 181 + l
  | 7 => 212 + l
  | 8 => 243 + l
  | 9 => 273 + l
  | 10 => 304 + l
  | _ => 334 + l
  end.

Definition MonthFromTime (t : Z) : Z :=
  monthOfYearDay (InLeapYear t) (DayWithinYear t).

Definition DateFromTime (t : Z) : Z :=
  DayWithinYear t - daysBeforeMonth (InLeapYear t) (MonthFromTime t) + 1.

Definition WeekDay (t : Z) : Z := (Day t + 4) mod 7.

(** [MakeDay(year, month, date)]: months outside 0..11 carry into the
    year, and the date is an offset from the first of the month. *)
Definition MakeDay (year month date : Z) : Z :=
  let ym := year + month / 12 in
  let mn := month mod 12 in
  DayFromYear ym + daysBeforeMonth (if isLeapYear ym then 1 else 0) mn
    + date - 1.

Definition MakeDate (day time : Z) : Z := day * msPerDay + time.

Definition MakeTime (h m s ms : Z) : Z :=
  h * 3600000 + m * 60000 + s * 1000 + ms.

(** [new Date(year, month, date)]: a year from 0 to 99 stands for
    1900 + year.  The value is the local date asked for at midnight.  The
    calendar reads of it the weekday and the day of the month only, which
    are those of that local date wherever the zone has some time of that
    day, midnight or later.  Dates outside the range of [Date], before
    20 April -271821 or after 13 September 275760, are [Invalid Date] in
    the source and are not given a value of their own here. *)
Definition newDate (year month date : Z) : Z :=
  let yr := if (0 <=? year) && (year <=? 99) then 1900 + year else year in
  MakeDate (MakeDay yr month date) 0.

Definition getFullYear (d : Z) : Z := YearFromTime d.
Definition getMonth (d : Z) : Z := MonthFromTime d.
Definition getDate (d : Z) : Z := DateFromTime d.
Definition getDay (d : Z) : Z := WeekDay d.

(** [d.setDate(date)]: the local fields of [d] with the day of the month
    replaced are handed to the host as a local time, and the date then
    shows the local time of the instant the host makes of it, which is a
    later one when the local time asked for is skipped. *)
Definition setDate (tz : TimeZone) (d date : Z) : Z :=
  LocalTime tz
    (UTC tz
       (MakeDate (MakeDay (YearFromTime d) (MonthFromTime d) date)
          (TimeWithinDay d))).

(** Number of days of month [m] (0 = January) of year [y]: the civil
    calendar, stated without reference to time values. *)
Definition daysInMonth (y m : Z) : Z :=
  match m with
  | 1 => if isLeapYear y then 29 else 28
  | 3 | 5 | 8 | 10 => 30
  | _ => 31
  end.

End JsDate.
Import JsDate.

(* ================================================================== *)
(** * Date strings *)
(* ================================================================== *)

Module DateString.

(** [String(n)] for an integer [n] of at most 2^53 - 1 in absolute value
    (a safe integer): its decimal rendering.  Larger Numbers, which
    [String] prints rounded and, from 10^21 on, with an exponent, are
    outside what this definition describes; the date fields, list lengths
    and counts it is applied to below are safe integers or are required to
    be. *)
Definition toString (n : Z) : string := pretty n.

(** [s.padStart(2, "0")] *)
Definition padStart2 (s : string) : string :=
  match String.length s with
  | 0%nat => "00"
  | 1%nat => "0" +:+ s
  | _ => s
  end.

(** [formatDate(d)], also the body of [todayString] applied to the
    clock. *)
Definition formatDate (d : Z) : string :=
  toString (getFullYear d) +:+ "-" +:+ padStart2 (toString (getMonth d + 1))
    +:+ "-" +:+ padStart2 (toString (getDate d)).

(** The template of [renderCalendar]:
    [`${year}-${String(month + 1).padStart(2, "0")}-${String(day).padStart(2, "0")}`] *)
Definition dateStrOf (year month day : Z) : string :=
  toString year +:+ "-" +:+ padStart2 (toString (month + 1))
    +:+ "-" +:+ padStart2 (toString day).

Definition digitOf (c : ascii) : option Z :=
  let n := Z.of_N (N_of_ascii c) in
  if (48 <=? n) && (n <=? 57) then Some (n - 48) else None.

Definition number2 (a b : ascii) : option Z :=
  match digitOf a, digitOf b with
  | Some x, Some y => Some (10 * x + y)
  | _, _ => None
  end.

Definition number4 (a b c d : ascii) : option Z :=
  match number2 a b, number2 c d with
  | Some x, Some y => Some (100 * x + y)
  | _, _ => None
  end.

(** The reading of the string in [new Date(s)], for a string of the
    date-time form [YYYY-MM-DDTHH:mm:ss]: the local date and time the
    string names, which the host then turns into an instant by [UTC]
    (see [instant]); [None] is [Invalid Date].  The fields are checked the
    way V8 checks them, the engine of the browser the extension is written
    for: a month from 1 to 12, a day from 1 to 31 in any month, which
    carries into the next month when the month is shorter, and a time up
    to 23:59:59 or 24:00:00.  Strings of another shape, whose reading
    ECMAScript leaves to the implementation, are counted as invalid. *)
Definition parseDate (s : string) : option Z :=
  match s with
  | String y3 (String y2 (String y1 (String y0 (String "-"
    (String m1 (String m0 (String "-" (String d1 (String d0 (String "T"
    (String h1 (String h0 (String ":" (String n1 (String n0 (String ":"
    (String s1 (String s0 EmptyString)))))))))))))))))) =>
      match number4 y3 y2 y1 y0, number2 m1 m0, number2 d1 d0,
            number2 h1 h0, number2 n1 n0, number2 s1 s0 with
      | Some y, Some m, Some d, Some h, Some n, Some sec =>
          if (1 <=? m) && (m <=? 12) && (1 <=? d) && (d <=? 31)
             && (((h <=? 23) && (n <=? 59) && (sec <=? 59))
                 || ((h =? 24) && (n =? 0) && (sec =? 0)))
          then Some (MakeDate (MakeDay y (m - 1) d) (MakeTime h n sec 0))
          else None
      | _, _, _, _, _, _ => None
      end
  | _ => None
  end.

(** [keys.sort()]: the default order of [Array.prototype.sort] on
    strings, by UTF-16 code units. *)
Definition sort (l : list string) : list string := merge_sort String.le l.

End DateString.
Import DateString.

(* ================================================================== *)
(** * Daily history *)
(* ================================================================== *)

(** [{ text: t.text, done: t.done }] *)
Record SnapshotTask := mkSnapshotTask {
  snapText : jsstring;
  snapDone : bool
}.

(** [{ tasks: simplified, allDone }] *)
Record DaySnapshot := mkDaySnapshot {
  tasks : list SnapshotTask;
  allDone : bool
}.

(** [dailyHistory]: an object whose keys are date strings. *)
Abbreviation History := (gmap string DaySnapshot).

(** [Object.keys(dailyHistory)] *)
Definition keys (h : History) : list string := (map_to_list h).*1.

(** [dailyHistory[key] && dailyHistory[key].allDone] as a condition. *)
Definition entryAllDone (h : History) (key : string) : bool :=
  match h !! key with
  | Some e => allDone e
  | None => false
  end.

(** [{ current, best }] *)
Record StreakResult := mkStreak {
  current : Z;
  best : Z
}.

Module Streak.

(** The instant of a date made from a local time: what the subtraction of
    two dates compares. *)
Definition instant (LocalTZA : TimeZone) (l : Z) : Z := UTC LocalTZA l.

(** [diff === 1] where [diff = (curr - prev) / (1000 * 60 * 60 * 24)] and
    [prev], [curr] are the dates read from two keys.  With an invalid
    date the difference is [NaN] and the test fails.  A quotient of two
    integers of this size is 1 only when they are equal. *)
Definition diffIsOne (LocalTZA : TimeZone) (prev curr : option Z) : bool :=
  match prev, curr with
  | Some p, Some c => instant LocalTZA c - instant LocalTZA p =? 1000 * 60 * 60 * 24
  | _, _ => false
  end.

(** One turn of the [while (true)] loop that walks backwards, from the
    date [d] with the count [current]: the date and count of the next
    turn, or the count at [break]. *)
Definition walkTurn (LocalTZA : TimeZone) (h : History) (s : Z * Z)
    : (Z * Z) + Z :=
  let '(d, current) := s in
  let key := formatDate d in
  if entryAllDone h key
  then inl (setDate LocalTZA d (getDate d - 1), current + 1)
  else inr current.

(** [2 ^ k] turns of the loop, or fewer when it breaks. *)
Fixpoint walkTurns (k : nat) (LocalTZA : TimeZone) (h : History) (s : Z * Z)
    : (Z * Z) + Z :=
  match k with
  | O => walkTurn LocalTZA h s
  | S k' =>
      match walkTurns k' LocalTZA h s with
      | inl s' => walkTurns k' LocalTZA h s'
      | inr c => inr c
      end
  end.

(** The first [fuel] turns of the loop, one by one. *)
Fixpoint walkRun (fuel : nat) (LocalTZA : TimeZone) (h : History) (s : Z * Z)
    : (Z * Z) + Z :=
  match fuel with
  | O => inl s
  | S fuel' =>
      match walkTurn LocalTZA h s with
      | inl s' => walkRun fuel' LocalTZA h s'
      | inr c => inr c
      end
  end.

(** The loop has no bound in the source.  A turn goes on only from a date
    whose key is recorded as done, and there are fewer than
    [2 ^ (size h + 28)] such dates, counted to the millisecond; a walk of
    that many turns has been at some date twice and goes round for ever
    (lemma [walk_never_ends]).  [calculateStreak] runs the loop for
    [2 ^ walkDepth h] turns. *)
Definition walkDepth (h : History) : nat := (size h + 28)%nat.

(** The date of the loop after [n] turns that all went on, from the date
    [d]. *)
Fixpoint dateAfter (n : nat) (tz : Z -> Z) (d : Z) : Z :=
  match n with
  | O => d
  | S n' => dateAfter n' tz (setDate tz d (getDate d - 1))
  end.

(** The [for] loop over [allDates], from index [i], with [steps]
    iterations left.  [None] stands for the [TypeError] of reading
    [.allDone] of a missing entry. *)
Fixpoint bestLoop (LocalTZA : TimeZone) (h : History) (allDates : list string)
    (i steps : nat) (run best : Z) : option Z :=
  match steps with
  | O => Some best
  | S steps' =>
      match allDates !! i with
      | None => None
      | Some key =>
          match h !! key with
          | None => None
          | Some e =>
              if allDone e then
                let run' :=
                  if Nat.eqb i 0 then Some 1
                  else
                    match allDates !! (i - 1)%nat with
                    | None => Some 1
                    | Some keyPrev =>
                        let prev := parseDate (keyPrev +:+ "T00:00:00") in
                        let curr := parseDate (key +:+ "T00:00:00") in
                        match h !! keyPrev with
                        | None => if diffIsOne LocalTZA prev curr then None else Some 1
                        | Some ep =>
                            if diffIsOne LocalTZA prev curr && allDone ep
                            then Some (run + 1) else Some 1
                        end
                    end in
                match run' with
                | None => None
                | Some r =>
                    bestLoop LocalTZA h allDates (S i) steps' r
                      (if best <? r then r else best)
                end
              else bestLoop LocalTZA h allDates (S i) steps' 0 best
          end
      end
  end.

(** [calculateStreak()], reading the clock [nowv], the host time zone and
    the history [h].  [None] is a call that does not return: the walk
    never ends, or the scan reads [allDone] of a missing entry. *)
Definition calculateStreak (LocalTZA : TimeZone) (h : History) (nowv : Z)
    : option StreakResult :=
  let dates := sort (keys h) in
  if Nat.eqb (length dates) 0 then Some {| current := 0; best := 0 |}
  else
    let d := nowv in
    let todayKey := formatDate nowv in
    let '(current0, d) :=
      if entryAllDone h todayKey
      then (1, setDate LocalTZA d (getDate d - 1))
      else (0, setDate LocalTZA d (getDate d - 1)) in
    match walkTurns (walkDepth h) LocalTZA h (d, current0) with
    | inl _ => None
    | inr cur =>
        let allDates := sort dates in
        match bestLoop LocalTZA h allDates 0 (length allDates) 0 0 with
        | None => None
        | Some b => Some {| current := cur; best := Z.max b cur |}
        end
    end.

End Streak.
Import Streak.

(* ================================================================== *)
(** * The page: storage, module variables and what is displayed *)
(* ================================================================== *)

(** JavaScript values carried by the [count] field of a badge message. *)
Inductive JsValue :=
| JsUndefined
| JsNull
| JsNumber (n : Z).

(** [{ type, count }] *)
Record Message := mkMessage {
  msgType : string;
  count : JsValue
}.

(** [chrome.storage.local]; a missing key reads as [undefined] ([None]). *)
Module Storage.
Record t := mk {
  tasks : option (list Task);
  dailyHistory : option History;
  badgeEnabled : option bool;
  lastReviewedDate : option string
}.
Definition empty : t := mk None None None None.
End Storage.

(** One cell of [#cal-days]. *)
Inductive CalendarCell :=
| EmptyCell
| DayCell (day : Z) (dateStr : string) (isToday : bool) (entry : option bool).

(** The text of [#streak-current]. *)
Inductive StreakLabel :=
| NoStreakYet
| DayStreak (n : Z).

Module Page.
Record t := mk {
  storage : Storage.t;
  (** module variables *)
  dailyHistory : History;
  calYear : Z;
  calMonth : Z;
  (** the document *)
  taskInputValue : jsstring;
  taskListItems : list Task;
  remainingCount : string;
  reviewBannerHidden : bool;
  calendarPanelHidden : bool;
  calMonthLabel : string;
  calDays : list CalendarCell;
  streakCurrent : StreakLabel;
  streakBest : option Z;
  (** messages handed to [chrome.runtime.sendMessage], latest first *)
  sent : list Message
}.
End Page.

(** State monad over the page. *)
Definition M (A : Type) : Type := Page.t -> A * Page.t.

#[global] Instance M_ret : MRet M := fun A a p => (a, p).
#[global] Instance M_bind : MBind M :=
  fun A B f m p => let '(a, p') := m p in f a p'.

Definition get : M Page.t := fun p => (p, p).
Definition modify (f : Page.t -> Page.t) : M unit := fun p => (tt, f p).
Definition exec {A} (m : M A) (p : Page.t) : Page.t := (m p).2.

Definition setStorage (f : Storage.t -> Storage.t) (p : Page.t) : Page.t :=
  Page.mk (f (Page.storage p)) (Page.dailyHistory p) (Page.calYear p)
    (Page.calMonth p) (Page.taskInputValue p) (Page.taskListItems p)
    (Page.remainingCount p) (Page.reviewBannerHidden p)
    (Page.calendarPanelHidden p) (Page.calMonthLabel p) (Page.calDays p)
    (Page.streakCurrent p) (Page.streakBest p) (Page.sent p).

Definition setDailyHistory (h : History) (p : Page.t) : Page.t :=
  Page.mk (Page.storage p) h (Page.calYear p)
    (Page.calMonth p) (Page.taskInputValue p) (Page.taskListItems p)
    (Page.remainingCount p) (Page.reviewBannerHidden p)
    (Page.calendarPanelHidden p) (Page.calMonthLabel p) (Page.calDays p)
    (Page.streakCurrent p) (Page.streakBest p) (Page.sent p).

Definition setCalendar (y m : Z) (label : string) (cells : list CalendarCell)
    (p : Page.t) : Page.t :=
  Page.mk (Page.storage p) (Page.dailyHistory p) y m
    (Page.taskInputValue p) (Page.taskListItems p)
    (Page.remainingCount p) (Page.reviewBannerHidden p)
    (Page.calendarPanelHidden p) label cells
    (Page.streakCurrent p) (Page.streakBest p) (Page.sent p).

Definition setCalCursor (y m : Z) (p : Page.t) : Page.t :=
  Page.mk (Page.storage p) (Page.dailyHistory p) y m
    (Page.taskInputValue p) (Page.taskListItems p)
    (Page.remainingCount p) (Page.reviewBannerHidden p)
    (Page.calendarPanelHidden p) (Page.calMonthLabel p) (Page.calDays p)
    (Page.streakCurrent p) (Page.streakBest p) (Page.sent p).

Definition setTaskInput (v : jsstring) (p : Page.t) : Page.t :=
  Page.mk (Page.storage p) (Page.dailyHistory p) (Page.calYear p)
    (Page.calMonth p) v (Page.taskListItems p)
    (Page.remainingCount p) (Page.reviewBannerHidden p)
    (Page.calendarPanelHidden p) (Page.calMonthLabel p) (Page.calDays p)
    (Page.streakCurrent p) (Page.streakBest p) (Page.sent p).

Definition setTaskList (items : list Task) (remaining : string) (p : Page.t)
    : Page.t :=
  Page.mk (Page.storage p) (Page.dailyHistory p) (Page.calYear p)
    (Page.calMonth p) (Page.taskInputValue p) items remaining
    (Page.reviewBannerHidden p)
    (Page.calendarPanelHidden p) (Page.calMonthLabel p) (Page.calDays p)
    (Page.streakCurrent p) (Page.streakBest p) (Page.sent p).

Definition setReviewBanner (hidden : bool) (p : Page.t) : Page.t :=
  Page.mk (Page.storage p) (Page.dailyHistory p) (Page.calYear p)
    (Page.calMonth p) (Page.taskInputValue p) (Page.taskListItems p)
    (Page.remainingCount p) hidden
    (Page.calendarPanelHidden p) (Page.calMonthLabel p) (Page.calDays p)
    (Page.streakCurrent p) (Page.streakBest p) (Page.sent p).

Definition setCalendarPanel (hidden : bool) (p : Page.t) : Page.t :=
  Page.mk (Page.storage p) (Page.dailyHistory p) (Page.calYear p)
    (Page.calMonth p) (Page.taskInputValue p) (Page.taskListItems p)
    (Page.remainingCount p) (Page.reviewBannerHidden p)
    hidden (Page.calMonthLabel p) (Page.calDays p)
    (Page.streakCurrent p) (Page.streakBest p) (Page.sent p).

Definition setStreak (cur : StreakLabel) (bst : option Z) (p : Page.t)
    : Page.t :=
  Page.mk (Page.storage p) (Page.dailyHistory p) (Page.calYear p)
    (Page.calMonth p) (Page.taskInputValue p) (Page.taskListItems p)
    (Page.remainingCount p) (Page.reviewBannerHidden p)
    (Page.calendarPanelHidden p) (Page.calMonthLabel p) (Page.calDays p)
    cur bst (Page.sent p).

Definition pushSent (m : Message) (p : Page.t) : Page.t :=
  Page.mk (Page.storage p) (Page.dailyHistory p) (Page.calYear p)
    (Page.calMonth p) (Page.taskInputValue p) (Page.taskListItems p)
    (Page.remainingCount p) (Page.reviewBannerHidden p)
    (Page.calendarPanelHidden p) (Page.calMonthLabel p) (Page.calDays p)
    (Page.streakCurrent p) (Page.streakBest p) (m :: Page.sent p).

(** [storageGet(key)], one reader per key the sources use. *)
Definition storageGet {A} (key : Storage.t -> option A) : M (option A) :=
  p ← get; mret (key (Page.storage p)).

(** [storageSet({ tasks })] and its siblings. *)
Definition storageSetTasks (v : list Task) : M unit :=
  modify (setStorage (fun s =>
    Storage.mk (Some v) (Storage.dailyHistory s) (Storage.badgeEnabled s)
      (Storage.lastReviewedDate s))).

Definition storageSetDailyHistory (v : History) : M unit :=
  modify (setStorage (fun s =>
    Storage.mk (Storage.tasks s) (Some v) (Storage.badgeEnabled s)
      (Storage.lastReviewedDate s))).

Definition storageSetBadgeEnabled (v : bool) : M unit :=
  modify (setStorage (fun s =>
    Storage.mk (Storage.tasks s) (Storage.dailyHistory s) (Some v)
      (Storage.lastReviewedDate s))).

Definition storageSetLastReviewedDate (v : string) : M unit :=
  modify (setStorage (fun s =>
    Storage.mk (Storage.tasks s) (Storage.dailyHistory s)
      (Storage.badgeEnabled s) (Some v))).

(* ================================================================== *)
(** * newtab.js *)
(* ================================================================== *)

Module NewTab.

(** [loadTasks()]: [(await storageGet("tasks")) || []] *)
Definition loadTasks : M (list Task) :=
  v ← storageGet Storage.tasks; mret (default [] v).

(** [render(tasks)]: the list items and the remaining count. *)
Definition render (tasks : list Task) : M unit :=
  let remaining := Z.of_nat (length (TaskList.notDone tasks)) in
  modify (setTaskList tasks (toString remaining +:+ " remaining")).

(** [updateBadge(tasks)] *)
Definition updateBadge (tasks : list Task) : M unit :=
  enabled ← storageGet Storage.badgeEnabled;
  let remaining := Z.of_nat (length (TaskList.notDone tasks)) in
  modify (pushSent
    {| msgType := "UPDATE_BADGE";
       count := if default false enabled then JsNumber remaining else JsNull |}).

(** [todayString()] *)
Definition todayString (env : Env) : string := formatDate (now env).

(** [updateStreak()].  When [calculateStreak] does not return the page
    stops there; the streak lines are then left as they were. *)
Definition updateStreak (env : Env) : M unit :=
  p ← get;
  match calculateStreak (LocalTZA env) (Page.dailyHistory p) (now env) with
  | Some r =>
      modify (setStreak
        (if 0 <? current r then DayStreak (current r) else NoStreakYet)
        (if 0 <? best r then Some (best r) else None))
  | None => mret tt
  end.

Definition monthNames : list string :=
  ["January"; "February"; "March"; "April"; "May"; "June";
   "July"; "August"; "September"; "October"; "November"; "December"]%string.

(** The second loop of [renderCalendar]: the cells of [n] days from
    [day] on. *)
Fixpoint dayCells (h : History) (todayKey : string) (year month day : Z)
    (n : nat) : list CalendarCell :=
  match n with
  | O => []
  | S n' =>
      let dateStr := dateStrOf year month day in
      DayCell day dateStr (String.eqb dateStr todayKey) (allDone <$> h !! dateStr)
        :: dayCells h todayKey year month (day + 1) n'
  end.

(** The cells [renderCalendar] appends to [#cal-days]. *)
Definition calendarCells (h : History) (todayKey : string) (year month : Z)
    : list CalendarCell :=
  let firstDay := getDay (newDate year month 1) in
  let daysInMonth := getDate (newDate year (month + 1) 0) in
  replicate (Z.to_nat firstDay) EmptyCell
    ++ dayCells h todayKey year month 1 (Z.to_nat daysInMonth).

(** [renderCalendar(year, month)] *)
Definition renderCalendar (env : Env) (year month : Z) : M unit :=
  p ← get;
  let name :=
    if 0 <=? month then default "undefined"%string (monthNames !! Z.to_nat month)
    else "undefined"%string in
  modify (setCalendar year month (name +:+ " " +:+ toString year)
    (calendarCells (Page.dailyHistory p) (todayString env) year month)).

(** The snapshot [snapshotToday] stores for a task list. *)
Definition snapshotOf (tasks : list Task) : DaySnapshot :=
  let simplified :=
    map (fun t => {| snapText := text t; snapDone := done t |}) tasks in
  let allDone := (0 <? length tasks)%nat && forallb done tasks in
  {| tasks := simplified; allDone := allDone |}.

(** [snapshotToday(tasks)] *)
Definition snapshotToday (env : Env) (tasks : list Task) : M unit :=
  stored ← storageGet Storage.dailyHistory;
  let today := todayString env in
  let dailyHistory := <[today := snapshotOf tasks]> (default ∅ stored) in
  modify (setDailyHistory dailyHistory);;
  storageSetDailyHistory dailyHistory;;
  updateStreak env;;
  p ← get;
  if negb (Page.calendarPanelHidden p)
  then renderCalendar env (Page.calYear p) (Page.calMonth p)
  else mret tt.

(** [loadHistory()] *)
Definition loadHistory : M unit :=
  stored ← storageGet Storage.dailyHistory;
  modify (setDailyHistory (default ∅ stored)).

(** [saveTasks(tasks)] *)
Definition saveTasks (env : Env) (tasks : list Task) : M unit :=
  storageSetTasks tasks;;
  render tasks;;
  updateBadge tasks;;
  snapshotToday env tasks.

(** [addTask(text)] *)
Definition addTask (env : Env) (txt : jsstring) : M unit :=
  if negb (truthy (trim txt)) then mret tt
  else
    tasks ← loadTasks;
    saveTasks env (tasks ++ [createTask env txt]);;
    modify (setTaskInput []).

(** [toggleTask(id)] *)
Definition toggleTask (env : Env) (i : string) : M unit :=
  tasks ← loadTasks;
  saveTasks env (TaskList.toggleFirst i tasks).

(** [deleteTask(id)] *)
Definition deleteTask (env : Env) (i : string) : M unit :=
  tasks ← loadTasks;
  saveTasks env (TaskList.removeId i tasks).

(** [clearCompleted()] *)
Definition clearCompleted (env : Env) : M unit :=
  tasks ← loadTasks;
  saveTasks env (TaskList.notDone tasks).

(** [deleteLastTask()] *)
Definition deleteLastTask (env : Env) : M unit :=
  tasks ← loadTasks;
  match TaskList.lastNotDone tasks (length tasks) with
  | Some i => saveTasks env (TaskList.splice1 i tasks)
  | None => mret tt
  end.

(** [checkReview()] *)
Definition checkReview (env : Env) : M unit :=
  lastReviewed ← storageGet Storage.lastReviewedDate;
  match lastReviewed with
  | Some s => modify (setReviewBanner (String.eqb s (todayString env)))
  | None => modify (setReviewBanner false)
  end.

(** [markReviewed()] *)
Definition markReviewed (env : Env) : M unit :=
  storageSetLastReviewedDate (todayString env);;
  modify (setReviewBanner true).

(** The click handlers of [#cal-prev] and [#cal-next]. *)
Definition calPrevClick (env : Env) : M unit :=
  p ← get;
  let m := Page.calMonth p - 1 in
  if m <? 0 then renderCalendar env (Page.calYear p - 1) 11
  else renderCalendar env (Page.calYear p) m.

Definition calNextClick (env : Env) : M unit :=
  p ← get;
  let m := Page.calMonth p + 1 in
  if 11 <? m then renderCalendar env (Page.calYear p + 1) 0
  else renderCalendar env (Page.calYear p) m.

(** The click handler of [#calendar-toggle]. *)
Definition calendarToggleClick (env : Env) : M unit :=
  p ← get;
  let isHidden := negb (Page.calendarPanelHidden p) in
  modify (setCalendarPanel isHidden);;
  if negb isHidden then renderCalendar env (Page.calYear p) (Page.calMonth p)
  else mret tt.

(** The change handler of [#badge-toggle]. *)
Definition badgeToggleChange (checked : bool) : M unit :=
  storageSetBadgeEnabled checked;;
  tasks ← loadTasks;
  updateBadge tasks.

(** [init()].  The checkbox [#badge-toggle] mirrors the stored
    [badgeEnabled] and is not kept apart from it. *)
Definition init (env : Env) : M unit :=
  tasks ← loadTasks;
  render tasks;;
  checkReview env;;
  updateBadge tasks;;
  modify (setCalCursor (getFullYear (now env)) (getMonth (now env)));;
  loadHistory;;
  snapshotToday env tasks;;
  updateStreak env.

End NewTab.

(* ================================================================== *)
(** * service_worker.js *)
(* ================================================================== *)

Module ServiceWorker.

(** What [chrome.action] shows; the colour is [None] until it is set. *)
Record Badge := mkBadge {
  badgeText : string;
  badgeBackgroundColor : option string
}.

(** The listener of [chrome.runtime.onMessage]. *)
Definition onMessage (msg : Message) (b : Badge) : Badge :=
  if negb (String.eqb (msgType msg) "UPDATE_BADGE") then b
  else
    match count msg with
    | JsNull | JsUndefined =>
        {| badgeText := ""; badgeBackgroundColor := badgeBackgroundColor b |}
    | JsNumber n =>
        {| badgeText := if 0 <? n then toString n else "";
           badgeBackgroundColor := Some "#3a7a4a"%string |}
    end.

(** The listener of [chrome.storage.onChanged], given the new value of
    the [tasks] key when that key changed and the stored
    [badgeEnabled]. *)
Definition onChanged (changedTasks : option (option (list Task)))
    (badgeEnabled : option bool) (b : Badge) : Badge :=
  match changedTasks with
  | None => b
  | Some newValue =>
      if negb (default false badgeEnabled)
      then {| badgeText := ""; badgeBackgroundColor := badgeBackgroundColor b |}
      else
        let remaining :=
          Z.of_nat (length (TaskList.notDone (default [] newValue))) in
        {| badgeText := if 0 <? remaining then toString remaining else "";
           badgeBackgroundColor := Some "#3a7a4a"%string |}
  end.

End ServiceWorker.

(* ================================================================== *)
(** * Vocabulary of the statements *)
(* ================================================================== *)

(** The task list a page would load: the [tasks] key, or the empty list. *)
Definition storedTasks (p : Page.t) : list Task :=
  default [] (Storage.tasks (Page.storage p)).

(** The history a page would load: the [dailyHistory] key, or the empty
    object. *)
Definition storedHistory (p : Page.t) : History :=
  default ∅ (Storage.dailyHistory (Page.storage p)).

(** The text of a stored task is a non-empty trimmed string. *)
Definition textOk (t : Task) : Prop := text t <> [] /\ trimmed (text t).

(** A task with its [done] field flipped and nothing else changed. *)
Definition flipDone (t : Task) : Task :=
  {| id := id t; text := text t; done := negb (done t); createdAt := createdAt t |}.

(** Sample data for the worked examples. *)
Definition sampleEnv : Env :=
  {| now := newDate 2025 2 20 + 9 * 3600000;
     randomUUID := "6f1c2f0e-0000-4000-8000-000000000003";
     LocalTZA := fun _ => 0 |}.

Definition emptyPage : Page.t :=
  Page.mk Storage.empty ∅ 2025 2 [] [] "" false true "" [] NoStreakYet None [].

Definition sampleTasks : list Task :=
  [ {| id := "a"; text := codeUnits "write report"; done := true; createdAt := 1 |};
    {| id := "b"; text := codeUnits "call bank"; done := false; createdAt := 2 |};
    {| id := "c"; text := codeUnits "water plants"; done := true; createdAt := 3 |} ].

Definition samplePage : Page.t :=
  setStorage (fun _ => Storage.mk (Some sampleTasks) None (Some true) None) emptyPage.

(** A page whose stored tasks are all done. *)
Definition doneTasks : list Task :=
  [ {| id := "a"; text := codeUnits "write report"; done := true; createdAt := 1 |};
    {| id := "c"; text := codeUnits "water plants"; done := true; createdAt := 3 |} ].

Definition allDonePage : Page.t :=
  setStorage (fun _ => Storage.mk (Some doneTasks) None (Some true) None) emptyPage.

(** The number a string of decimal digits denotes; [None] when some
    character is not a digit. *)
Fixpoint readDigits (s : string) (acc : Z) : option Z :=
  match s with
  | EmptyString => Some acc
  | String c r =>
      match digitOf c with
      | Some d => readDigits r (10 * acc + d)
      | None => None
      end
  end.

Definition readDecimal (s : string) : option Z := readDigits s 0.


(** The weekday index (0 = Sunday) of day [d] of month [m] (0 = January)
    of year [y] in the Gregorian calendar, by the usual congruence on the
    civil date; it does not go through time values. *)
Definition weekdayOfCivil (y m d : Z) : Z :=
  let y' := if m <? 2 then y - 1 else y in
  let shift :=
    match m with
    | 0 => 0 | 1 => 3 | 2 => 2 | 3 => 5 | 4 => 0 | 5 => 3
    | 6 => 5 | 7 => 1 | 8 => 4 | 9 => 6 | 10 => 2 | _ => 4
    end in
  (y' + y' / 4 - y' / 100 + y' / 400 + shift + d) mod 7.

(** The cell the calendar shows for a day of the displayed month. *)
Definition cellOfDay (h : History) (todayKey : string) (year month day : Z)
    : CalendarCell :=
  DayCell day (dateStrOf year month day)
    (String.eqb (dateStrOf year month day) todayKey)
    (allDone <$> h !! dateStrOf year month day).

(** Calendar days are numbered from 1 January 1970 (day 0); [dateKey n]
    is the key under which day [n] is recorded. *)
Definition dateKey (n : Z) : string := formatDate (MakeDate n 0).

(** Day [n] has an entry and that entry has [allDone = true]. *)
Definition doneOn (h : History) (n : Z) : bool := entryAllDone h (dateKey n).

(** The walk for the current streak as the specification words it: from
    day [n] backwards, one calendar day at a time, counting while the day
    is done; [fuel] bounds the number of days looked at. *)
Fixpoint specWalk (fuel : nat) (h : History) (n : Z) (count : Z) : option Z :=
  match fuel with
  | O => None
  | S fuel' =>
      if doneOn h n then specWalk fuel' h (n - 1) (count + 1) else Some count
  end.

(** The current streak of the specification on day [today]: 1 for today
    when it is done, and one for each done day from yesterday backwards up
    to the first day that is not. *)
Definition specCurrent (h : History) (today : Z) : option Z :=
  specWalk (S (size h)) h (today - 1) (if doneOn h today then 1 else 0).

(** The host has an instant that shows the local time [l]: its clocks do
    not skip [l]. *)
Definition unskipped (tz : Z -> Z) (l : Z) : Prop := LocalTime tz (UTC tz l) = l.

(** The local times [setDate] asks for on the first [k] steps back from
    the clock [nowv], which are the time of day of [nowv] on each of the
    [k] days before it, are not skipped. *)
Definition walkUnskipped (tz : Z -> Z) (nowv k : Z) : Prop :=
  forall j, 1 <= j <= k -> unskipped tz (nowv - j * msPerDay).

(** No earlier day skips the time of day of the clock of [env]. *)
Definition clockUnskipped (env : Env) : Prop :=
  forall j, 1 <= j -> unskipped (LocalTZA env) (now env - j * msPerDay).

(** The integers [String] prints digit by digit:
    [Number.MAX_SAFE_INTEGER] and below. *)
Definition maxSafeInteger : Z := 9007199254740991.

(** The character of a decimal digit, and the two characters of a number
    below 100. *)
Definition digitChar (d : Z) : ascii := ascii_of_N (Z.to_N (48 + d)).

Definition twoDigits (v : Z) : string :=
  String (digitChar (v / 10)) (String (digitChar (v mod 10)) EmptyString).

(** Day numbers of 1 January 1000 and 31 December 9999: the days whose
    key has the shape YYYY-MM-DD. *)
Definition firstDay4 : Z := DayFromYear 1000.
Definition lastDay4 : Z := DayFromYear 10000 - 1.

(** Every key of the history is the key of a day with a four-digit year,
    as are the keys [snapshotToday] writes in those years. *)
Definition wellFormed (h : History) : Prop :=
  forall k, is_Some (h !! k) -> exists n, firstDay4 <= n <= lastDay4 /\ k = dateKey n.

(** The day a key stands for, read the way [calculateStreak] reads it. *)
Definition keyDay (k : string) : option Z := Day <$> parseDate (k +:+ "T00:00:00").

(** The recorded dates in ascending order. *)
Definition recordedDays (h : History) : list Z :=
  merge_sort Z.le (omap keyDay (keys h)).

(** The scan for the best streak as the specification words it: over the
    recorded dates in ascending order, a done date extends the run when it
    is the first recorded date or when the calendar day before it is
    recorded with [allDone = true], and otherwise restarts the run at 1; a
    date that is not done resets the run to 0; the largest run is kept. *)
Fixpoint specScan (h : History) (days : list Z) (first : bool) (run bst : Z) : Z :=
  match days with
  | [] => bst
  | n :: rest =>
      if doneOn h n then
        let run' := if first || doneOn h (n - 1) then run + 1 else 1 in
        specScan h rest false run' (Z.max bst run')
      else specScan h rest false 0 bst
  end.

Definition scanBest (h : History) : Z := specScan h (recordedDays h) true 0 0.

(** A time zone whose offset from UTC never changes. *)
Definition constantOffset (tz : Z -> Z) : Prop := forall a b, tz a = tz b.

(** All days from [n] on, [len] of them, are done. *)
Definition doneRun (h : History) (n len : Z) : Prop :=
  forall j, 0 <= j < len -> doneOn h (n + j) = true.

(** Host time zones for the worked examples.  One has no offset.  The
    rules of New York in 2025: five hours behind UTC, and four hours
    behind with daylight saving time, from 9 March 02:00 local time, which
    is 07:00 UTC, to 2 November 02:00 local time, which is 06:00 UTC. *)
Definition utcZone : Z -> Z := fun _ => 0.

Definition newYork2025 : Z -> Z := fun t =>
  if (MakeDate (MakeDay 2025 2 9) (MakeTime 7 0 0 0) <=? t)
     && (t <? MakeDate (MakeDay 2025 10 2) (MakeTime 6 0 0 0))
  then -4 * 3600000 else -5 * 3600000.

(** The rules of Havana in 2025: five hours behind UTC, and four hours
    behind from 05:00 UTC of 9 March to 05:00 UTC of 2 November.  The
    clocks go from 00:00 of 9 March straight to 01:00. *)
Definition havana2025 : Z -> Z := fun t =>
  if (MakeDate (MakeDay 2025 2 9) (MakeTime 5 0 0 0) <=? t)
     && (t <? MakeDate (MakeDay 2025 10 2) (MakeTime 5 0 0 0))
  then -4 * 3600000 else -5 * 3600000.

(** The rules of Nuuk in 2024: two hours behind UTC, and one hour behind
    with daylight saving time, from 01:00 UTC of 31 March to 01:00 UTC of
    27 October.  The clocks go from 23:00 of Saturday 30 March straight to
    00:00 of Sunday 31 March: the last hour of 30 March does not exist. *)
Definition nuuk2024 : Z -> Z := fun t =>
  if (MakeDate (MakeDay 2024 2 31) (MakeTime 1 0 0 0) <=? t)
     && (t <? MakeDate (MakeDay 2024 9 27) (MakeTime 1 0 0 0))
  then -1 * 3600000 else -2 * 3600000.

(** The rules of Apia around the end of 2011: ten hours behind UTC until
    10:00 UTC of 30 December, the end of 29 December there, and fourteen
    hours ahead from then on.  The whole of 30 December does not exist. *)
Definition apia2011 : Z -> Z := fun t =>
  if t <? MakeDate (MakeDay 2011 11 30) (MakeTime 10 0 0 0)
  then -10 * 3600000 else 14 * 3600000.

Definition doneSnapshot : DaySnapshot :=
  {| tasks := [ {| snapText := codeUnits "write report"; snapDone := true |} ];
     allDone := true |}.

Definition openSnapshot : DaySnapshot :=
  {| tasks := [ {| snapText := codeUnits "write report"; snapDone := false |} ];
     allDone := false |}.

(** 20 March 2025, 09:00 local time. *)
Definition march20 : Z := newDate 2025 2 20 + 9 * 3600000.

(** Today and the three days before it, all done. *)
Definition fourDayHistory : History :=
  list_to_map
    [ ("2025-03-17", doneSnapshot); ("2025-03-18", doneSnapshot);
      ("2025-03-19", doneSnapshot); ("2025-03-20", doneSnapshot) ]%string.

(** Five done days from 2 to 6 March, two done days on 18 and 19 March,
    and an entry for today, 20 March, that is not done. *)
Definition twoRunsHistory : History :=
  list_to_map
    [ ("2025-03-02", doneSnapshot); ("2025-03-03", doneSnapshot);
      ("2025-03-04", doneSnapshot); ("2025-03-05", doneSnapshot);
      ("2025-03-06", doneSnapshot); ("2025-03-18", doneSnapshot);
      ("2025-03-19", doneSnapshot); ("2025-03-20", openSnapshot) ]%string.

(** Three done days around the start of daylight saving time. *)
Definition springForwardHistory : History :=
  list_to_map
    [ ("2025-03-08", doneSnapshot); ("2025-03-09", doneSnapshot);
      ("2025-03-10", doneSnapshot) ]%string.

(** Tuesday 2 April 2024, 23:30 local time, and a history with that day
    and the two days before it, all done. *)
Definition nuukClock : Z := newDate 2024 3 2 + 23 * 3600000 + 30 * 60000.

Definition nuukHistory : History :=
  list_to_map
    [ ("2024-03-31", doneSnapshot); ("2024-04-01", doneSnapshot);
      ("2024-04-02", doneSnapshot) ]%string.

(** Saturday 31 December 2011, noon local time, and a history with that
    day alone, done. *)
Definition nuukEnv : Env :=
  {| now := newDate 2024 3 3 + 9 * 3600000;
     randomUUID := "6f1c2f0e-0000-4000-8000-000000000005";
     LocalTZA := nuuk2024 |}.

Definition nuukPage : Page.t :=
  setStorage (fun _ => Storage.mk (Some doneTasks) (Some nuukHistory) (Some true) None)
    emptyPage.

Definition apiaClock : Z := newDate 2011 11 31 + 12 * 3600000.

Definition apiaHistory : History :=
  {[ "2011-12-31"%string := doneSnapshot ]}.


(* ================================================================== *)
(** * The day-detail popup and the keyboard *)
(* ================================================================== *)

(** What [#day-detail-popup] shows.  The heading is the text
    [toLocaleDateString] makes of the date read from the key, which
    depends on the host and its locale; it is kept as the local date and
    time the key names.  Each list item shows the done mark and the text
    of one recorded task. *)
Module DayDetail.
Record t := mk {
  date : option Z;
  items : list SnapshotTask;
  popupHidden : bool;
  overlayHidden : bool
}.
End DayDetail.

(** [showDayDetail(dateStr)], reading the module variable [dailyHistory]. *)
Definition showDayDetail (h : History) (dateStr : string) (v : DayDetail.t)
    : DayDetail.t :=
  match h !! dateStr with
  | None => v
  | Some entry =>
      DayDetail.mk (parseDate (dateStr +:+ "T00:00:00")) (tasks entry) false false
  end.

(** [closeDayDetail()] *)
Definition closeDayDetail (v : DayDetail.t) : DayDetail.t :=
  DayDetail.mk (DayDetail.date v) (DayDetail.items v) true true.

(** The click handler [renderCalendar] attaches to a cell: only cells with
    an entry get one. *)
Definition cellClick (h : History) (c : CalendarCell) (v : DayDetail.t)
    : DayDetail.t :=
  match c with
  | DayCell _ dateStr _ (Some _) => showDayDetail h dateStr v
  | _ => v
  end.

(** The fields of a keyboard event the handlers read. *)
Module KeyEvent.
Record t := mk {
  key : string;
  ctrlKey : bool
}.
End KeyEvent.


(** The [keydown] listener of the document; [inputFocused] tells whether
    [document.activeElement] is [#task-input]. *)
Definition documentKeydown (env : Env) (e : KeyEvent.t) (inputFocused : bool)
    (s : Page.t * DayDetail.t) : Page.t * DayDetail.t :=
  let '(p, v) := s in
  if String.eqb (KeyEvent.key e) "Escape" && negb (DayDetail.popupHidden v)
  then (p, closeDayDetail v)
  else if KeyEvent.ctrlKey e && String.eqb (KeyEvent.key e) "Backspace"
  then
    if negb inputFocused
    then (exec (NewTab.deleteLastTask env) p, v)
    else (p, v)
  else (p, v).

(* ================================================================== *)
(** * Further vocabulary *)
(* ================================================================== *)

(** The number [render] and [updateBadge] call [remaining]. *)
Definition remainingOf (l : list Task) : Z :=
  Z.of_nat (length (TaskList.notDone l)).

(** The message [updateBadge] hands to the service worker. *)
Definition badgeMessage (enabled : option bool) (l : list Task) : Message :=
  {| msgType := "UPDATE_BADGE";
     count := if default false enabled then JsNumber (remainingOf l) else JsNull |}.

(** Months counted from January of year 0. *)
Definition monthIndex (y m : Z) : Z := 12 * y + m.


(** A time zone whose offsets from UTC differ by less than a day. *)
Definition boundedOffset (tz : Z -> Z) : Prop :=
  forall a b, Z.abs (tz a - tz b) < msPerDay.

(** The events the page reacts to, and the handler of each. *)
Inductive Action :=
| AddTask (txt : jsstring)
| ToggleTask (i : string)
| DeleteTask (i : string)
| ClearCompleted
| DeleteLastTask
| Init
| MarkReviewed
| BadgeToggle (checked : bool)
| CalPrev
| CalNext
| CalendarToggle.

Definition perform (env : Env) (a : Action) : M unit :=
  match a with
  | AddTask txt => NewTab.addTask env txt
  | ToggleTask i => NewTab.toggleTask env i
  | DeleteTask i => NewTab.deleteTask env i
  | ClearCompleted => NewTab.clearCompleted env
  | DeleteLastTask => NewTab.deleteLastTask env
  | Init => NewTab.init env
  | MarkReviewed => NewTab.markReviewed env
  | BadgeToggle checked => NewTab.badgeToggleChange checked
  | CalPrev => NewTab.calPrevClick env
  | CalNext => NewTab.calNextClick env
  | CalendarToggle => NewTab.calendarToggleClick env
  end.

(** A session: events one after the other, each with what it observes of
    the outside world. *)
Fixpoint performAll (steps : list (Env * Action)) (p : Page.t) : Page.t :=
  match steps with
  | [] => p
  | (env, a) :: rest => performAll rest (exec (perform env a) p)
  end.

(** The clock of an event lies in a four-digit year. *)
Definition clockInRange (env : Env) : Prop :=
  firstDay4 <= Day (now env) <= lastDay4.

(** An event leaves the history alone, or writes today's entry, in storage
    and in the module variable alike. *)
Definition historyStep (env : Env) (p p' : Page.t) : Prop :=
  (storedHistory p' = storedHistory p /\ Page.dailyHistory p' = Page.dailyHistory p) \/
  (exists ts,
     storedHistory p' = <[NewTab.todayString env := NewTab.snapshotOf ts]> (storedHistory p) /\
     Page.dailyHistory p' = storedHistory p').

(** A short session on 20 March 2025: open the page, add a task, tick it
    off, step the calendar back and forth. *)
Definition sampleSession : list (Env * Action) :=
  [ (sampleEnv, Init); (sampleEnv, AddTask (codeUnits "buy milk"));
    (sampleEnv, ToggleTask (randomUUID sampleEnv)); (sampleEnv, CalPrev);
    (sampleEnv, CalendarToggle); (sampleEnv, CalNext) ].

(** A closed popup, and a page with the calendar open on March 2025. *)
Definition closedDetail : DayDetail.t := DayDetail.mk None [] true true.


(** The day after [sampleEnv], at eight in the morning. *)
Definition nextDayEnv : Env :=
  {| now := newDate 2025 2 21 + 8 * 3600000;
     randomUUID := "6f1c2f0e-0000-4000-8000-000000000004";
     LocalTZA := fun _ => 0 |}.

(** Two edits of the task list, none of them a review. *)
Definition editSession : list (Env * Action) :=
  [ (sampleEnv, AddTask (codeUnits "buy milk"));
    (sampleEnv, ToggleTask (randomUUID sampleEnv)) ].

(* ================================================================== *)
(** * The screen and the store *)
(* ================================================================== *)

(** The list on screen is the stored list, and the count beside it the
    number of its open tasks. *)
Definition listFresh (p : Page.t) : Prop :=
  Page.taskListItems p = storedTasks p /\
  Page.remainingCount p = toString (remainingOf (storedTasks p)) +:+ " remaining".

(** The message sent last to the service worker is the one for the stored
    list and the stored badge switch. *)
Definition badgeFresh (p : Page.t) : Prop :=
  exists rest,
    Page.sent p =
      badgeMessage (Storage.badgeEnabled (Page.storage p)) (storedTasks p) :: rest.

(** The streak lines show the streak of the history in memory, as
    [calculateStreak] gives it with the clock and the zone of [env]. *)
Definition streakFresh (env : Env) (p : Page.t) : Prop :=
  exists r,
    calculateStreak (LocalTZA env) (Page.dailyHistory p) (now env) = Some r /\
    Page.streakCurrent p = (if 0 <? current r then DayStreak (current r) else NoStreakYet) /\
    Page.streakBest p = (if 0 <? best r then Some (best r) else None).

(** While the calendar panel is open, its cells are the grid of the
    history in memory for the month of the cursor, with today as the clock
    of [env] has it. *)
Definition gridFresh (env : Env) (p : Page.t) : Prop :=
  Page.calendarPanelHidden p = false ->
  Page.calDays p =
    NewTab.calendarCells (Page.dailyHistory p) (NewTab.todayString env)
      (Page.calYear p) (Page.calMonth p).

(** An event on the calendar day of [env], in the same zone. *)
Definition sameDay (env : Env) (s : Env * Action) : Prop :=
  Day (now s.1) = Day (now env) /\ LocalTZA s.1 = LocalTZA env.


Definition nuukEvening : Env :=
  {| now := newDate 2024 3 3 + 21 * 3600000;
     randomUUID := "6f1c2f0e-0000-4000-8000-000000000006";
     LocalTZA := nuuk2024 |}.

Definition nuukSession : list (Env * Action) :=
  [ (nuukEnv, AddTask (codeUnits "buy milk"));
    (nuukEvening, ToggleTask (randomUUID nuukEnv));
    (nuukEvening, CalendarToggle) ].

(** The identifiers [crypto.randomUUID] hands out in a session: one for
    each [addTask] that gets as far as [createTask]. *)
Fixpoint addedIds (steps : list (Env * Action)) : list string :=
  match steps with
  | [] => []
  | (env, AddTask txt) :: rest =>
      if truthy (trim txt) then randomUUID env :: addedIds rest else addedIds rest
  | _ :: rest => addedIds rest
  end.

(* ================================================================== *)
(** * Properties of strings *)
(* ================================================================== *)

Section TrimFacts.

Lemma trimStart_blank s : blank s -> trimStart s = [].
Proof.
  induction 1 as [|c r Hc _ IH]; simpl; [reflexivity|].
  now rewrite Hc.
Qed.

Lemma trimStart_nil_blank s : trimStart s = [] -> blank s.
Proof.
  induction s as [|c r IH]; simpl; intros H; [constructor|].
  destruct (isWhiteSpace c) eqn:Hc; [|discriminate].
  constructor; [exact Hc|exact (IH H)].
Qed.

Lemma trimStart_head s c r : trimStart s = c :: r -> isWhiteSpace c = false.
Proof.
  induction s as [|x s IH]; simpl; [discriminate|].
  destruct (isWhiteSpace x) eqn:Hx; [exact IH|].
  intros [= -> _]. exact Hx.
Qed.

(** [trimStart] keeps a suffix of its argument. *)
Lemma trimStart_suffix s : exists p, s = p ++ trimStart s /\ blank p.
Proof.
  induction s as [|x s [p [Hp Hb]]]; simpl.
  - exists []. split; [reflexivity|constructor].
  - destruct (isWhiteSpace x) eqn:Hx.
    + exists (x :: p). split; [simpl; congruence|constructor; assumption].
    + exists []. split; [reflexivity|constructor].
Qed.

Lemma trimStart_fixed s c r :
  s = c :: r -> isWhiteSpace c = false -> trimStart s = s.
Proof. intros -> H. simpl. now rewrite H. Qed.

Lemma blank_rev s : blank s -> blank (rev s).
Proof. unfold blank. apply List.Forall_rev. Qed.

Lemma blank_app s1 s2 : blank (s1 ++ s2) <-> blank s1 /\ blank s2.
Proof. unfold blank. apply Forall_app. Qed.

Lemma trimEnd_last s c r : trimEnd s = r ++ [c] -> isWhiteSpace c = false.
Proof.
  unfold trimEnd. intros H.
  apply (f_equal (@rev _)) in H. rewrite rev_involutive, rev_app_distr in H.
  simpl in H. eapply trimStart_head; eassumption.
Qed.

(** [trimEnd] keeps a prefix of its argument. *)
Lemma trimEnd_prefix s : exists q, s = trimEnd s ++ q /\ blank q.
Proof.
  unfold trimEnd. destruct (trimStart_suffix (rev s)) as [p [Hp Hb]].
  exists (rev p). split; [|now apply blank_rev].
  rewrite <- rev_app_distr, <- Hp. now rewrite rev_involutive.
Qed.

Lemma trimEnd_head s c r :
  s = c :: r -> isWhiteSpace c = false ->
  exists r', trimEnd s = c :: r'.
Proof.
  intros -> Hc. destruct (trimEnd_prefix (c :: r)) as [q [Hq Hb]].
  destruct (trimEnd (c :: r)) as [|x t] eqn:E.
  - simpl in Hq. subst q. inversion Hb; congruence.
  - simpl in Hq. injection Hq as -> _. eauto.
Qed.

Lemma trim_trimmed s : trimmed (trim s).
Proof.
  unfold trimmed, trim. split.
  - intros c r H.
    destruct (trimStart s) as [|x t] eqn:E; [discriminate H|].
    pose proof (trimStart_head _ _ _ E) as Hx.
    destruct (trimEnd_head (x :: t) x t eq_refl Hx) as [r' Hr'].
    rewrite Hr' in H. injection H as -> _. exact Hx.
  - intros c r H. eapply trimEnd_last; eassumption.
Qed.

Lemma trim_blank s : blank s -> trim s = [].
Proof. intros H. unfold trim. now rewrite (trimStart_blank _ H). Qed.

Lemma trim_nil_blank s : trim s = [] -> blank s.
Proof.
  unfold trim. intros H.
  destruct (trimStart_suffix s) as [p [Hp Hb]].
  destruct (trimEnd_prefix (trimStart s)) as [q [Hq Hbq]].
  rewrite H in Hq. simpl in Hq. rewrite Hp, Hq.
  apply blank_app; split; assumption.
Qed.

Lemma truthy_trim s : truthy (trim s) = false <-> blank s.
Proof.
  split.
  - intros H. apply trim_nil_blank. destruct (trim s); [reflexivity|discriminate].
  - intros H. now rewrite trim_blank.
Qed.

(** A trimmed string is a fixed point of [trim]. *)
Lemma trim_fixed s : trimmed s -> trim s = s.
Proof.
  intros [Hh Hl]. unfold trim.
  assert (trimStart s = s) as ->.
  { destruct s as [|c r]; [reflexivity|]. simpl. now rewrite (Hh c r eq_refl). }
  unfold trimEnd.
  destruct (rev s) as [|c r] eqn:E.
  - simpl. apply (f_equal (@rev _)) in E. now rewrite rev_involutive in E.
  - assert (s = rev r ++ [c]) as Hs.
    { apply (f_equal (@rev _)) in E. now rewrite rev_involutive in E. }
    simpl. rewrite (Hl c (rev r) Hs). simpl. now rewrite Hs.
Qed.

End TrimFacts.

Example trim_example :
  trim (codeUnits "  buy milk  ") = codeUnits "buy milk".
Proof. reflexivity. Qed.

Example trim_tabs_newline :
  trim [9; 10; 160; 12288]%N = [].
Proof. reflexivity. Qed.

(* ================================================================== *)
(** * The task list *)
(* ================================================================== *)

(** Unfolds the monadic plumbing of an action down to record updates. *)
Ltac run_page :=
  unfold exec, NewTab.addTask, NewTab.toggleTask, NewTab.deleteTask,
    NewTab.clearCompleted, NewTab.deleteLastTask, NewTab.saveTasks,
    NewTab.snapshotToday, NewTab.updateStreak, NewTab.renderCalendar,
    NewTab.updateBadge, NewTab.render, NewTab.loadTasks, NewTab.loadHistory,
    storageGet, storageSetTasks, storageSetDailyHistory, modify, get,
    mbind, M_bind, mret, M_ret;
  simpl.

Section TaskListFacts.

Lemma toggleFirst_involutive i l :
  TaskList.toggleFirst i (TaskList.toggleFirst i l) = l.
Proof.
  induction l as [|t r IH]; simpl; [reflexivity|].
  destruct (String.eqb (id t) i) eqn:E; simpl; rewrite E.
  - destruct t as [a b c d]; simpl. now rewrite negb_involutive.
  - now rewrite IH.
Qed.

Lemma toggleFirst_split i l :
  (exists t, In t l /\ id t = i) ->
  exists l1 t l2,
    l = l1 ++ t :: l2 /\ id t = i /\ Forall (fun u => id u <> i) l1 /\
    TaskList.toggleFirst i l = l1 ++ flipDone t :: l2.
Proof.
  induction l as [|x r IH]; intros [t [Hin Hid]]; [destruct Hin|].
  simpl. destruct (String.eqb (id x) i) eqn:E.
  - apply String.eqb_eq in E. exists [], x, r. repeat split; auto.
  - apply String.eqb_neq in E.
    destruct Hin as [->|Hin]; [contradiction|].
    destruct (IH (ex_intro _ t (conj Hin Hid))) as (l1 & u & l2 & -> & Hu & Hl1 & Ht).
    exists (x :: l1), u, l2. repeat split; auto.
    simpl. now rewrite Ht.
Qed.

Lemma toggleFirst_absent i l :
  Forall (fun u => id u <> i) l -> TaskList.toggleFirst i l = l.
Proof.
  induction 1 as [|x r Hx _ IH]; simpl; [reflexivity|].
  apply String.eqb_neq in Hx. now rewrite Hx, IH.
Qed.

(** [lastNotDone] finds the split of the list around its last task that
    is not done. *)
Lemma lastNotDone_split l n i :
  (n <= length l)%nat ->
  TaskList.lastNotDone l n = Some i ->
  exists t, l !! i = Some t /\ done t = false /\ (i < n)%nat /\
    forall j u, (i < j < n)%nat -> l !! j = Some u -> done u = true.
Proof.
  induction n as [|n IH]; simpl; intros Hn H; [discriminate|].
  destruct (l !! n) as [t|] eqn:E.
  - destruct (done t) eqn:Hd.
    + destruct (IH ltac:(lia) H) as (u & Hu & Hdu & Hlt & Hall).
      exists u. split; [assumption|]. split; [assumption|]. split; [lia|].
      intros j v Hj Hv. destruct (decide (j = n)) as [->|Hne].
      * congruence.
      * apply (Hall j v); [lia|assumption].
    + injection H as <-. exists t. split; [assumption|]. split; [assumption|].
      split; [lia|]. intros j u Hj. lia.
  - apply lookup_ge_None in E. lia.
Qed.

Lemma lastNotDone_none l n :
  (n <= length l)%nat ->
  TaskList.lastNotDone l n = None ->
  forall j u, (j < n)%nat -> l !! j = Some u -> done u = true.
Proof.
  induction n as [|n IH]; simpl; intros Hn H j u Hj Hu; [lia|].
  destruct (l !! n) as [t|] eqn:E.
  - destruct (done t) eqn:Hd; [|discriminate].
    destruct (decide (j = n)) as [->|Hne]; [congruence|].
    apply (IH ltac:(lia) H j u); [lia|assumption].
  - apply lookup_ge_None in E. lia.
Qed.

Lemma lastNotDone_some l :
  (exists t, In t l /\ done t = false) ->
  exists i, TaskList.lastNotDone l (length l) = Some i.
Proof.
  intros (t & Hin & Hd).
  destruct (TaskList.lastNotDone l (length l)) as [i|] eqn:E; [eauto|].
  apply list_elem_of_In, list_elem_of_lookup in Hin. destruct Hin as [j Hj].
  pose proof (lookup_lt_Some _ _ _ Hj) as Hlt.
  pose proof (lastNotDone_none l (length l) ltac:(lia) E j t Hlt Hj). congruence.
Qed.

Lemma splice1_split (l : list Task) i t :
  l !! i = Some t ->
  l = take i l ++ t :: drop (S i) l /\
  TaskList.splice1 i l = take i l ++ drop (S i) l.
Proof.
  intros H. split; [|reflexivity].
  rewrite <- (take_drop_middle l i t H) at 1. reflexivity.
Qed.

Lemma filter_all_done (l : list Task) :
  Forall (fun u => done u = true) l -> List.filter done l = l.
Proof.
  induction 1 as [|x r Hx _ IH]; simpl; [reflexivity|]. now rewrite Hx, IH.
Qed.

End TaskListFacts.

(* ================================================================== *)
(** * Effects of the actions on the page *)
(* ================================================================== *)

Section PageFacts.

Variable env : Env.

Lemma exec_bind {A B} (m : M A) (k : A -> M B) p :
  exec (m ≫= k) p = exec (k (m p).1) (m p).2.
Proof. unfold exec, mbind, M_bind. destruct (m p). reflexivity. Qed.

Lemma updateStreak_storage p :
  Page.storage (exec (NewTab.updateStreak env) p) = Page.storage p /\
  Page.dailyHistory (exec (NewTab.updateStreak env) p) = Page.dailyHistory p /\
  Page.calendarPanelHidden (exec (NewTab.updateStreak env) p)
    = Page.calendarPanelHidden p.
Proof.
  run_page. destruct (calculateStreak _ _ _); simpl; auto.
Qed.

Lemma renderCalendar_storage y m p :
  Page.storage (exec (NewTab.renderCalendar env y m) p) = Page.storage p /\
  Page.dailyHistory (exec (NewTab.renderCalendar env y m) p) = Page.dailyHistory p.
Proof. run_page. auto. Qed.

(** [snapshotToday] rewrites one key of the history, in storage and in the
    module variable alike, and leaves the stored tasks alone. *)
Lemma snapshotToday_effect tasks p :
  let p' := exec (NewTab.snapshotToday env tasks) p in
  let h' := <[NewTab.todayString env := NewTab.snapshotOf tasks]> (storedHistory p) in
  Page.dailyHistory p' = h' /\
  Storage.dailyHistory (Page.storage p') = Some h' /\
  Storage.tasks (Page.storage p') = Storage.tasks (Page.storage p).
Proof.
  unfold NewTab.snapshotToday. cbv zeta.
  rewrite !exec_bind.
  set (p1 := ((storageGet Storage.dailyHistory p).2)).
  set (v := ((storageGet Storage.dailyHistory p).1)).
  assert (p1 = p) as Hp1 by reflexivity.
  assert (v = Storage.dailyHistory (Page.storage p)) as Hv by reflexivity.
  set (h' := <[NewTab.todayString env:=NewTab.snapshotOf tasks]> (default ∅ v)).
  set (p2 := (modify (setDailyHistory h') p1).2).
  set (p3 := (storageSetDailyHistory h' p2).2).
  set (p4 := (NewTab.updateStreak env p3).2).
  destruct (updateStreak_storage p3) as (Hs & Hh & Hc).
  unfold exec in Hs, Hh, Hc |- *.
  change ((NewTab.updateStreak env p3).2) with p4 in Hs, Hh, Hc.
  change ((get p4).2) with p4. change ((get p4).1) with p4.
  assert (Page.dailyHistory p3 = h') as H3h by reflexivity.
  assert (Page.storage p3 =
    Storage.mk (Storage.tasks (Page.storage p)) (Some h')
      (Storage.badgeEnabled (Page.storage p))
      (Storage.lastReviewedDate (Page.storage p))) as H3s.
  { subst p3 p2 p1. reflexivity. }
  assert (h' = <[NewTab.todayString env:=NewTab.snapshotOf tasks]> (storedHistory p))
    as Hh' by (subst h' v; reflexivity).
  destruct (negb (Page.calendarPanelHidden p4)).
  - destruct (renderCalendar_storage (Page.calYear p4) (Page.calMonth p4) p4)
      as (Hrs & Hrh). unfold exec in Hrs, Hrh.
    rewrite Hrs, Hrh, Hs, Hh, H3h, H3s, <- Hh'. simpl. auto.
  - unfold mret, M_ret. cbn [snd].
    rewrite Hs, Hh, H3h, H3s, <- Hh'. simpl. auto.
Qed.

(** [saveTasks] stores exactly the list it is given. *)
Lemma saveTasks_effect tasks p :
  let p' := exec (NewTab.saveTasks env tasks) p in
  storedTasks p' = tasks /\
  Page.dailyHistory p' =
    <[NewTab.todayString env := NewTab.snapshotOf tasks]> (storedHistory p) /\
  storedHistory p' = Page.dailyHistory p'.
Proof.
  unfold NewTab.saveTasks. cbv zeta. rewrite !exec_bind.
  set (p1 := (storageSetTasks tasks p).2).
  set (p2 := (NewTab.render tasks p1).2).
  set (p3 := (NewTab.updateBadge tasks p2).2).
  destruct (snapshotToday_effect tasks p3) as (Hh & Hs & Ht).
  assert (Storage.tasks (Page.storage p3) = Some tasks) as H3 by reflexivity.
  assert (storedHistory p3 = storedHistory p) as H3h by reflexivity.
  unfold storedTasks, storedHistory in *.
  rewrite Ht, H3, Hs, Hh, H3h. simpl. auto.
Qed.

Lemma loadTasks_value p :
  (NewTab.loadTasks p).1 = storedTasks p /\ (NewTab.loadTasks p).2 = p.
Proof. split; reflexivity. Qed.

Lemma toggleTask_stored i p :
  storedTasks (exec (NewTab.toggleTask env i) p)
    = TaskList.toggleFirst i (storedTasks p).
Proof.
  unfold NewTab.toggleTask. rewrite exec_bind.
  destruct (loadTasks_value p) as [-> ->]. apply saveTasks_effect.
Qed.

Lemma deleteTask_stored i p :
  storedTasks (exec (NewTab.deleteTask env i) p)
    = TaskList.removeId i (storedTasks p).
Proof.
  unfold NewTab.deleteTask. rewrite exec_bind.
  destruct (loadTasks_value p) as [-> ->]. apply saveTasks_effect.
Qed.

Lemma clearCompleted_stored p :
  storedTasks (exec (NewTab.clearCompleted env) p)
    = TaskList.notDone (storedTasks p).
Proof.
  unfold NewTab.clearCompleted. rewrite exec_bind.
  destruct (loadTasks_value p) as [-> ->]. apply saveTasks_effect.
Qed.

Lemma deleteLastTask_stored p :
  storedTasks (exec (NewTab.deleteLastTask env) p) =
    match TaskList.lastNotDone (storedTasks p) (length (storedTasks p)) with
    | Some i => TaskList.splice1 i (storedTasks p)
    | None => storedTasks p
    end.
Proof.
  unfold NewTab.deleteLastTask. rewrite exec_bind.
  destruct (loadTasks_value p) as [-> ->].
  destruct (TaskList.lastNotDone _ _); [apply saveTasks_effect|reflexivity].
Qed.

Lemma addTask_blank txt p :
  blank txt -> exec (NewTab.addTask env txt) p = p.
Proof.
  intros H. unfold NewTab.addTask.
  apply truthy_trim in H. rewrite H. reflexivity.
Qed.

Lemma addTask_stored txt p :
  ~ blank txt ->
  storedTasks (exec (NewTab.addTask env txt) p)
    = storedTasks p ++ [createTask env txt].
Proof.
  intros H. unfold NewTab.addTask.
  destruct (truthy (trim txt)) eqn:E.
  - simpl negb. cbv iota. rewrite !exec_bind.
    destruct (loadTasks_value p) as [-> ->].
    destruct (saveTasks_effect (storedTasks p ++ [createTask env txt]) p) as (Hs & _).
    unfold exec in Hs |- *. exact Hs.
  - apply truthy_trim in E. contradiction.
Qed.

(** The handlers that do not edit the task list leave the stored tasks as
    they are. *)
Lemma other_handlers_keep_tasks (b : bool) p :
  storedTasks (exec (NewTab.init env) p) = storedTasks p /\
  storedTasks (exec (NewTab.checkReview env) p) = storedTasks p /\
  storedTasks (exec (NewTab.markReviewed env) p) = storedTasks p /\
  storedTasks (exec (NewTab.badgeToggleChange b) p) = storedTasks p /\
  storedTasks (exec (NewTab.calPrevClick env) p) = storedTasks p /\
  storedTasks (exec (NewTab.calNextClick env) p) = storedTasks p /\
  storedTasks (exec (NewTab.calendarToggleClick env) p) = storedTasks p.
Proof.
  assert (forall q, storedTasks (exec (NewTab.checkReview env) q) = storedTasks q) as Hc.
  { intros q. unfold NewTab.checkReview, exec, storageGet, mbind, M_bind, get, mret, M_ret.
    simpl. destruct (Storage.lastReviewedDate (Page.storage q)); reflexivity. }
  split.
  { unfold NewTab.init. rewrite !exec_bind.
    destruct (loadTasks_value p) as [-> ->].
    set (p1 := (NewTab.render (storedTasks p) p).2).
    set (p2 := (NewTab.checkReview env p1).2).
    set (p3 := (NewTab.updateBadge (storedTasks p) p2).2).
    set (p4 := (modify (setCalCursor (getFullYear (now env)) (getMonth (now env))) p3).2).
    set (p5 := (NewTab.loadHistory p4).2).
    set (p6 := (NewTab.snapshotToday env (storedTasks p) p5).2).
    destruct (updateStreak_storage p6) as (Hs & _).
    destruct (snapshotToday_effect (storedTasks p) p5) as (_ & _ & Ht).
    unfold storedTasks at 1. rewrite Hs. fold p6 in Ht. unfold exec in Ht.
    fold p6 in Ht. rewrite Ht.
    change (default [] (Storage.tasks (Page.storage p5))) with (storedTasks p2).
    unfold p2. apply (Hc p1). }
  split; [apply Hc|]. split; [reflexivity|]. split; [reflexivity|].
  split; [|split].
  - unfold NewTab.calPrevClick, exec, mbind, M_bind, get. simpl.
    destruct (Page.calMonth p - 1 <? 0); reflexivity.
  - unfold NewTab.calNextClick, exec, mbind, M_bind, get. simpl.
    destruct (11 <? Page.calMonth p + 1); reflexivity.
  - unfold NewTab.calendarToggleClick, exec, mbind, M_bind, get. simpl.
    destruct (Page.calendarPanelHidden p); reflexivity.
Qed.

End PageFacts.

(* ================================================================== *)
(** * Statements about the task list *)
(* ================================================================== *)

(** C9.  Toggling a task twice with the same id gives back the stored task
    list; one toggle flips the [done] field of the first task carrying that
    id and changes no other task and no other field. *)
Theorem toggleTask_involution (env1 env2 : Env) (i : string) (p : Page.t) :
  (exists t, In t (storedTasks p) /\ id t = i) ->
  storedTasks (exec (NewTab.toggleTask env2 i) (exec (NewTab.toggleTask env1 i) p))
    = storedTasks p /\
  exists l1 t l2,
    storedTasks p = l1 ++ t :: l2 /\
    id t = i /\
    Forall (fun u => id u <> i) l1 /\
    storedTasks (exec (NewTab.toggleTask env1 i) p) = l1 ++ flipDone t :: l2 /\
    id (flipDone t) = id t /\ text (flipDone t) = text t /\
    createdAt (flipDone t) = createdAt t /\ done (flipDone t) = negb (done t).
Proof.
  intros Hin. split.
  - rewrite !toggleTask_stored. apply toggleFirst_involutive.
  - destruct (toggleFirst_split i _ Hin) as (l1 & t & l2 & Hl & Hid & Hl1 & Ht).
    exists l1, t, l2. rewrite toggleTask_stored.
    repeat (split; [assumption || reflexivity|]). reflexivity.
Qed.

Lemma toggleTask_involution_witness :
  (exists t, In t (storedTasks samplePage) /\ id t = "b"%string) /\
  storedTasks (exec (NewTab.toggleTask sampleEnv "b")
                 (exec (NewTab.toggleTask sampleEnv "b") samplePage))
    = storedTasks samplePage.
Proof.
  assert (exists t, In t (storedTasks samplePage) /\ id t = "b"%string) as H.
  { eexists. split; [right; left; reflexivity|reflexivity]. }
  split; [exact H|].
  exact (proj1 (toggleTask_involution sampleEnv sampleEnv "b" samplePage H)).
Defined.

(** C7.  When some stored task is not done, [deleteLastTask] removes the
    incomplete task met first from the end of the list: the list splits
    around it, every task after it is done, and the list stored afterwards
    is the same list without it.  All completed tasks, before or after it,
    stay as they were. *)
Theorem deleteLastTask_removes_last_incomplete (env : Env) (p : Page.t) :
  (exists t, In t (storedTasks p) /\ done t = false) ->
  exists l1 t l2,
    storedTasks p = l1 ++ t :: l2 /\
    done t = false /\
    Forall (fun u => done u = true) l2 /\
    storedTasks (exec (NewTab.deleteLastTask env) p) = l1 ++ l2 /\
    List.filter done (storedTasks (exec (NewTab.deleteLastTask env) p))
      = List.filter done (storedTasks p).
Proof.
  intros Hex. rewrite deleteLastTask_stored.
  destruct (lastNotDone_some _ Hex) as [i Hi]. rewrite Hi.
  destruct (lastNotDone_split _ _ _ (le_n _) Hi) as (t & Ht & Hd & Hlt & Hall).
  destruct (splice1_split _ _ _ Ht) as [Hl Hs].
  exists (take i (storedTasks p)), t, (drop (S i) (storedTasks p)).
  assert (Forall (fun u => done u = true) (drop (S i) (storedTasks p))) as Hl2.
  { apply Forall_lookup_2. intros j u Hj. rewrite lookup_drop in Hj.
    apply (Hall (S i + j)%nat u); [|assumption].
    pose proof (lookup_lt_Some _ _ _ Hj). lia. }
  split; [exact Hl|]. split; [exact Hd|]. split; [exact Hl2|].
  split; [exact Hs|].
  rewrite Hs. rewrite Hl at 3.
  rewrite !List.filter_app. simpl. now rewrite Hd.
Qed.

Lemma deleteLastTask_removes_last_incomplete_witness :
  (exists t, In t (storedTasks samplePage) /\ done t = false) /\
  exists l1 t l2,
    storedTasks samplePage = l1 ++ t :: l2 /\
    done t = false /\
    Forall (fun u => done u = true) l2 /\
    storedTasks (exec (NewTab.deleteLastTask sampleEnv) samplePage) = l1 ++ l2 /\
    List.filter done (storedTasks (exec (NewTab.deleteLastTask sampleEnv) samplePage))
      = List.filter done (storedTasks samplePage).
Proof.
  assert (exists t, In t (storedTasks samplePage) /\ done t = false) as H.
  { eexists. split; [right; left; reflexivity|reflexivity]. }
  split; [exact H|].
  exact (deleteLastTask_removes_last_incomplete sampleEnv samplePage H).
Defined.

(** The completed task created after the removed one is still there. *)
Example deleteLastTask_sample :
  map id (storedTasks (exec (NewTab.deleteLastTask sampleEnv) samplePage))
    = ["a"; "c"]%string.
Proof. vm_compute. reflexivity. Qed.

Lemma createTask_textOk env txt : ~ blank txt -> textOk (createTask env txt).
Proof.
  intros H. split; simpl.
  - intros E. apply H. now apply trim_nil_blank.
  - apply trim_trimmed.
Qed.

Lemma toggleFirst_textOk i l :
  Forall textOk l -> Forall textOk (TaskList.toggleFirst i l).
Proof.
  induction 1 as [|x r Hx Hr IH]; simpl; [constructor|].
  destruct (String.eqb (id x) i); constructor;
    [exact Hx|exact Hr|exact Hx|exact IH].
Qed.

Lemma filter_textOk (f : Task -> bool) l :
  Forall textOk l -> Forall textOk (List.filter f l).
Proof.
  induction 1 as [|x r Hx _ IH]; simpl; [constructor|].
  destruct (f x); [constructor|]; auto.
Qed.

Lemma splice1_textOk i l :
  Forall textOk l -> Forall textOk (TaskList.splice1 i l).
Proof.
  intros H. unfold TaskList.splice1. apply Forall_app. split.
  - now apply Forall_take.
  - now apply Forall_drop.
Qed.

(** C10.  [addTask] with an empty or white-space-only string leaves the
    page, storage included, as it was.  With any other string it appends
    one task whose text is the trimmed input and whose [done] is false.
    Hence every action on the task list, and every other handler, keeps
    all stored texts non-empty and trimmed. *)
Theorem addTask_blank_or_trimmed (env : Env) (txt : jsstring) (p : Page.t) :
  (blank txt -> exec (NewTab.addTask env txt) p = p) /\
  (~ blank txt ->
     exists t,
       storedTasks (exec (NewTab.addTask env txt) p) = storedTasks p ++ [t] /\
       text t = trim txt /\ done t = false /\ textOk t) /\
  (Forall textOk (storedTasks p) ->
     Forall textOk (storedTasks (exec (NewTab.addTask env txt) p)) /\
     (forall i, Forall textOk (storedTasks (exec (NewTab.toggleTask env i) p))) /\
     (forall i, Forall textOk (storedTasks (exec (NewTab.deleteTask env i) p))) /\
     Forall textOk (storedTasks (exec (NewTab.clearCompleted env) p)) /\
     Forall textOk (storedTasks (exec (NewTab.deleteLastTask env) p)) /\
     Forall textOk (storedTasks (exec (NewTab.init env) p)) /\
     Forall textOk (storedTasks (exec (NewTab.markReviewed env) p)) /\
     (forall b, Forall textOk (storedTasks (exec (NewTab.badgeToggleChange b) p))) /\
     Forall textOk (storedTasks (exec (NewTab.calPrevClick env) p)) /\
     Forall textOk (storedTasks (exec (NewTab.calNextClick env) p)) /\
     Forall textOk (storedTasks (exec (NewTab.calendarToggleClick env) p))).
Proof.
  split; [apply addTask_blank|]. split.
  - intros H. exists (createTask env txt).
    rewrite (addTask_stored env txt p H).
    repeat split; try reflexivity; apply (createTask_textOk env txt H).
  - intros Hinv.
    destruct (other_handlers_keep_tasks env true p) as (K1 & _ & K3 & _ & K5 & K6 & K7).
    split; [|split; [|split; [|split; [|split; [|split; [|split; [|split;
      [|split; [|split]]]]]]]]];
      [| | | | |rewrite K1; exact Hinv|rewrite K3; exact Hinv
       |intros b; rewrite (proj1 (proj2 (proj2 (proj2
           (other_handlers_keep_tasks env b p))))); exact Hinv
       |rewrite K5; exact Hinv|rewrite K6; exact Hinv|rewrite K7; exact Hinv].
    + destruct (truthy (trim txt)) eqn:E.
      * assert (~ blank txt) as Hb.
        { intros Hb. apply truthy_trim in Hb. congruence. }
        rewrite addTask_stored by assumption. apply Forall_app. split; [assumption|].
        constructor; [now apply createTask_textOk|constructor].
      * apply truthy_trim in E. now rewrite addTask_blank.
    + intros i. rewrite toggleTask_stored. now apply toggleFirst_textOk.
    + intros i. rewrite deleteTask_stored. now apply filter_textOk.
    + rewrite clearCompleted_stored. now apply filter_textOk.
    + rewrite deleteLastTask_stored.
      destruct (TaskList.lastNotDone _ _); [now apply splice1_textOk|assumption].
Qed.

Lemma trimmed_of_fixed s : trim s = s -> trimmed s.
Proof. intros <-. apply trim_trimmed. Qed.

Lemma sampleTasks_textOk : Forall textOk (storedTasks samplePage).
Proof.
  repeat constructor; try discriminate; apply trimmed_of_fixed; reflexivity.
Qed.

Lemma addTask_blank_or_trimmed_witness :
  (blank (codeUnits "   ") /\
   exec (NewTab.addTask sampleEnv (codeUnits "   ")) samplePage = samplePage) /\
  (~ blank (codeUnits " buy milk ") /\
   exists t,
     storedTasks (exec (NewTab.addTask sampleEnv (codeUnits " buy milk ")) samplePage)
       = storedTasks samplePage ++ [t] /\
     text t = trim (codeUnits " buy milk ") /\ done t = false /\ textOk t) /\
  (Forall textOk (storedTasks samplePage) /\
   Forall textOk
     (storedTasks (exec (NewTab.addTask sampleEnv (codeUnits " buy milk ")) samplePage))).
Proof.
  assert (blank (codeUnits "   ")) as Hb by (repeat constructor).
  assert (~ blank (codeUnits " buy milk ")) as Hn.
  { intros H. apply trim_blank in H. discriminate H. }
  split; [|split].
  - split; [exact Hb|].
    exact (proj1 (addTask_blank_or_trimmed sampleEnv (codeUnits "   ") samplePage) Hb).
  - split; [exact Hn|].
    exact (proj1 (proj2 (addTask_blank_or_trimmed sampleEnv (codeUnits " buy milk ")
                           samplePage)) Hn).
  - split; [exact sampleTasks_textOk|].
    exact (proj1 (proj2 (proj2 (addTask_blank_or_trimmed sampleEnv
                                  (codeUnits " buy milk ") samplePage))
                    sampleTasks_textOk)).
Defined.

(* ================================================================== *)
(** * Statements about the daily snapshot *)
(* ================================================================== *)

Lemma snapshotOf_allDone ts :
  allDone (NewTab.snapshotOf ts) = true <->
  ts <> [] /\ Forall (fun t => done t = true) ts.
Proof.
  unfold NewTab.snapshotOf. simpl. rewrite andb_true_iff.
  rewrite Nat.ltb_lt, forallb_forall, List.Forall_forall.
  destruct ts as [|t r]; simpl.
  - split; [intros [H _]; lia|intros [H _]; congruence].
  - split; intros [_ H]; (split; [discriminate || lia|exact H]).
Qed.

Lemma snapshotOf_tasks_allDone ts :
  let snap := NewTab.snapshotOf ts in
  allDone snap = true <->
  tasks snap <> [] /\ Forall (fun e => snapDone e = true) (tasks snap).
Proof.
  cbv zeta. rewrite snapshotOf_allDone. unfold NewTab.snapshotOf. simpl.
  split; intros [Hne Hall]; split.
  - destruct ts; [congruence|discriminate].
  - apply List.Forall_map. exact Hall.
  - destruct ts; [exfalso; now apply Hne|discriminate].
  - apply List.Forall_map in Hall. exact Hall.
Qed.

(** C4.  The entry [snapshotToday] records under today's key copies the
    task list, and its [allDone] is true exactly when the list is non-empty
    and every task in it is done; for the empty list it is false. *)
Theorem snapshotToday_allDone_iff (env : Env) (ts : list Task) (p : Page.t) :
  exists snap,
    storedHistory (exec (NewTab.snapshotToday env ts) p) !! NewTab.todayString env
      = Some snap /\
    Page.dailyHistory (exec (NewTab.snapshotToday env ts) p) !! NewTab.todayString env
      = Some snap /\
    tasks snap = map (fun t => {| snapText := text t; snapDone := done t |}) ts /\
    (allDone snap = true <-> ts <> [] /\ Forall (fun t => done t = true) ts) /\
    (allDone snap = true <->
       tasks snap <> [] /\ Forall (fun e => snapDone e = true) (tasks snap)) /\
    (ts = [] <-> tasks snap = []) /\
    allDone (NewTab.snapshotOf []) = false.
Proof.
  exists (NewTab.snapshotOf ts).
  destruct (snapshotToday_effect env ts p) as (Hh & Hs & _).
  unfold storedHistory at 1. rewrite Hs, Hh. simpl.
  rewrite lookup_insert_eq.
  split; [reflexivity|]. split; [reflexivity|]. split; [reflexivity|].
  split; [apply snapshotOf_allDone|]. split; [apply snapshotOf_tasks_allDone|].
  split; [|reflexivity].
  destruct ts; simpl; split; congruence.
Qed.

Lemma count_NoDup_one (x : string) (l : list string) :
  NoDup l -> x ∈ l -> length (List.filter (String.eqb x) l) = 1%nat.
Proof.
  induction 1 as [|y r Hy Hr IH]; intros Hin.
  - inversion Hin.
  - simpl. destruct (String.eqb x y) eqn:E.
    + apply String.eqb_eq in E. subst y. simpl. f_equal.
      clear IH Hin. induction r as [|z r IHr]; [reflexivity|].
      simpl. destruct (String.eqb x z) eqn:Ez.
      * apply String.eqb_eq in Ez. subst z. exfalso. apply Hy. left.
      * apply IHr.
        -- intros H. apply Hy. now right.
        -- now inversion Hr.
    + apply String.eqb_neq in E. apply IH.
      inversion Hin; subst; [congruence|assumption].
Qed.

(** C5.  A second [snapshotToday] on the same calendar date replaces the
    entry of that date: the key occurs once among the keys, the history has
    as many entries as after the first call, and every other date keeps
    its entry.  The entry reflects the second task list and nothing of the
    first: its tasks are the texts and done flags of the second list, in
    order, and its [allDone] is true exactly when the second list is
    non-empty and every task in it is done.  With the same task list the
    history does not change at all. *)
Theorem snapshotToday_overwrites (env1 env2 : Env) (ts1 ts2 : list Task) (p : Page.t) :
  NewTab.todayString env1 = NewTab.todayString env2 ->
  let p1 := exec (NewTab.snapshotToday env1 ts1) p in
  let p2 := exec (NewTab.snapshotToday env2 ts2) p1 in
  let today := NewTab.todayString env2 in
  Page.dailyHistory p2 = storedHistory p2 /\
  storedHistory p2 !! today = Some (NewTab.snapshotOf ts2) /\
  (exists snap,
     storedHistory p2 !! today = Some snap /\
     tasks snap = map (fun t => {| snapText := text t; snapDone := done t |}) ts2 /\
     (allDone snap = true <-> ts2 <> [] /\ Forall (fun t => done t = true) ts2)) /\
  length (List.filter (String.eqb today) (keys (storedHistory p2))) = 1%nat /\
  size (storedHistory p2) = size (storedHistory p1) /\
  (forall k, k <> today -> storedHistory p2 !! k = storedHistory p1 !! k) /\
  storedHistory p2 = <[today := NewTab.snapshotOf ts2]> (storedHistory p) /\
  (ts1 = ts2 -> storedHistory p2 = storedHistory p1).
Proof.
  intros Hday. cbv zeta.
  destruct (snapshotToday_effect env1 ts1 p) as (Hh1 & Hs1 & _).
  destruct (snapshotToday_effect env2 ts2 (exec (NewTab.snapshotToday env1 ts1) p))
    as (Hh2 & Hs2 & _).
  set (p1 := exec (NewTab.snapshotToday env1 ts1) p) in *.
  set (p2 := exec (NewTab.snapshotToday env2 ts2) p1) in *.
  assert (storedHistory p1 = <[NewTab.todayString env2 := NewTab.snapshotOf ts1]> (storedHistory p))
    as E1.
  { unfold storedHistory at 1. rewrite Hs1, Hday. reflexivity. }
  assert (storedHistory p2 = <[NewTab.todayString env2 := NewTab.snapshotOf ts2]> (storedHistory p))
    as E2.
  { unfold storedHistory at 1. rewrite Hs2. simpl. rewrite E1.
    apply insert_insert_eq. }
  split; [rewrite Hh2, E2, E1; apply insert_insert_eq|].
  split; [rewrite E2; apply lookup_insert_eq|].
  split.
  { exists (NewTab.snapshotOf ts2). split; [rewrite E2; apply lookup_insert_eq|].
    split; [reflexivity|apply snapshotOf_allDone]. }
  split.
  { apply count_NoDup_one.
    - apply NoDup_fst_map_to_list.
    - unfold keys. apply list_elem_of_fmap.
      exists (NewTab.todayString env2, NewTab.snapshotOf ts2). split; [reflexivity|].
      apply elem_of_map_to_list. rewrite E2. apply lookup_insert_eq. }
  split.
  { rewrite E2, E1.
    assert (<[NewTab.todayString env2 := NewTab.snapshotOf ts2]> (storedHistory p)
            = <[NewTab.todayString env2 := NewTab.snapshotOf ts2]>
                (<[NewTab.todayString env2 := NewTab.snapshotOf ts1]> (storedHistory p)))
      as X by (symmetry; apply insert_insert_eq).
    rewrite X. apply map_size_insert_Some. rewrite lookup_insert_eq. eauto. }
  split; [intros k Hk; rewrite E2, E1, !lookup_insert_ne by congruence; reflexivity|].
  split; [exact E2|].
  intros ->. now rewrite E2, E1.
Qed.

Lemma snapshotToday_overwrites_witness :
  NewTab.todayString sampleEnv
    = NewTab.todayString {| now := now sampleEnv + 3600000;
                            randomUUID := randomUUID sampleEnv;
                            LocalTZA := LocalTZA sampleEnv |} /\
  let env2 := {| now := now sampleEnv + 3600000;
                 randomUUID := randomUUID sampleEnv;
                 LocalTZA := LocalTZA sampleEnv |} in
  let p1 := exec (NewTab.snapshotToday sampleEnv sampleTasks) samplePage in
  let p2 := exec (NewTab.snapshotToday env2 doneTasks) p1 in
  storedHistory p1 !! NewTab.todayString env2
    = Some {| tasks := [ {| snapText := codeUnits "write report"; snapDone := true |};
                         {| snapText := codeUnits "call bank"; snapDone := false |};
                         {| snapText := codeUnits "water plants"; snapDone := true |} ];
              allDone := false |} /\
  storedHistory p2 !! NewTab.todayString env2
    = Some {| tasks := [ {| snapText := codeUnits "write report"; snapDone := true |};
                         {| snapText := codeUnits "water plants"; snapDone := true |} ];
              allDone := true |} /\
  size (storedHistory p2) = 1%nat.
Proof.
  assert (NewTab.todayString sampleEnv
    = NewTab.todayString {| now := now sampleEnv + 3600000;
                            randomUUID := randomUUID sampleEnv;
                            LocalTZA := LocalTZA sampleEnv |}) as H
    by (vm_compute; reflexivity).
  split; [exact H|]. cbv zeta.
  pose proof (snapshotToday_overwrites sampleEnv _ sampleTasks doneTasks samplePage H) as T.
  cbv zeta in T. destruct T as (_ & T2 & _ & _ & T4 & _ & T6 & _).
  split; [vm_compute; reflexivity|].
  split; [rewrite T2; reflexivity|].
  rewrite T6. reflexivity.
Defined.

(* ================================================================== *)
(** * Statements about the badge *)
(* ================================================================== *)

Section DecimalFacts.

Lemma digitOf_pretty_char (d : N) :
  (d < 10)%N -> digitOf (pretty_N_char d) = Some (Z.of_N d).
Proof.
  intros H.
  do 10 (destruct d as [|d] using N.peano_ind; [reflexivity|]; try lia).
Qed.

Lemma readDigits_pretty_go (x : N) :
  exists m, forall s a,
    readDigits (pretty_N_go x s) a = readDigits s (a * m + Z.of_N x).
Proof.
  induction x as [x IH] using (well_founded_induction N.lt_wf_0).
  destruct (decide (x = 0%N)) as [->|Hx].
  - exists 1. intros s a. rewrite pretty_N_go_0. f_equal. lia.
  - assert (0 < x)%N as Hpos by lia.
    destruct (IH (x `div` 10)%N) as [m Hm].
    { apply N.div_lt; lia. }
    exists (10 * m). intros s a.
    rewrite pretty_N_go_step by assumption. rewrite Hm. simpl.
    rewrite digitOf_pretty_char by (apply N.mod_lt; lia).
    f_equal.
    pose proof (N.div_mod x 10 ltac:(lia)) as E.
    apply (f_equal Z.of_N) in E. rewrite N2Z.inj_add, N2Z.inj_mul in E.
    change (Z.of_N 10) with 10 in E. lia.
Qed.

(** [String(n)] of a positive integer reads back as [n]. *)
Lemma readDecimal_toString n : 0 < n -> readDecimal (toString n) = Some n.
Proof.
  intros H. destruct n as [|q|q]; try lia.
  unfold toString, readDecimal, pretty, pretty_Z, pretty, pretty_positive, pretty, pretty_N.
  destruct (decide (N.pos q = 0%N)) as [E|_]; [discriminate E|].
  destruct (readDigits_pretty_go (N.pos q)) as [m Hm].
  rewrite Hm. reflexivity.
Qed.

End DecimalFacts.

(** C8.  On an [UPDATE_BADGE] message the badge text becomes the decimal
    rendering of [count] when [count > 0], for a count that is a safe
    integer, at most 2^53 - 1, and the empty string when [count] is
    [null], [undefined] or 0. *)
Theorem onMessage_badge_text (msg : Message) (b : ServiceWorker.Badge) :
  msgType msg = "UPDATE_BADGE"%string ->
  let b' := ServiceWorker.onMessage msg b in
  (forall n, count msg = JsNumber n -> 0 < n <= maxSafeInteger ->
     ServiceWorker.badgeText b' = toString n /\
     readDecimal (ServiceWorker.badgeText b') = Some n) /\
  (count msg = JsNull \/ count msg = JsUndefined \/ count msg = JsNumber 0 ->
     ServiceWorker.badgeText b' = ""%string).
Proof.
  intros Ht. cbv zeta. unfold ServiceWorker.onMessage. rewrite Ht. simpl. split.
  - intros n -> [Hn _]. simpl.
    assert ((0 <? n) = true) as -> by (apply Z.ltb_lt; exact Hn).
    split; [reflexivity|apply readDecimal_toString; exact Hn].
  - intros [-> | [-> | ->]]; reflexivity.
Qed.

Lemma onMessage_badge_text_witness :
  msgType {| msgType := "UPDATE_BADGE"; count := JsNumber 12 |} = "UPDATE_BADGE"%string /\
  ServiceWorker.badgeText
    (ServiceWorker.onMessage {| msgType := "UPDATE_BADGE"; count := JsNumber 12 |}
       {| ServiceWorker.badgeText := "3"; ServiceWorker.badgeBackgroundColor := None |})
    = "12"%string.
Proof.
  split; [reflexivity|].
  exact (proj1 (proj1 (onMessage_badge_text
           {| msgType := "UPDATE_BADGE"; count := JsNumber 12 |}
           {| ServiceWorker.badgeText := "3"; ServiceWorker.badgeBackgroundColor := None |}
           eq_refl) 12 eq_refl ltac:(unfold maxSafeInteger; lia))).
Defined.

(** Other messages leave the badge alone, and a negative count clears it. *)
Example onMessage_other_type b :
  ServiceWorker.onMessage {| msgType := "PING"; count := JsNumber 4 |} b = b.
Proof. reflexivity. Qed.

Example onMessage_negative b :
  ServiceWorker.badgeText
    (ServiceWorker.onMessage {| msgType := "UPDATE_BADGE"; count := JsNumber (-2) |} b)
    = ""%string.
Proof. reflexivity. Qed.

(* ================================================================== *)
(** * The calendar *)
(* ================================================================== *)

(** Case analysis on the leap-year rule, the month and comparisons. *)
Ltac split_leap y :=
  unfold isLeapYear;
  destruct (Z.eqb_spec (y mod 4) 0), (Z.eqb_spec (y mod 100) 0),
    (Z.eqb_spec (y mod 400) 0); simpl.


Ltac split_ltb :=
  repeat match goal with
         | |- context [Z.ltb ?a ?b] => destruct (Z.ltb_spec a b)
         end.

Section CalendarFacts.

Lemma DayFromYear_succ y : DayFromYear (y + 1) = DayFromYear y + DaysInYear y.
Proof.
  unfold DaysInYear, DayFromYear. split_leap y; Z.div_mod_to_equations; lia.
Qed.

Lemma DaysInYear_range y : 365 <= DaysInYear y <= 366.
Proof. unfold DaysInYear. destruct (isLeapYear y); lia. Qed.

Lemma DayFromYear_lt y1 y2 : y1 < y2 -> DayFromYear y1 < DayFromYear y2.
Proof.
  intros H. unfold DayFromYear. Z.div_mod_to_equations. lia.
Qed.

Lemma DayFromYear_le y1 y2 : y1 <= y2 -> DayFromYear y1 <= DayFromYear y2.
Proof.
  intros H. destruct (Z.eq_dec y1 y2) as [->|Hne]; [lia|].
  apply Z.lt_le_incl, DayFromYear_lt. lia.
Qed.

Lemma YearFromDay_spec n :
  DayFromYear (YearFromDay n) <= n < DayFromYear (YearFromDay n + 1).
Proof.
  unfold YearFromDay.
  destruct (Z.ltb_spec n (DayFromYear (1970 + 400 * n / 146097))) as [H1|H1].
  - unfold DayFromYear in *. Z.div_mod_to_equations. lia.
  - destruct (Z.leb_spec (DayFromYear (1970 + 400 * n / 146097 + 1)) n) as [H2|H2].
    + unfold DayFromYear in *. Z.div_mod_to_equations. lia.
    + lia.
Qed.


Lemma Day_MakeDate n time :
  0 <= time < msPerDay -> Day (MakeDate n time) = n.
Proof.
  intros H. unfold Day, MakeDate, msPerDay in *. Z.div_mod_to_equations. lia.
Qed.

Lemma TimeWithinDay_MakeDate n time :
  0 <= time < msPerDay -> TimeWithinDay (MakeDate n time) = time.
Proof.
  intros H. unfold TimeWithinDay, MakeDate, msPerDay in *.
  Z.div_mod_to_equations. lia.
Qed.

Lemma MakeDate_Day t : MakeDate (Day t) (TimeWithinDay t) = t.
Proof.
  unfold MakeDate, Day, TimeWithinDay, msPerDay. Z.div_mod_to_equations. lia.
Qed.

Lemma DayWithinYear_range t :
  0 <= DayWithinYear t < DaysInYear (YearFromTime t).
Proof.
  unfold DayWithinYear, YearFromTime.
  pose proof (YearFromDay_spec (Day t)) as S.
  rewrite DayFromYear_succ in S. lia.
Qed.

Lemma monthOfYearDay_range l d : 0 <= monthOfYearDay l d <= 11.
Proof. unfold monthOfYearDay. split_ltb; lia. Qed.

(** Within a year, [daysBeforeMonth] and [monthOfYearDay] bracket the day:
    the month found is the one whose days contain it. *)
Lemma monthOfYearDay_bracket l d :
  0 <= l <= 1 -> 0 <= d < 365 + l ->
  let m := monthOfYearDay l d in
  daysBeforeMonth l m <= d < daysBeforeMonth l (m + 1) \/
  (m = 11 /\ daysBeforeMonth l 11 <= d).
Proof.
  intros Hl Hd. cbv zeta. unfold monthOfYearDay. split_ltb; simpl; lia.
Qed.

Lemma MonthFromTime_range t : 0 <= MonthFromTime t <= 11.
Proof. apply monthOfYearDay_range. Qed.

Lemma InLeapYear_DaysInYear t :
  DaysInYear (YearFromTime t) = 365 + InLeapYear t /\ 0 <= InLeapYear t <= 1.
Proof.
  unfold DaysInYear, InLeapYear. destruct (isLeapYear (YearFromTime t)); lia.
Qed.

(** The fields of a time value give back its day number. *)
Lemma MakeDay_fields t :
  MakeDay (YearFromTime t) (MonthFromTime t) (DateFromTime t) = Day t.
Proof.
  pose proof (MonthFromTime_range t) as Hm.
  unfold MakeDay, DateFromTime.
  replace (MonthFromTime t / 12) with 0 by (Z.div_mod_to_equations; lia).
  replace (MonthFromTime t mod 12) with (MonthFromTime t)
    by (Z.div_mod_to_equations; lia).
  rewrite Z.add_0_r. fold (InLeapYear t). unfold DayWithinYear. lia.
Qed.

(** [d.setDate(d.getDate() - 1)] asks the host for the same time of day
    one day earlier. *)
Lemma setDate_previous_day tz t :
  setDate tz t (getDate t - 1) = LocalTime tz (UTC tz (t - msPerDay)).
Proof.
  unfold setDate, getDate. f_equal. f_equal.
  assert (MakeDay (YearFromTime t) (MonthFromTime t) (DateFromTime t - 1)
          = Day t - 1) as ->.
  { rewrite <- MakeDay_fields. unfold MakeDay. lia. }
  rewrite <- (MakeDate_Day t) at 3. unfold MakeDate. lia.
Qed.

(** When the host has that local time, the date moves back by exactly one
    day. *)
Lemma setDate_unskipped tz t :
  unskipped tz (t - msPerDay) -> setDate tz t (getDate t - 1) = t - msPerDay.
Proof. intros H. rewrite setDate_previous_day. exact H. Qed.

(** The instant of a local time lies an offset of the zone away from
    it. *)
Lemma UTC_offset tz l : exists t, UTC tz l = l - tz t.
Proof.
  unfold UTC. cbv zeta. destruct (_ =? _); [eauto|]. destruct (_ =? _); eauto.
Qed.

(** A zone whose offset never changes skips no local time. *)
Lemma UTC_constant tz l : constantOffset tz -> UTC tz l = l - tz 0.
Proof.
  intros H. unfold UTC. cbv zeta.
  rewrite (H (l - msPerDay) 0), (H (l - tz 0) 0). now rewrite Z.eqb_refl.
Qed.

Lemma constant_unskipped tz l : constantOffset tz -> unskipped tz l.
Proof.
  intros H. unfold unskipped, LocalTime.
  rewrite (UTC_constant tz l H), (H (l - tz 0) 0). lia.
Qed.

Lemma constant_walkUnskipped tz nowv k : constantOffset tz -> walkUnskipped tz nowv k.
Proof. intros H j _. now apply constant_unskipped. Qed.

Lemma walkUnskipped_le tz nowv k k' :
  k' <= k -> walkUnskipped tz nowv k -> walkUnskipped tz nowv k'.
Proof. intros Hle H j Hj. apply H. lia. Qed.

Lemma Day_previous t : Day (t - msPerDay) = Day t - 1.
Proof. unfold Day, msPerDay. Z.div_mod_to_equations. lia. Qed.


Lemma daysInMonth_range y m : 28 <= daysInMonth y m <= 31.
Proof.
  unfold daysInMonth.
  destruct m as [|q|q]; try lia;
    repeat (destruct q as [q|q|]; try lia); destruct (isLeapYear y); lia.
Qed.


End CalendarFacts.

Example epoch_fields :
  (getFullYear 0, getMonth 0, getDate 0, getDay 0) = (1970, 0, 1, 4).
Proof. reflexivity. Qed.

Example leap_day_2024 :
  let d := newDate 2024 1 29 in
  (getFullYear d, getMonth d, getDate d, getDay d) = (2024, 1, 29, 4).
Proof. vm_compute. reflexivity. Qed.

Example day_before_new_year :
  let d := setDate utcZone (newDate 2025 0 1) (getDate (newDate 2025 0 1) - 1) in
  formatDate d = "2024-12-31"%string.
Proof. vm_compute. reflexivity. Qed.

Example day_before_march_2023 :
  let d := setDate newYork2025 (newDate 2023 2 1) 0 in
  (getFullYear d, getMonth d, getDate d) = (2023, 1, 28).
Proof. vm_compute. reflexivity. Qed.

(** In New York 02:30 of 9 March 2025 does not exist: a date asked to
    show it shows 03:30.  In Nuuk a date moved back from 23:30 of 31 March
    2024 stays on 31 March, at 00:30. *)
Example skipped_local_times :
  LocalTime newYork2025
    (UTC newYork2025 (MakeDate (MakeDay 2025 2 9) (MakeTime 2 30 0 0)))
    = MakeDate (MakeDay 2025 2 9) (MakeTime 3 30 0 0) /\
  setDate nuuk2024 (MakeDate (MakeDay 2024 2 31) (MakeTime 23 30 0 0)) 30
    = MakeDate (MakeDay 2024 2 31) (MakeTime 0 30 0 0) /\
  setDate apia2011 apiaClock (getDate apiaClock - 1) = apiaClock.
Proof. vm_compute. repeat split; reflexivity. Qed.

Example march20_key : formatDate march20 = "2025-03-20"%string.
Proof. vm_compute. reflexivity. Qed.

(* ================================================================== *)
(** * Statements about the calendar grid *)
(* ================================================================== *)

Section CalendarGrid.





Lemma dayCells_seqZ h k y m day n :
  NewTab.dayCells h k y m day n
  = map (cellOfDay h k y m) (seqZ day (Z.of_nat n)).
Proof.
  revert day. induction n as [|n IH]; intros day; [reflexivity|].
  rewrite seqZ_cons by lia. simpl NewTab.dayCells. rewrite IH.
  replace (Z.pred (Z.of_nat (S n))) with (Z.of_nat n) by lia.
  reflexivity.
Qed.


End CalendarGrid.






(** January 2025 starts on a Wednesday and has 31 days. *)
Example january_2025_cells :
  let cells := Page.calDays (exec (NewTab.renderCalendar sampleEnv 2025 0) samplePage) in
  take 4 cells
    = [EmptyCell; EmptyCell; EmptyCell; DayCell 1 "2025-01-01" false None]
  /\ length cells = 34%nat.
Proof. vm_compute. split; reflexivity. Qed.

(** For a two-digit year the grid is that of the year 1900 later. *)
Example year_50_grid :
  getDay (newDate 50 0 1) = 0 /\ weekdayOfCivil 50 0 1 = 6 /\
  weekdayOfCivil 1950 0 1 = 0.
Proof. vm_compute. repeat split; reflexivity. Qed.

(* ================================================================== *)
(** * Date keys *)
(* ================================================================== *)

Section DateKeyFacts.

Lemma string_length_app s t :
  String.length (s +:+ t) = (String.length s + String.length t)%nat.
Proof. induction s as [|a s IH]; simpl; [reflexivity|]. now rewrite IH. Qed.

Lemma string_app_nil_l t : "" +:+ t = t.
Proof. reflexivity. Qed.

Lemma string_app_cons a s t : String a s +:+ t = String a (s +:+ t).
Proof. reflexivity. Qed.

(** Two concatenations with tails of equal length agree part by part. *)
Lemma string_app_inj_tail s1 s2 t1 t2 :
  String.length t1 = String.length t2 ->
  s1 +:+ t1 = s2 +:+ t2 -> s1 = s2 /\ t1 = t2.
Proof.
  intros Hl. revert s2. induction s1 as [|a s1 IH]; intros [|b s2] H;
    rewrite ?string_app_nil_l, ?string_app_cons in H.
  - auto.
  - apply (f_equal String.length) in H. simpl in H.
    rewrite string_length_app in H. lia.
  - apply (f_equal String.length) in H. simpl in H.
    rewrite string_length_app in H. lia.
  - injection H as -> H. destruct (IH _ H) as [-> ->]. auto.
Qed.

Lemma forallb_seqZ (P : Z -> bool) lo len :
  forallb P (seqZ lo len) = true ->
  forall v, lo <= v < lo + len -> P v = true.
Proof.
  intros H v Hv. rewrite forallb_forall in H. apply H.
  apply list_elem_of_In, elem_of_seqZ. lia.
Qed.

Lemma padStart2_toString v :
  0 <= v <= 99 -> padStart2 (toString v) = twoDigits v.
Proof.
  intros Hv.
  apply String.eqb_eq.
  apply (forallb_seqZ (fun v => String.eqb (padStart2 (toString v)) (twoDigits v)) 0 100);
    [vm_compute; reflexivity|lia].
Qed.

Lemma toString_four_digits y :
  1000 <= y <= 9999 ->
  toString y = twoDigits (y / 100) +:+ twoDigits (y mod 100).
Proof.
  intros Hy.
  apply String.eqb_eq.
  apply (forallb_seqZ
           (fun y => String.eqb (toString y)
                       (twoDigits (y / 100) +:+ twoDigits (y mod 100))) 1000 9000);
    [vm_compute; reflexivity|lia].
Qed.

Lemma digitOf_digitChar d : 0 <= d <= 9 -> digitOf (digitChar d) = Some d.
Proof.
  intros H.
  assert (d = 0 \/ d = 1 \/ d = 2 \/ d = 3 \/ d = 4 \/ d = 5 \/ d = 6 \/ d = 7
          \/ d = 8 \/ d = 9) as C by lia.
  destruct C as [->|[->|[->|[->|[->|[->|[->|[->|[->| ->]]]]]]]]]; reflexivity.
Qed.

Lemma number2_twoDigits v a b :
  0 <= v <= 99 -> twoDigits v = String a (String b EmptyString) ->
  number2 a b = Some v.
Proof.
  intros Hv [= <- <-]. unfold number2.
  rewrite !digitOf_digitChar by (Z.div_mod_to_equations; lia).
  f_equal. Z.div_mod_to_equations. lia.
Qed.

Lemma twoDigits_inj v w :
  0 <= v <= 99 -> 0 <= w <= 99 -> twoDigits v = twoDigits w -> v = w.
Proof.
  intros Hv Hw H.
  pose proof (number2_twoDigits v _ _ Hv eq_refl) as E1.
  pose proof (number2_twoDigits w _ _ Hw eq_refl) as E2.
  unfold twoDigits in H. injection H as H1 H2. rewrite H1, H2 in E1. congruence.
Qed.

(** The date fields of a time value are those of its day. *)
Lemma DateFromTime_range t :
  1 <= DateFromTime t <= daysInMonth (YearFromTime t) (MonthFromTime t).
Proof.
  pose proof (DayWithinYear_range t) as Hd.
  destruct (InLeapYear_DaysInYear t) as [Hl Hl01]. rewrite Hl in Hd.
  unfold DateFromTime, MonthFromTime, daysInMonth.
  assert (isLeapYear (YearFromTime t) = (InLeapYear t =? 1)) as ->.
  { unfold InLeapYear. now destruct (isLeapYear (YearFromTime t)). }
  unfold monthOfYearDay. split_ltb; simpl;
    destruct (Z.eqb_spec (InLeapYear t) 1); lia.
Qed.

Lemma formatDate_fields t :
  formatDate t =
    toString (YearFromTime t) +:+ "-" +:+ twoDigits (MonthFromTime t + 1)
      +:+ "-" +:+ twoDigits (DateFromTime t).
Proof.
  unfold formatDate, getFullYear, getMonth, getDate.
  pose proof (MonthFromTime_range t). pose proof (DateFromTime_range t).
  pose proof (daysInMonth_range (YearFromTime t) (MonthFromTime t)).
  rewrite !padStart2_toString by lia. reflexivity.
Qed.

Lemma formatDate_Day t1 t2 : Day t1 = Day t2 -> formatDate t1 = formatDate t2.
Proof.
  intros H. unfold formatDate, getFullYear, getMonth, getDate, DateFromTime,
    MonthFromTime, InLeapYear, DayWithinYear, YearFromTime.
  now rewrite H.
Qed.

Lemma formatDate_dateKey t : formatDate t = dateKey (Day t).
Proof.
  unfold dateKey. apply formatDate_Day.
  rewrite Day_MakeDate; [reflexivity|unfold msPerDay; lia].
Qed.

(** Different days have different keys, in any year. *)
Lemma formatDate_inj t1 t2 : formatDate t1 = formatDate t2 -> Day t1 = Day t2.
Proof.
  rewrite !formatDate_fields. intros H.
  apply string_app_inj_tail in H; [|reflexivity].
  destruct H as [Hy H]. apply (inj pretty) in Hy.
  injection H as H1 H2 H3 H4.
  pose proof (MonthFromTime_range t1). pose proof (MonthFromTime_range t2).
  pose proof (DateFromTime_range t1). pose proof (DateFromTime_range t2).
  pose proof (daysInMonth_range (YearFromTime t1) (MonthFromTime t1)).
  pose proof (daysInMonth_range (YearFromTime t2) (MonthFromTime t2)).
  assert (MonthFromTime t1 + 1 = MonthFromTime t2 + 1) as Hm.
  { apply twoDigits_inj; [lia|lia|]. unfold twoDigits. congruence. }
  assert (DateFromTime t1 = DateFromTime t2) as Hd.
  { apply twoDigits_inj; [lia|lia|]. unfold twoDigits. congruence. }
  rewrite <- (MakeDay_fields t1), <- (MakeDay_fields t2).
  unfold toString in Hy. rewrite Hy, Hd. f_equal. lia.
Qed.

Lemma dateKey_inj n1 n2 : dateKey n1 = dateKey n2 -> n1 = n2.
Proof.
  unfold dateKey. intros H. apply formatDate_inj in H.
  rewrite !Day_MakeDate in H by (unfold msPerDay; lia). exact H.
Qed.

End DateKeyFacts.

(* ================================================================== *)
(** * The streak walk *)
(* ================================================================== *)

Section WalkFacts.

Lemma sort_perm l : sort l ≡ₚ l.
Proof. apply merge_sort_Permutation. Qed.

Lemma sort_Sorted l : Sorted String.le (sort l).
Proof. apply (Sorted_merge_sort String.le). Qed.

(** Sorting a list of distinct keys has one possible outcome. *)
Lemma sort_unique l l' : Sorted String.le l' -> l' ≡ₚ l -> sort l = l'.
Proof.
  intros Hs Hp. apply (Sorted_unique String.le).
  - apply sort_Sorted.
  - exact Hs.
  - now rewrite sort_perm.
Qed.

Lemma sort_sort l : sort (sort l) = sort l.
Proof. apply sort_unique; [apply sort_Sorted|reflexivity]. Qed.

Lemma elem_of_keys (h : History) k : k ∈ keys h <-> is_Some (h !! k).
Proof.
  unfold keys. rewrite list_elem_of_fmap. split.
  - intros [[k' e] [-> Hin]]. apply elem_of_map_to_list in Hin. simpl. eauto.
  - intros [e He]. exists (k, e). split; [reflexivity|].
    now apply elem_of_map_to_list.
Qed.

Lemma keys_length (h : History) : length (keys h) = size h.
Proof. unfold keys. rewrite length_fmap. apply length_map_to_list. Qed.

(** What the walk of the specification returns: the number of consecutive
    done days ending at the day it starts from, added to the count it
    starts with. *)
Lemma specWalk_counts fuel h n c r :
  specWalk fuel h n c = Some r ->
  exists m, 0 <= m /\ r = c + m /\
    (forall j, 0 <= j < m -> doneOn h (n - j) = true) /\
    doneOn h (n - m) = false.
Proof.
  revert n c. induction fuel as [|fuel IH]; intros n c H; [discriminate|].
  simpl in H. destruct (doneOn h n) eqn:E.
  - destruct (IH _ _ H) as (m & Hm & -> & Hall & Hstop).
    exists (m + 1). split; [lia|]. split; [lia|]. split.
    + intros j Hj. destruct (Z.eq_dec j 0) as [->|Hne].
      * now rewrite Z.sub_0_r.
      * replace (n - j) with (n - 1 - (j - 1)) by lia. apply Hall. lia.
    + now replace (n - (m + 1)) with (n - 1 - m) by lia.
  - injection H as <-. exists 0. split; [lia|]. split; [lia|]. split.
    + intros j Hj. lia.
    + now rewrite Z.sub_0_r.
Qed.

Lemma doneOn_delete h n0 n :
  n <> n0 -> doneOn (delete (dateKey n0) h) n = doneOn h n.
Proof.
  intros Hne. unfold doneOn, entryAllDone.
  rewrite lookup_delete_ne; [reflexivity|].
  intros E. apply dateKey_inj in E. congruence.
Qed.

(** The walk never looks at a day after the one it starts from. *)
Lemma specWalk_delete fuel h n0 n c :
  n < n0 ->
  specWalk fuel (delete (dateKey n0) h) n c = specWalk fuel h n c.
Proof.
  revert n c. induction fuel as [|fuel IH]; intros n c Hlt; [reflexivity|].
  simpl. rewrite doneOn_delete by lia.
  destruct (doneOn h n); [|reflexivity].
  apply IH. lia.
Qed.

(** The history is finite, so the walk of the specification stops: it
    needs at most one step per entry, and one more to see the gap. *)
Lemma specWalk_terminates fuel h n c :
  (size h < fuel)%nat -> is_Some (specWalk fuel h n c).
Proof.
  revert h n c. induction fuel as [|fuel IH]; intros h n c Hsz; [lia|].
  simpl.
  destruct (doneOn h n) eqn:E; [|eauto].
  unfold doneOn, entryAllDone in E.
  destruct (h !! dateKey n) as [e|] eqn:He; [|discriminate].
  rewrite <- (specWalk_delete fuel h n).
  - apply IH.
    pose proof (map_size_delete_Some (dateKey n) h (ex_intro _ e He)).
    assert (size h <> 0%nat).
    { intros Z0. apply map_size_empty_iff in Z0. subst h. discriminate He. }
    lia.
  - lia.
Qed.

(** It counts at most one day per entry of the history. *)
Lemma specWalk_bound fuel (h : History) n c r :
  specWalk fuel h n c = Some r -> c <= r <= c + Z.of_nat (size h).
Proof.
  revert h n c. induction fuel as [|fuel IH]; intros h n c H; [discriminate|].
  simpl in H.
  destruct (doneOn h n) eqn:E.
  - unfold doneOn, entryAllDone in E.
    destruct (h !! dateKey n) as [e|] eqn:He; [|discriminate].
    rewrite <- (specWalk_delete fuel h n) in H by lia.
    apply IH in H.
    pose proof (map_size_delete_Some (dateKey n) h (ex_intro _ e He)) as Hs.
    assert (size h <> 0%nat).
    { intros Z0. apply map_size_empty_iff in Z0. subst h. discriminate He. }
    lia.
  - injection H as <-. lia.
Qed.

(** The turns of the loop of the source, counted one by one and in
    powers of two. *)
Lemma walkRun_add a b tz h s :
  walkRun (a + b) tz h s =
    match walkRun a tz h s with
    | inl s' => walkRun b tz h s'
    | inr c => inr c
    end.
Proof.
  revert s. induction a as [|a IH]; intros s; simpl; [reflexivity|].
  destruct (walkTurn tz h s); [apply IH|reflexivity].
Qed.

Lemma walkTurns_walkRun k tz h s :
  walkTurns k tz h s = walkRun (2 ^ k) tz h s.
Proof.
  revert s. induction k as [|k IH]; intros s.
  - simpl. destruct (walkTurn tz h s); reflexivity.
  - cbn [walkTurns]. rewrite (IH s).
    replace (2 ^ S k)%nat with (2 ^ k + 2 ^ k)%nat
      by (rewrite Nat.pow_succ_r'; lia).
    rewrite walkRun_add.
    destruct (walkRun (2 ^ k) tz h s) as [s'|c]; [apply IH|reflexivity].
Qed.

Lemma walkDepth_enough (h : History) : (S (size h) <= 2 ^ walkDepth h)%nat.
Proof.
  unfold walkDepth.
  pose proof (Nat.pow_gt_lin_r 2 (size h + 28) ltac:(lia)). lia.
Qed.

(** The count never goes down. *)
Lemma walkRun_ge fuel tz h d c r :
  walkRun fuel tz h (d, c) = inr r -> c <= r.
Proof.
  revert d c. induction fuel as [|fuel IH]; intros d c H; [discriminate|].
  cbn [walkRun] in H. unfold walkTurn in H.
  destruct (entryAllDone h (formatDate d)).
  - apply IH in H. lia.
  - injection H as <-. lia.
Qed.

(** Where the host has the local times it is asked for, the loop of the
    source is the walk of the specification. *)
Lemma walkRun_spec fuel tz h d c :
  (forall j, 1 <= j <= Z.of_nat fuel -> unskipped tz (d - j * msPerDay)) ->
  walkRun fuel tz h (d, c) =
    match specWalk fuel h (Day d) c with
    | Some r => inr r
    | None => inl (d - Z.of_nat fuel * msPerDay, c + Z.of_nat fuel)
    end.
Proof.
  revert d c. induction fuel as [|fuel IH]; intros d c Hu.
  - simpl. f_equal. f_equal; lia.
  - cbn [walkRun specWalk]. unfold walkTurn. rewrite formatDate_dateKey.
    fold (doneOn h (Day d)).
    destruct (doneOn h (Day d)); [|reflexivity].
    rewrite setDate_unskipped.
    2:{ specialize (Hu 1). rewrite Z.mul_1_l in Hu. apply Hu. lia. }
    rewrite IH.
    + rewrite Day_previous.
      destruct (specWalk fuel h (Day d - 1) (c + 1)); [reflexivity|].
      f_equal. f_equal; lia.
    + intros j Hj.
      replace (d - msPerDay - j * msPerDay) with (d - (j + 1) * msPerDay) by lia.
      apply Hu. lia.
Qed.

Lemma walkTurns_spec tz h d c :
  (forall j, 1 <= j <= Z.of_nat (S (size h)) -> unskipped tz (d - j * msPerDay)) ->
  exists r,
    specWalk (S (size h)) h (Day d) c = Some r /\
    walkTurns (walkDepth h) tz h (d, c) = inr r.
Proof.
  intros Hu.
  destruct (specWalk_terminates (S (size h)) h (Day d) c ltac:(lia)) as [r Hr].
  exists r. split; [exact Hr|]. rewrite walkTurns_walkRun.
  pose proof (walkDepth_enough h) as Hd.
  replace (2 ^ walkDepth h)%nat
    with (S (size h) + (2 ^ walkDepth h - S (size h)))%nat by lia.
  rewrite walkRun_add, (walkRun_spec _ _ _ _ _ Hu), Hr. reflexivity.
Qed.

(** Every key the loop reads is a key of the history, so the [for] loop
    runs to its end. *)
Lemma bestLoop_total tz h allDates i steps run bst :
  (forall k, k ∈ allDates -> is_Some (h !! k)) ->
  (i + steps = length allDates)%nat ->
  is_Some (bestLoop tz h allDates i steps run bst).
Proof.
  intros Hk. revert i run bst.
  induction steps as [|steps IH]; intros i run bst Hlen; simpl; [eauto|].
  destruct (allDates !! i) as [key|] eqn:Ei.
  2:{ apply lookup_ge_None in Ei. lia. }
  destruct (Hk key) as [e He]; [eapply list_elem_of_lookup_2; eassumption|].
  rewrite He. destruct (allDone e); [|apply IH; lia].
  destruct (Nat.eqb i 0); [apply IH; lia|].
  destruct (allDates !! (i - 1)%nat) as [kp|] eqn:Ep; [|apply IH; lia].
  destruct (Hk kp) as [ep Hep]; [eapply list_elem_of_lookup_2; eassumption|].
  rewrite Hep.
  destruct (diffIsOne tz _ _ && allDone ep); apply IH; lia.
Qed.

(** A run is never longer than the number of entries scanned. *)
Lemma bestLoop_bound tz h allDates i steps run bst b :
  bestLoop tz h allDates i steps run bst = Some b ->
  0 <= run <= Z.of_nat i -> 0 <= bst <= Z.of_nat i ->
  0 <= b <= Z.of_nat (i + steps).
Proof.
  revert i run bst. induction steps as [|steps IH]; intros i run bst H Hr Hb; simpl in H.
  - injection H as <-. lia.
  - destruct (allDates !! i) as [key|]; [|discriminate].
    destruct (h !! key) as [e|]; [|discriminate].
    replace (i + S steps)%nat with (S i + steps)%nat by lia.
    destruct (allDone e).
    + destruct (Nat.eqb i 0).
      * eapply IH; [exact H| |]; destruct (Z.ltb_spec bst 1); lia.
      * destruct (allDates !! (i - 1)%nat) as [kp|].
        -- destruct (h !! kp) as [ep|].
           ++ destruct (diffIsOne tz _ _ && allDone ep).
              ** eapply IH; [exact H| |]; destruct (Z.ltb_spec bst (run + 1)); lia.
              ** eapply IH; [exact H| |]; destruct (Z.ltb_spec bst 1); lia.
           ++ destruct (diffIsOne tz _ _); [discriminate|].
              eapply IH; [exact H| |]; destruct (Z.ltb_spec bst 1); lia.
        -- eapply IH; [exact H| |]; destruct (Z.ltb_spec bst 1); lia.
    + eapply IH; [exact H| |]; lia.
Qed.

Lemma sort_length l : length (sort l) = length l.
Proof. apply Permutation_length, sort_perm. Qed.

End WalkFacts.

(* ================================================================== *)
(** * Statements about the current streak *)
(* ================================================================== *)

Section CurrentStreak.

Variable LocalTZA : Z -> Z.

(** Whatever the zone, the two parts of a result are the count of the
    walk and the larger of it and the outcome of the scan. *)
Lemma calculateStreak_shape (h : History) (nowv : Z) r :
  calculateStreak LocalTZA h nowv = Some r ->
  exists cur b,
    r = {| current := cur; best := Z.max b cur |} /\
    0 <= cur /\ 0 <= b <= Z.of_nat (size h).
Proof.
  unfold calculateStreak. rewrite !sort_length, keys_length.
  destruct (Nat.eqb_spec (size h) 0) as [E0|Hne].
  - intros [= <-]. exists 0, 0. split; [reflexivity|]. lia.
  - destruct (entryAllDone h (formatDate nowv));
      (destruct (walkTurns _ _ _ _) as [s'|cur] eqn:Hw; [discriminate|]);
      rewrite walkTurns_walkRun in Hw; apply walkRun_ge in Hw;
      (destruct (bestLoop _ _ _ _ _ _ _) as [b|] eqn:Hb; [|discriminate]);
      intros [= <-]; exists cur, b; (split; [reflexivity|]); (split; [lia|]);
      apply (bestLoop_bound _ _ _ _ _ _ _ _ Hb); lia.
Qed.

(** Where the host has the local times the walk asks for,
    [calculateStreak] returns, and its two parts are the outcome of the
    walk of the specification and of the scan. *)
Lemma calculateStreak_parts (h : History) (nowv : Z) :
  walkUnskipped LocalTZA nowv (Z.of_nat (size h) + 2) ->
  exists cur b,
    calculateStreak LocalTZA h nowv = Some {| current := cur; best := Z.max b cur |} /\
    0 <= b <= Z.of_nat (size h) /\
    ((h = ∅ /\ cur = 0 /\ b = 0) \/
     (h <> ∅ /\
      specWalk (S (size h)) h (Day nowv - 1)
        (if doneOn h (Day nowv) then 1 else 0) = Some cur /\
      bestLoop LocalTZA h (sort (sort (keys h))) 0 (size h) 0 0 = Some b)).
Proof.
  intros Hu. unfold calculateStreak.
  rewrite !sort_length, keys_length.
  destruct (Nat.eqb_spec (size h) 0) as [E0|Hne].
  - exists 0, 0. split; [reflexivity|]. split; [lia|]. left.
    apply map_size_empty_iff in E0. auto.
  - rewrite setDate_unskipped.
    2:{ specialize (Hu 1). rewrite Z.mul_1_l in Hu. apply Hu. lia. }
    rewrite formatDate_dateKey. fold (doneOn h (Day nowv)).
    assert (forall j, 1 <= j <= Z.of_nat (S (size h)) ->
              unskipped LocalTZA (nowv - msPerDay - j * msPerDay)) as Hu'.
    { intros j Hj.
      replace (nowv - msPerDay - j * msPerDay) with (nowv - (j + 1) * msPerDay) by lia.
      apply Hu. lia. }
    destruct (walkTurns_spec LocalTZA h (nowv - msPerDay)
                (if doneOn h (Day nowv) then 1 else 0) Hu') as (cur & Hcur & Hw).
    rewrite Day_previous in Hcur.
    assert (exists b, bestLoop LocalTZA h (sort (sort (keys h))) 0 (size h) 0 0 = Some b)
      as [b Hb].
    { apply bestLoop_total.
      - intros k Hk. rewrite !sort_perm in Hk. now apply elem_of_keys.
      - rewrite !sort_length, keys_length. reflexivity. }
    exists cur, b.
    assert (h <> ∅) as Hh.
    { intros ->. apply Hne. apply map_size_empty. }
    pose proof (bestLoop_bound _ _ _ _ _ _ _ _ Hb ltac:(lia) ltac:(lia)) as Hbound.
    destruct (doneOn h (Day nowv)); rewrite Hw, Hb;
      (split; [reflexivity|]); (split; [exact Hbound|]); right; auto.
Qed.

(** The walk counts the consecutive done days before today. *)
Lemma calculateStreak_walk (h : History) (nowv : Z) :
  walkUnskipped LocalTZA nowv (Z.of_nat (size h) + 2) ->
  exists cur b m,
    calculateStreak LocalTZA h nowv = Some {| current := cur; best := Z.max b cur |} /\
    0 <= b <= Z.of_nat (size h) /\
    0 <= m /\
    cur = (if doneOn h (Day nowv) then 1 else 0) + m /\
    (forall j, 1 <= j <= m -> doneOn h (Day nowv - j) = true) /\
    doneOn h (Day nowv - (m + 1)) = false /\
    ((h = ∅ /\ b = 0) \/
     (h <> ∅ /\ bestLoop LocalTZA h (sort (sort (keys h))) 0 (size h) 0 0 = Some b)).
Proof.
  intros Hu.
  destruct (calculateStreak_parts h nowv Hu) as (cur & b & Hr & Hb & Hcase).
  exists cur, b.
  destruct Hcase as [(-> & -> & ->)|(Hne & Hw & Hl)].
  - exists 0. unfold doneOn, entryAllDone. rewrite !lookup_empty.
    split; [exact Hr|]. split; [exact Hb|]. split; [lia|]. split; [reflexivity|].
    split; [intros j Hj; lia|]. split; [reflexivity|]. left. auto.
  - destruct (specWalk_counts _ _ _ _ _ Hw) as (m & Hm & -> & Hall & Hstop).
    exists m. split; [exact Hr|]. split; [exact Hb|]. split; [exact Hm|].
    split; [reflexivity|]. split; [|split].
    + intros j Hj. replace (Day nowv - j) with (Day nowv - 1 - (j - 1)) by lia.
      apply Hall. lia.
    + now replace (Day nowv - (m + 1)) with (Day nowv - 1 - m) by lia.
    + right. auto.
Qed.

(** There the current streak is the one the specification describes. *)
Lemma calculateStreak_specCurrent (h : History) (nowv : Z) :
  walkUnskipped LocalTZA nowv (Z.of_nat (size h) + 2) ->
  exists r,
    calculateStreak LocalTZA h nowv = Some r /\
    specCurrent h (Day nowv) = Some (current r).
Proof.
  intros Hu.
  destruct (calculateStreak_parts h nowv Hu) as (cur & b & Hr & _ & Hcase).
  exists {| current := cur; best := Z.max b cur |}. split; [exact Hr|]. simpl.
  destruct Hcase as [(-> & -> & _)|(_ & Hw & _)]; [reflexivity|exact Hw].
Qed.

End CurrentStreak.

(* ================================================================== *)
(** * A walk that has not returned never returns *)
(* ================================================================== *)

Section WalkForEver.

Variable tz : Z -> Z.
Variable h : History.

Lemma dup_or_NoDup (l : list Z) :
  NoDup l \/ exists i j x, (i < j)%nat /\ l !! i = Some x /\ l !! j = Some x.
Proof.
  induction l as [|a l IH]; [left; constructor|].
  destruct (decide (a ∈ l)) as [Hin|Hout].
  - right. apply list_elem_of_lookup_1 in Hin. destruct Hin as [j Hj].
    exists 0%nat, (S j), a. split; [lia|]. split; [reflexivity|exact Hj].
  - destruct IH as [Hn|(i & j & x & Hij & Hi & Hj)].
    + left. now constructor.
    + right. exists (S i), (S j), x. split; [lia|]. split; assumption.
Qed.

Lemma dateAfter_add a b d : dateAfter (a + b) tz d = dateAfter b tz (dateAfter a tz d).
Proof. revert d. induction a as [|a IH]; intros d; [reflexivity|]. simpl. apply IH. Qed.

Lemma walkRun_inl n d c s :
  walkRun n tz h (d, c) = inl s ->
  forall i, (i < n)%nat -> entryAllDone h (formatDate (dateAfter i tz d)) = true.
Proof.
  revert d c. induction n as [|n IH]; intros d c H i Hi; [lia|].
  cbn [walkRun] in H. unfold walkTurn in H.
  destruct (entryAllDone h (formatDate d)) eqn:E; [|discriminate].
  destruct i as [|i]; [exact E|]. simpl. apply (IH _ _ H). lia.
Qed.

Lemma walkRun_goes n d c :
  (forall i, (i < n)%nat -> entryAllDone h (formatDate (dateAfter i tz d)) = true) ->
  exists s, walkRun n tz h (d, c) = inl s.
Proof.
  revert d c. induction n as [|n IH]; intros d c H; [simpl; eauto|].
  pose proof (H 0%nat ltac:(lia)) as H0. cbn [dateAfter] in H0.
  cbn [walkRun]. unfold walkTurn. rewrite H0.
  apply IH. intros i Hi. apply (H (S i)). lia.
Qed.

(** A walk that comes back to a date it has been at goes round. *)
Lemma dateAfter_periodic i j d :
  (i < j)%nat -> dateAfter i tz d = dateAfter j tz d ->
  (forall k, (k < j)%nat -> entryAllDone h (formatDate (dateAfter k tz d)) = true) ->
  forall k, entryAllDone h (formatDate (dateAfter k tz d)) = true.
Proof.
  intros Hij Heq Hlt k. induction k as [k IH] using lt_wf_ind.
  destruct (Nat.lt_ge_cases k j) as [Hk|Hk]; [now apply Hlt|].
  replace k with (j + (k - j))%nat by lia.
  rewrite dateAfter_add, <- Heq, <- dateAfter_add. apply IH. lia.
Qed.

(** The dates at which a turn goes on are told apart by their key, one
    of the keys of the history, and their time of day. *)
Lemma dateAfter_repeats n d :
  Z.of_nat (size h) * msPerDay < Z.of_nat n ->
  (forall k, (k < n)%nat -> entryAllDone h (formatDate (dateAfter k tz d)) = true) ->
  exists i j, (i < j < n)%nat /\ dateAfter i tz d = dateAfter j tz d.
Proof.
  intros Hbig Hdone.
  set (l := (fun k => dateAfter k tz d) <$> seq 0 n).
  assert (forall k x, l !! k = Some x -> (k < n)%nat /\ x = dateAfter k tz d) as Hl.
  { intros k x Hk. unfold l in Hk. rewrite list_lookup_fmap in Hk.
    destruct (seq 0 n !! k) as [k'|] eqn:Hs; [|discriminate].
    apply lookup_seq in Hs. destruct Hs as [-> Hlt]. injection Hk as <-. auto. }
  destruct (dup_or_NoDup l) as [Hn|(i & j & x & Hij & Hi & Hj)].
  - exfalso.
    set (code := fun t : Z => (formatDate t, TimeWithinDay t)).
    assert (NoDup (code <$> l)) as Hc.
    { apply NoDup_fmap_2_strong; [|exact Hn].
      intros t1 t2 _ _ E. injection E as E1 E2.
      apply formatDate_inj in E1.
      rewrite <- (MakeDate_Day t1), <- (MakeDate_Day t2). congruence. }
    assert (code <$> l ⊆+ list_prod (keys h) (seqZ 0 msPerDay)) as Hsub.
    { apply NoDup_submseteq; [exact Hc|].
      intros [k t] Hin. apply list_elem_of_fmap in Hin.
      destruct Hin as (x & E & Hx). injection E as -> ->.
      apply list_elem_of_lookup_1 in Hx. destruct Hx as [m Hm].
      destruct (Hl _ _ Hm) as [Hlt ->].
      apply list_elem_of_In, in_prod.
      - apply list_elem_of_In, elem_of_keys.
        pose proof (Hdone m Hlt) as Hd. unfold entryAllDone in Hd.
        destruct (h !! formatDate (dateAfter m tz d)); [eauto|discriminate].
      - apply list_elem_of_In, elem_of_seqZ.
        unfold TimeWithinDay, msPerDay. Z.div_mod_to_equations. lia. }
    apply submseteq_length in Hsub.
    rewrite length_fmap in Hsub. unfold l in Hsub.
    rewrite length_fmap, length_seq, length_prod, keys_length, length_seqZ in Hsub.
    assert (Z.of_nat n <= Z.of_nat (size h) * msPerDay); [|lia].
    apply Nat2Z.inj_le in Hsub. rewrite Nat2Z.inj_mul, Z2Nat.id in Hsub; [exact Hsub|].
    unfold msPerDay. lia.
  - destruct (Hl _ _ Hi) as [_ ->]. destruct (Hl _ _ Hj) as [Hjn Heq].
    exists i, j. split; [lia|exact Heq].
Qed.

Lemma walkDepth_dates : Z.of_nat (size h) * msPerDay < Z.of_nat (2 ^ walkDepth h).
Proof.
  unfold walkDepth. rewrite Nat.pow_add_r, Nat2Z.inj_mul.
  pose proof (Nat.pow_gt_lin_r 2 (size h) ltac:(lia)) as H1.
  apply Nat2Z.inj_lt in H1.
  assert (Z.of_nat (2 ^ 28) = 268435456) as ->.
  { rewrite Nat2Z.inj_pow. reflexivity. }
  unfold msPerDay. lia.
Qed.

(** When [calculateStreak] finds the walk still going after
    [2 ^ walkDepth h] turns, the loop of the source never breaks. *)
Lemma walk_never_ends d c s :
  walkTurns (walkDepth h) tz h (d, c) = inl s ->
  forall fuel, exists s', walkRun fuel tz h (d, c) = inl s'.
Proof.
  intros H fuel. rewrite walkTurns_walkRun in H.
  pose proof (walkRun_inl _ _ _ _ H) as Hdone.
  destruct (dateAfter_repeats _ d walkDepth_dates Hdone) as (i & j & [Hij Hj] & Heq).
  apply walkRun_goes. intros k _.
  apply (dateAfter_periodic i j d Hij Heq).
  intros m Hm. apply Hdone. exact (Nat.lt_trans _ _ _ Hm Hj).
Qed.

(** And when it finds a count, the loop breaks with that count. *)
Lemma walk_ends d c r :
  walkTurns (walkDepth h) tz h (d, c) = inr r ->
  exists fuel, walkRun fuel tz h (d, c) = inr r.
Proof. intros H. rewrite walkTurns_walkRun in H. eauto. Qed.

End WalkForEver.

(** Today and the three days before it done, the fourth day back absent:
    4 and 4, in a zone without changes. *)
Example calculateStreak_four_days :
  calculateStreak utcZone fourDayHistory march20 = Some {| current := 4; best := 4 |} /\
  specCurrent fourDayHistory (Day march20) = Some 4.
Proof. vm_compute. split; reflexivity. Qed.

(** C1.  The current streak is not always the count of the procedure of
    the specification.  In Nuuk the clocks went from 23:00 of 30 March 2024
    straight to 00:00 of 31 March.  At 23:30 of 2 April 2024, with 31 March,
    1 April and 2 April done and 30 March absent, the procedure counts 3:
    today, the two days before it, and it stops at 30 March.  The loop of
    the source, once its date shows 23:30 of 31 March, asks for 23:30 of
    30 March, a time that day did not have, and is given 00:30 of 31 March:
    it reads the entry of 31 March a second time, and [calculateStreak]
    returns [current] 4 and [best] 4. *)
Theorem calculateStreak_current_skipped_hour :
  formatDate nuukClock = "2024-04-02"%string /\
  doneOn nuukHistory (Day nuukClock) = true /\
  doneOn nuukHistory (Day nuukClock - 1) = true /\
  doneOn nuukHistory (Day nuukClock - 2) = true /\
  nuukHistory !! dateKey (Day nuukClock - 3) = None /\
  specCurrent nuukHistory (Day nuukClock) = Some 3 /\
  setDate nuuk2024 (nuukClock - 2 * msPerDay) (getDate (nuukClock - 2 * msPerDay) - 1)
    = MakeDate (MakeDay 2024 2 31) (MakeTime 0 30 0 0) /\
  calculateStreak nuuk2024 nuukHistory nuukClock = Some {| current := 4; best := 4 |}.
Proof. vm_compute. repeat split; reflexivity. Qed.

(** At 23:30 of 31 March 2024 in Nuuk, with 30 March done and 31 March
    open, the procedure counts the streak that ended the day before, 1;
    the date of the source never leaves 31 March and the result is 0. *)
Example calculateStreak_skipped_yesterday :
  let h : History := {[ "2024-03-30"%string := doneSnapshot ]} in
  let clock := nuukClock - 2 * msPerDay in
  specCurrent h (Day clock) = Some 1 /\
  calculateStreak nuuk2024 h clock = Some {| current := 0; best := 1 |}.
Proof. vm_compute. split; reflexivity. Qed.

(** A loop that finds its date on a done day, and is given the same date
    back when it asks for the day before, makes no progress. *)
Lemma walkRun_stuck tz (h : History) d :
  entryAllDone h (formatDate d) = true ->
  setDate tz d (getDate d - 1) = d ->
  forall n c, walkRun n tz h (d, c) = inl (d, c + Z.of_nat n).
Proof.
  intros Hdone Hsame n. induction n as [|n IH]; intros c.
  - simpl. f_equal. f_equal. lia.
  - cbn [walkRun]. unfold walkTurn. rewrite Hdone, Hsame, IH.
    f_equal. f_equal. lia.
Qed.

(** In Apia 30 December 2011 did not exist: the clocks went from the end
    of 29 December to the start of 31 December.  At noon of 31 December,
    with that day done, the date moved back one day is given back
    unchanged, the loop never ends, and [calculateStreak] does not return;
    the procedure of the specification counts 1. *)
Example calculateStreak_skipped_day :
  specCurrent apiaHistory (Day apiaClock) = Some 1 /\
  (forall n, exists s, walkRun n apia2011 apiaHistory (apiaClock, 1) = inl s) /\
  calculateStreak apia2011 apiaHistory apiaClock = None.
Proof.
  assert (entryAllDone apiaHistory (formatDate apiaClock) = true) as Hdone
    by (vm_compute; reflexivity).
  assert (setDate apia2011 apiaClock (getDate apiaClock - 1) = apiaClock) as Hsame
    by (vm_compute; reflexivity).
  split; [vm_compute; reflexivity|]. split.
  - intros n. eexists. apply (walkRun_stuck _ _ _ Hdone Hsame).
  - unfold calculateStreak.
    replace (Nat.eqb (length (sort (keys apiaHistory))) 0) with false
      by (vm_compute; reflexivity).
    rewrite Hdone, Hsame, walkTurns_walkRun.
    rewrite (walkRun_stuck _ _ _ Hdone Hsame). reflexivity.
Qed.

(* ================================================================== *)
(** * Keys of four-digit years: shape, parsing and order *)
(* ================================================================== *)

Section FourDigitKeys.

Lemma YearFromDay_range4 n :
  firstDay4 <= n <= lastDay4 -> 1000 <= YearFromDay n <= 9999.
Proof.
  unfold firstDay4, lastDay4. intros H.
  pose proof (YearFromDay_spec n) as S. split.
  - destruct (Z.le_gt_cases 1000 (YearFromDay n)) as [|Hlt]; [assumption|].
    pose proof (DayFromYear_le (YearFromDay n + 1) 1000 ltac:(lia)). lia.
  - destruct (Z.le_gt_cases (YearFromDay n) 9999) as [|Hgt]; [assumption|].
    pose proof (DayFromYear_le 10000 (YearFromDay n) ltac:(lia)). lia.
Qed.

Lemma Day_midnight n : Day (MakeDate n 0) = n.
Proof. apply Day_MakeDate. unfold msPerDay. lia. Qed.

(** Year, month (0-based) and date of a day number. *)
Lemma dateKey_shape n :
  firstDay4 <= n <= lastDay4 ->
  let t := MakeDate n 0 in
  dateKey n =
    twoDigits (YearFromTime t / 100) +:+ twoDigits (YearFromTime t mod 100)
      +:+ "-" +:+ twoDigits (MonthFromTime t + 1)
      +:+ "-" +:+ twoDigits (DateFromTime t).
Proof.
  intros H. cbv zeta. unfold dateKey. rewrite formatDate_fields.
  rewrite toString_four_digits.
  - unfold twoDigits. reflexivity.
  - unfold YearFromTime. rewrite Day_midnight. now apply YearFromDay_range4.
Qed.

Lemma MakeTime_zero : MakeTime 0 0 0 0 = 0.
Proof. reflexivity. Qed.

(** Parsing the key of a day, as [calculateStreak] does, gives local
    midnight of that day. *)
Lemma parseDate_dateKey n :
  firstDay4 <= n <= lastDay4 ->
  parseDate (dateKey n +:+ "T00:00:00") = Some (MakeDate n 0).
Proof.
  intros H. rewrite (dateKey_shape n H). cbv zeta.
  set (t := MakeDate n 0).
  assert (1000 <= YearFromTime t <= 9999) as Hy.
  { unfold YearFromTime, t. rewrite Day_midnight. now apply YearFromDay_range4. }
  pose proof (MonthFromTime_range t) as Hm.
  pose proof (DateFromTime_range t) as Hd.
  pose proof (daysInMonth_range (YearFromTime t) (MonthFromTime t)) as Hdim.
  unfold twoDigits. cbv [String.append]. cbv beta iota delta [parseDate number4].
  rewrite (number2_twoDigits (YearFromTime t / 100) _ _
             ltac:(Z.div_mod_to_equations; lia) eq_refl).
  rewrite (number2_twoDigits (YearFromTime t mod 100) _ _
             ltac:(Z.div_mod_to_equations; lia) eq_refl).
  rewrite (number2_twoDigits (MonthFromTime t + 1) _ _ ltac:(lia) eq_refl).
  rewrite (number2_twoDigits (DateFromTime t) _ _ ltac:(lia) eq_refl).
  change (number2 "0" "0") with (Some 0). cbv beta iota.
  replace (100 * (YearFromTime t / 100) + YearFromTime t mod 100)
    with (YearFromTime t) by (Z.div_mod_to_equations; lia).
  replace (MonthFromTime t + 1 - 1) with (MonthFromTime t) by lia.
  assert ((1 <=? MonthFromTime t + 1) && (MonthFromTime t + 1 <=? 12)
          && (1 <=? DateFromTime t) && (DateFromTime t <=? 31) = true) as ->.
  { rewrite !andb_true_iff, !Z.leb_le. lia. }
  cbn [andb orb Z.leb Z.eqb Z.compare Pos.compare Pos.compare_cont].
  rewrite MakeDay_fields, MakeTime_zero. unfold t. now rewrite Day_midnight.
Qed.

Lemma N_of_digitChar d : 0 <= d <= 9 -> N_of_ascii (digitChar d) = Z.to_N (48 + d).
Proof. intros H. unfold digitChar. apply N_ascii_embedding. lia. Qed.

Lemma compare_digitChar a b :
  0 <= a <= 9 -> 0 <= b <= 9 ->
  Ascii.compare (digitChar a) (digitChar b) = (a ?= b).
Proof.
  intros Ha Hb. unfold Ascii.compare. rewrite !N_of_digitChar by assumption.
  rewrite Z2N.inj_compare by lia. apply Z.add_compare_mono_l.
Qed.

Lemma compare_twoDigits v w s t :
  0 <= v <= 99 -> 0 <= w <= 99 ->
  String.compare (twoDigits v +:+ s) (twoDigits w +:+ t) =
    match v ?= w with Eq => String.compare s t | c => c end.
Proof.
  intros Hv Hw. unfold twoDigits. rewrite !string_app_cons, !string_app_nil_l.
  simpl String.compare.
  rewrite !compare_digitChar by (Z.div_mod_to_equations; lia).
  destruct (Z.compare_spec (v / 10) (w / 10)) as [E1|L1|G1];
    destruct (Z.compare_spec (v mod 10) (w mod 10)) as [E2|L2|G2];
    destruct (Z.compare_spec v w) as [E|L|G]; try reflexivity;
    exfalso; Z.div_mod_to_equations; lia.
Qed.

Lemma string_app_nil_r s : s +:+ "" = s.
Proof. induction s as [|a s IH]; [reflexivity|]. now rewrite string_app_cons, IH. Qed.

Lemma compare_dash s t :
  String.compare ("-" +:+ s) ("-" +:+ t) = String.compare s t.
Proof. reflexivity. Qed.

(** Later days have larger date fields, read as year, month, date. *)
Lemma fields_increase n1 n2 :
  n1 < n2 ->
  let t1 := MakeDate n1 0 in
  let t2 := MakeDate n2 0 in
  YearFromTime t1 < YearFromTime t2 \/
  (YearFromTime t1 = YearFromTime t2 /\ MonthFromTime t1 < MonthFromTime t2) \/
  (YearFromTime t1 = YearFromTime t2 /\ MonthFromTime t1 = MonthFromTime t2 /\
   DateFromTime t1 < DateFromTime t2).
Proof.
  intros Hlt. cbv zeta.
  pose proof (YearFromDay_spec n1) as S1. pose proof (YearFromDay_spec n2) as S2.
  pose proof (DayWithinYear_range (MakeDate n1 0)) as R1.
  pose proof (DayWithinYear_range (MakeDate n2 0)) as R2.
  destruct (InLeapYear_DaysInYear (MakeDate n1 0)) as [L1 L1'].
  destruct (InLeapYear_DaysInYear (MakeDate n2 0)) as [L2 L2'].
  unfold DateFromTime, MonthFromTime, DayWithinYear, YearFromTime in *.
  rewrite !Day_midnight in *.
  destruct (Z.lt_trichotomy (YearFromDay n1) (YearFromDay n2)) as [Hy|[Hy|Hy]].
  - left. exact Hy.
  - right. rewrite Hy in *.
    assert (InLeapYear (MakeDate n1 0) = InLeapYear (MakeDate n2 0)) as El.
    { unfold InLeapYear, YearFromTime. rewrite !Day_midnight, Hy. reflexivity. }
    rewrite El in *.
    set (l := InLeapYear (MakeDate n2 0)) in *.
    set (y := DayFromYear (YearFromDay n2)) in *.
    unfold monthOfYearDay. split_ltb; simpl; lia.
  - exfalso.
    pose proof (DayFromYear_le (YearFromDay n2 + 1) (YearFromDay n1) ltac:(lia)). lia.
Qed.

(** In four-digit years the order of the keys, by code units, is the
    order of the days. *)
Lemma dateKey_compare_lt n1 n2 :
  firstDay4 <= n1 -> n2 <= lastDay4 -> n1 < n2 ->
  String.compare (dateKey n1) (dateKey n2) = Lt.
Proof.
  intros H1 H2 Hlt.
  rewrite (dateKey_shape n1), (dateKey_shape n2) by lia. cbv zeta.
  pose proof (fields_increase n1 n2 Hlt) as F. cbv zeta in F.
  set (t1 := MakeDate n1 0) in *. set (t2 := MakeDate n2 0) in *.
  assert (1000 <= YearFromTime t1 <= 9999) as Hy1.
  { unfold YearFromTime, t1. rewrite Day_midnight. apply YearFromDay_range4. lia. }
  assert (1000 <= YearFromTime t2 <= 9999) as Hy2.
  { unfold YearFromTime, t2. rewrite Day_midnight. apply YearFromDay_range4. lia. }
  pose proof (MonthFromTime_range t1). pose proof (MonthFromTime_range t2).
  pose proof (DateFromTime_range t1). pose proof (DateFromTime_range t2).
  pose proof (daysInMonth_range (YearFromTime t1) (MonthFromTime t1)).
  pose proof (daysInMonth_range (YearFromTime t2) (MonthFromTime t2)).
  rewrite compare_twoDigits by (Z.div_mod_to_equations; lia).
  rewrite compare_twoDigits by (Z.div_mod_to_equations; lia).
  rewrite compare_dash, compare_twoDigits by lia.
  rewrite compare_dash.
  rewrite <- (string_app_nil_r (twoDigits (DateFromTime t1))).
  rewrite <- (string_app_nil_r (twoDigits (DateFromTime t2))).
  rewrite compare_twoDigits by lia.
  destruct (Z.compare_spec (YearFromTime t1 / 100) (YearFromTime t2 / 100));
    destruct (Z.compare_spec (YearFromTime t1 mod 100) (YearFromTime t2 mod 100));
    destruct (Z.compare_spec (MonthFromTime t1 + 1) (MonthFromTime t2 + 1));
    destruct (Z.compare_spec (DateFromTime t1) (DateFromTime t2));
    try reflexivity; exfalso; Z.div_mod_to_equations; lia.
Qed.

Lemma dateKey_le n1 n2 :
  firstDay4 <= n1 -> n2 <= lastDay4 -> n1 <= n2 ->
  String.le (dateKey n1) (dateKey n2).
Proof.
  intros H1 H2 Hle. destruct (Z.eq_dec n1 n2) as [->|Hne].
  - reflexivity.
  - unfold String.le, String.leb.
    rewrite dateKey_compare_lt by lia. exact I.
Qed.

End FourDigitKeys.

(* ================================================================== *)
(** * The sorted keys of a well-formed history *)
(* ================================================================== *)

Section SortedKeys.

Lemma keyDay_dateKey n :
  firstDay4 <= n <= lastDay4 -> keyDay (dateKey n) = Some n.
Proof.
  intros H. unfold keyDay. rewrite parseDate_dateKey by assumption.
  simpl. now rewrite Day_midnight.
Qed.

Lemma fmap_omap_keyDay (l : list string) :
  (forall k, k ∈ l -> exists n, firstDay4 <= n <= lastDay4 /\ k = dateKey n) ->
  dateKey <$> omap keyDay l = l.
Proof.
  induction l as [|k l IH]; intros H; [reflexivity|].
  destruct (H k ltac:(left)) as (n & Hn & ->).
  simpl. rewrite keyDay_dateKey by assumption. simpl. f_equal.
  apply IH. intros k' Hk'. apply H. now right.
Qed.

Lemma omap_keyDay_range (l : list string) n :
  (forall k, k ∈ l -> exists n, firstDay4 <= n <= lastDay4 /\ k = dateKey n) ->
  n ∈ omap keyDay l -> firstDay4 <= n <= lastDay4.
Proof.
  intros H Hn. apply list_elem_of_omap in Hn. destruct Hn as (k & Hk & Hkn).
  destruct (H k Hk) as (n' & Hn' & ->).
  rewrite keyDay_dateKey in Hkn by assumption. congruence.
Qed.

Lemma sorted_keys_of_days (days : list Z) :
  StronglySorted Z.le days ->
  Forall (fun n => firstDay4 <= n <= lastDay4) days ->
  Sorted String.le (dateKey <$> days).
Proof.
  intros Hs Hr. apply StronglySorted_Sorted.
  induction Hs as [|n r Hs IH Hall]; simpl; [constructor|].
  inversion Hr as [|? ? Hn Hr']; subst.
  constructor; [now apply IH|].
  apply Forall_fmap. rewrite Forall_forall in Hall, Hr' |- *.
  intros m Hm. simpl. apply dateKey_le; [lia| |now apply Hall].
  apply (Hr' m Hm).
Qed.

Lemma strict_of_NoDup (days : list Z) :
  StronglySorted Z.le days -> NoDup days -> StronglySorted Z.lt days.
Proof.
  induction 1 as [|n r Hs IH Hall]; intros Hnd; [constructor|].
  apply NoDup_cons in Hnd. destruct Hnd as [Hn Hnd].
  constructor; [now apply IH|].
  rewrite Forall_forall in Hall |- *. intros m Hm.
  pose proof (Hall m Hm). assert (m <> n) by (intros ->; contradiction). lia.
Qed.

(** For a well-formed history the sorted keys are the keys of the recorded
    days in ascending order, each recorded day once. *)
Lemma recordedDays_sorted_keys (h : History) :
  wellFormed h ->
  sort (keys h) = dateKey <$> recordedDays h /\
  StronglySorted Z.lt (recordedDays h) /\
  Forall (fun n => firstDay4 <= n <= lastDay4) (recordedDays h) /\
  (forall n, n ∈ recordedDays h <-> is_Some (h !! dateKey n)).
Proof.
  intros Hwf.
  assert (forall k, k ∈ keys h ->
            exists n, firstDay4 <= n <= lastDay4 /\ k = dateKey n) as Hk.
  { intros k Hin. apply Hwf. now apply elem_of_keys. }
  pose proof (fmap_omap_keyDay _ Hk) as Hmap.
  assert (recordedDays h ≡ₚ omap keyDay (keys h)) as Hperm
    by apply merge_sort_Permutation.
  assert (dateKey <$> recordedDays h ≡ₚ keys h) as Hpk.
  { rewrite Hperm, Hmap. reflexivity. }
  assert (Forall (fun n => firstDay4 <= n <= lastDay4) (recordedDays h)) as Hr.
  { apply Forall_forall. intros n Hn. rewrite Hperm in Hn.
    eapply omap_keyDay_range; eassumption. }
  assert (StronglySorted Z.le (recordedDays h)) as Hs.
  { apply (StronglySorted_merge_sort Z.le). }
  assert (NoDup (recordedDays h)) as Hnd.
  { apply (NoDup_fmap_1 dateKey). rewrite Hpk. apply NoDup_fst_map_to_list. }
  split; [|split; [|split]].
  - apply sort_unique; [|exact Hpk]. now apply sorted_keys_of_days.
  - now apply strict_of_NoDup.
  - exact Hr.
  - intros n. rewrite <- elem_of_keys, <- Hpk, list_elem_of_fmap. split.
    + intros Hn. eauto.
    + intros (m & Hm & Hin). apply dateKey_inj in Hm. now subst m.
Qed.

Lemma sorted_lookup_lt (days : list Z) i j x y :
  StronglySorted Z.lt days ->
  days !! i = Some x -> days !! j = Some y -> (i < j)%nat -> x < y.
Proof.
  intros Hs. revert i j. induction Hs as [|n r Hs IH Hall]; intros i j Hi Hj Hlt.
  - discriminate.
  - destruct j as [|j]; [lia|]. simpl in Hj. destruct i as [|i].
    + simpl in Hi. injection Hi as <-.
      rewrite Forall_forall in Hall. apply Hall.
      eapply list_elem_of_lookup_2. eassumption.
    + simpl in Hi. apply (IH i j); [assumption|assumption|lia].
Qed.

Lemma sorted_lookup_index (days : list Z) i j x y :
  StronglySorted Z.lt days ->
  days !! i = Some x -> days !! j = Some y -> x < y -> (i < j)%nat.
Proof.
  intros Hs Hi Hj Hlt.
  destruct (Nat.lt_trichotomy i j) as [H|[H|H]]; [assumption| |].
  - subst j. rewrite Hi in Hj. injection Hj as <-. lia.
  - pose proof (sorted_lookup_lt days j i y x Hs Hj Hi H). lia.
Qed.

End SortedKeys.

(* ================================================================== *)
(** * The scan for the best streak *)
(* ================================================================== *)

Section BestScan.

Variable LocalTZA : Z -> Z.
Variable h : History.
Variable days : list Z.

Hypothesis zone_constant : constantOffset LocalTZA.
Hypothesis days_sorted : StronglySorted Z.lt days.
Hypothesis days_range : Forall (fun n => firstDay4 <= n <= lastDay4) days.
Hypothesis days_recorded : forall n, n ∈ days <-> is_Some (h !! dateKey n).

Lemma diffIsOne_midnights p n :
  diffIsOne LocalTZA (Some (MakeDate p 0)) (Some (MakeDate n 0)) = (n - p =? 1).
Proof.
  unfold diffIsOne, instant. rewrite !(UTC_constant _ _ zone_constant).
  unfold MakeDate.
  destruct (Z.eqb_spec (n - p) 1) as [E|E];
    destruct (Z.eqb_spec
      (n * msPerDay + 0 - LocalTZA 0 - (p * msPerDay + 0 - LocalTZA 0))
      (1000 * 60 * 60 * 24))
      as [E'|E']; try reflexivity; exfalso; unfold msPerDay in *; lia.
Qed.

(** The test of the source on the previous key agrees with the test of the
    specification on the previous calendar day. *)
Lemma previous_key_previous_day i p n ep :
  days !! i = Some p -> days !! S i = Some n -> h !! dateKey p = Some ep ->
  (n - p =? 1) && allDone ep = doneOn h (n - 1).
Proof.
  intros Hp Hn Hep.
  destruct (Z.eqb_spec (n - p) 1) as [E|E]; simpl.
  - replace (n - 1) with p by lia. unfold doneOn, entryAllDone. now rewrite Hep.
  - destruct (doneOn h (n - 1)) eqn:Hd; [|reflexivity]. exfalso.
    assert (n - 1 ∈ days) as Hin.
    { apply days_recorded. unfold doneOn, entryAllDone in Hd.
      destruct (h !! dateKey (n - 1)); [eauto|discriminate]. }
    apply list_elem_of_lookup in Hin. destruct Hin as [j Hj].
    pose proof (sorted_lookup_lt days i (S i) p n days_sorted Hp Hn ltac:(lia)).
    pose proof (sorted_lookup_index days i j p (n - 1) days_sorted Hp Hj ltac:(lia)).
    pose proof (sorted_lookup_index days j (S i) (n - 1) n days_sorted Hj Hn ltac:(lia)).
    lia.
Qed.

Lemma bestLoop_specScan steps i run bst :
  (i + steps = length days)%nat ->
  (i = 0%nat -> run = 0) ->
  bestLoop LocalTZA h (dateKey <$> days) i steps run bst
  = Some (specScan h (drop i days) (Nat.eqb i 0) run bst).
Proof.
  revert i run bst. induction steps as [|steps IH]; intros i run bst Hlen Hrun.
  - simpl. rewrite drop_ge by lia. reflexivity.
  - assert (is_Some (days !! i)) as [n Hn] by (apply lookup_lt_is_Some; lia).
    rewrite (drop_S _ _ _ Hn).
    assert (firstDay4 <= n <= lastDay4) as Hrn.
    { rewrite Forall_forall in days_range. apply days_range.
      eapply list_elem_of_lookup_2. eassumption. }
    assert (is_Some (h !! dateKey n)) as [e He].
    { apply days_recorded. eapply list_elem_of_lookup_2. eassumption. }
    simpl bestLoop. rewrite list_lookup_fmap, Hn. simpl. rewrite He.
    unfold doneOn at 1, entryAllDone. rewrite He.
    destruct (allDone e).
    2:{ rewrite IH by lia. reflexivity. }
    destruct i as [|i].
    + simpl. rewrite (Hrun eq_refl). rewrite IH by lia. simpl.
      f_equal. f_equal. destruct (Z.ltb_spec bst 1); lia.
    + replace (S i - 1)%nat with i by lia.
      assert (is_Some (days !! i)) as [p Hp] by (apply lookup_lt_is_Some; lia).
      assert (firstDay4 <= p <= lastDay4) as Hrp.
      { rewrite Forall_forall in days_range. apply days_range.
        eapply list_elem_of_lookup_2. eassumption. }
      assert (is_Some (h !! dateKey p)) as [ep Hep].
      { apply days_recorded. eapply list_elem_of_lookup_2. eassumption. }
      rewrite list_lookup_fmap, Hp. simpl. rewrite Hep.
      rewrite !parseDate_dateKey by assumption.
      rewrite diffIsOne_midnights.
      rewrite (previous_key_previous_day i p n ep Hp Hn Hep).
      destruct (doneOn h (n - 1)); rewrite IH by lia; simpl;
        f_equal; f_equal; match goal with
                          | |- context [Z.ltb ?a ?b] => destruct (Z.ltb_spec a b)
                          end; lia.
Qed.

End BestScan.

(* ================================================================== *)
(** * The best streak *)
(* ================================================================== *)

Section BestStreak.

Variable LocalTZA : Z -> Z.
Variable h : History.

Hypothesis zone_constant : constantOffset LocalTZA.
Hypothesis history_wf : wellFormed h.

Lemma keys_empty : keys (∅ : History) = [].
Proof. unfold keys. now rewrite map_to_list_empty. Qed.

(** In a zone whose offset never changes the loop of the source computes
    the scan of the specification. *)
Lemma bestLoop_scanBest :
  bestLoop LocalTZA h (sort (sort (keys h))) 0 (size h) 0 0 = Some (scanBest h).
Proof.
  destruct (recordedDays_sorted_keys h history_wf) as (Hk & Hs & Hr & Hm).
  rewrite sort_sort, Hk.
  assert (size h = length (recordedDays h)) as ->.
  { rewrite <- keys_length, <- (sort_length (keys h)), Hk. apply length_fmap. }
  rewrite (bestLoop_specScan LocalTZA h (recordedDays h) zone_constant Hs Hr Hm)
    by (reflexivity || lia).
  reflexivity.
Qed.

Lemma calculateStreak_best_scan (nowv : Z) :
  exists r,
    calculateStreak LocalTZA h nowv = Some r /\
    best r = Z.max (scanBest h) (current r).
Proof.
  destruct (calculateStreak_parts LocalTZA h nowv
              (constant_walkUnskipped _ _ _ zone_constant))
    as (cur & b & Hr & _ & Hcase).
  exists {| current := cur; best := Z.max b cur |}. split; [exact Hr|]. simpl.
  destruct Hcase as [(-> & -> & ->)|(_ & _ & Hb)].
  - unfold scanBest, recordedDays. rewrite keys_empty. reflexivity.
  - rewrite bestLoop_scanBest in Hb. injection Hb as <-. reflexivity.
Qed.

End BestStreak.

(* ================================================================== *)
(** * The scan finds the longest run of done days *)
(* ================================================================== *)

Section LongestRun.

Variable h : History.

Lemma specScan_longest rest :
  forall (first : bool) (run bst last : Z),
    StronglySorted Z.lt rest ->
    Forall (fun m => last < m) rest ->
    (forall m, doneOn h m = true -> m <= last \/ m ∈ rest) ->
    (first = true -> run = 0 /\ forall m, m <= last -> doneOn h m = false) ->
    0 <= run <= bst ->
    (forall j, 0 <= j < run -> doneOn h (last - j) = true) ->
    doneOn h (last - run) = false ->
    (forall n len, 1 <= len -> doneRun h n len -> n + len - 1 <= last -> len <= bst) ->
    (bst = 0 \/ exists n, doneRun h n bst) ->
    (forall n len, 1 <= len -> doneRun h n len ->
       len <= specScan h rest first run bst) /\
    (specScan h rest first run bst = 0 \/
     exists n, doneRun h n (specScan h rest first run bst)) /\
    bst <= specScan h rest first run bst.
Proof.
  induction rest as [|n rest IH];
    intros first run bst last Hs Hgt Hcov Hfirst Hrun Hdone Hstop Hmax Hwit.
  - simpl. split; [|split; [exact Hwit|lia]].
    intros n len Hlen Hr. apply (Hmax n len Hlen Hr).
    destruct (Hcov (n + (len - 1)) (Hr (len - 1) ltac:(lia))) as [H|H]; [lia|].
    inversion H.
  - inversion Hs as [|? ? Hs' Hall]; subst.
    inversion Hgt as [|? ? Hn Hgt']; subst.
    rewrite Forall_forall in Hall.
    assert (Forall (fun m => n < m) rest) as Hgt2 by (now apply Forall_forall).
    assert (forall m, doneOn h m = true -> m <= n \/ m ∈ rest) as Hcov2.
    { intros m Hm. destruct (Hcov m Hm) as [H|H]; [lia|].
      apply elem_of_cons in H. destruct H as [->|H]; [lia|now right]. }
    (* a run that ends before [n] ends at [last] or earlier *)
    assert (forall a len, 1 <= len -> doneRun h a len -> a + len - 1 <= n ->
              a + len - 1 <> n -> a + len - 1 <= last) as Hbefore.
    { intros a len Hlen Hr Hend Hne.
      destruct (Hcov (a + (len - 1)) (Hr (len - 1) ltac:(lia))) as [H|H]; [lia|].
      apply elem_of_cons in H. destruct H as [H|H]; [lia|].
      pose proof (Hall _ H). lia. }
    simpl specScan. destruct (doneOn h n) eqn:Hdn.
    + (* the day is done: the run that ends here *)
      set (run' := if first || doneOn h (n - 1) then run + 1 else 1).
      assert (1 <= run' <= run + 1 /\
              (forall j, 0 <= j < run' -> doneOn h (n - j) = true) /\
              doneOn h (n - run') = false) as (Hr1 & Hr2 & Hr3).
      { assert (doneOn h (n - 1) = true -> last = n - 1) as Hprev.
        { intros Hp. destruct (Hcov (n - 1) Hp) as [H|H]; [lia|].
          apply elem_of_cons in H. destruct H as [H|H]; [lia|].
          pose proof (Hall _ H). lia. }
        subst run'. destruct first; simpl.
        - destruct (Hfirst eq_refl) as [-> Hnone].
          assert (doneOn h (n - 1) = false) as Hp.
          { apply not_true_is_false. intros E. pose proof (Hprev E).
            rewrite (Hnone (n - 1)) in E by lia. discriminate. }
          split; [lia|]. split; [|exact Hp].
          intros j Hj. assert (j = 0) as -> by lia. now rewrite Z.sub_0_r.
        - destruct (doneOn h (n - 1)) eqn:Hp.
          + pose proof (Hprev eq_refl) as ->. split; [lia|]. split.
            * intros j Hj. destruct (Z.eq_dec j 0) as [->|Hj0].
              -- now rewrite Z.sub_0_r.
              -- replace (n - j) with (n - 1 - (j - 1)) by lia. apply Hdone. lia.
            * now replace (n - (run + 1)) with (n - 1 - run) by lia.
          + split; [lia|]. split; [|exact Hp].
            intros j Hj. assert (j = 0) as -> by lia. now rewrite Z.sub_0_r. }
      assert (forall a len, 1 <= len -> doneRun h a len -> a + len - 1 <= n ->
                len <= Z.max bst run') as Hmax2.
      { intros a len Hlen Hr Hend.
        destruct (Z.eq_dec (a + len - 1) n) as [E|E].
        - destruct (Z.le_gt_cases len run') as [|Hgt3]; [lia|].
          pose proof (Hr (len - 1 - run') ltac:(lia)) as Hc.
          replace (a + (len - 1 - run')) with (n - run') in Hc by lia. congruence.
        - pose proof (Hmax a len Hlen Hr (Hbefore a len Hlen Hr Hend E)). lia. }
      assert (Z.max bst run' = 0 \/ exists a, doneRun h a (Z.max bst run')) as Hwit2.
      { destruct (Z.max_spec bst run') as [[_ ->]|[_ ->]].
        - right. exists (n - run' + 1). intros j Hj.
          replace (n - run' + 1 + j) with (n - (run' - 1 - j)) by lia.
          apply Hr2. lia.
        - exact Hwit. }
      destruct (IH false run' (Z.max bst run') n Hs' Hgt2 Hcov2
                  ltac:(discriminate) ltac:(lia) Hr2 Hr3 Hmax2 Hwit2)
        as (A1 & A2 & A3).
      split; [exact A1|]. split; [exact A2|lia].
    + (* the day is not done: the run is broken *)
      assert (forall a len, 1 <= len -> doneRun h a len -> a + len - 1 <= n ->
                len <= bst) as Hmax2.
      { intros a len Hlen Hr Hend.
        destruct (Z.eq_dec (a + len - 1) n) as [E|E].
        - pose proof (Hr (len - 1) ltac:(lia)) as Hc.
          replace (a + (len - 1)) with n in Hc by lia. congruence.
        - apply (Hmax a len Hlen Hr (Hbefore a len Hlen Hr Hend E)). }
      assert (doneOn h (n - 0) = false) as Hstop2 by (now rewrite Z.sub_0_r).
      destruct (IH false 0 bst n Hs' Hgt2 Hcov2
                  ltac:(discriminate) ltac:(lia) ltac:(intros j Hj; lia)
                  Hstop2 Hmax2 Hwit)
        as (A1 & A2 & A3).
      split; [exact A1|]. split; [exact A2|exact A3].
Qed.

(** On a well-formed history the scan of the specification returns the
    length of the longest run of consecutive done days. *)
Lemma scanBest_longest :
  wellFormed h ->
  (forall n len, 1 <= len -> doneRun h n len -> len <= scanBest h) /\
  (scanBest h = 0 \/ exists n, doneRun h n (scanBest h)) /\
  0 <= scanBest h.
Proof.
  intros Hwf. destruct (recordedDays_sorted_keys h Hwf) as (_ & Hs & Hr & Hm).
  assert (forall m, doneOn h m = true -> m ∈ recordedDays h) as Hin.
  { intros m Hd. apply Hm. unfold doneOn, entryAllDone in Hd.
    destruct (h !! dateKey m); [eauto|discriminate]. }
  assert (forall m, doneOn h m = true -> firstDay4 <= m) as Hlow.
  { intros m Hd. rewrite Forall_forall in Hr. apply (Hr m (Hin m Hd)). }
  assert (forall m, m <= firstDay4 - 1 -> doneOn h m = false) as Hnone.
  { intros m Hle. apply not_true_is_false. intros Hd. pose proof (Hlow m Hd). lia. }
  unfold scanBest.
  apply (specScan_longest (recordedDays h) true 0 0 (firstDay4 - 1)).
  - exact Hs.
  - eapply Forall_impl; [exact Hr|]. simpl. intros m Hm'. lia.
  - intros m Hd. right. now apply Hin.
  - intros _. split; [reflexivity|exact Hnone].
  - lia.
  - intros j Hj. lia.
  - apply Hnone. lia.
  - intros n len Hlen Hrun Hend. exfalso.
    pose proof (Hlow _ (Hrun (len - 1) ltac:(lia))). lia.
  - now left.
Qed.

End LongestRun.


(* ================================================================== *)
(** * Statements about the best streak *)
(* ================================================================== *)

Section BestIsLongestRun.

Variable LocalTZA : Z -> Z.
Variable h : History.

Hypothesis zone_constant : constantOffset LocalTZA.
Hypothesis history_wf : wellFormed h.

(** In a zone whose offset never changes, on keys of the shape YYYY-MM-DD,
    [best] is the result of the scan of the specification, which is the
    length of the longest run of consecutive done days; the current streak
    is such a run, so taking the maximum with it changes nothing. *)
Lemma calculateStreak_best_longest (nowv : Z) :
  exists r,
    calculateStreak LocalTZA h nowv = Some r /\
    best r = Z.max (scanBest h) (current r) /\
    best r = scanBest h /\
    current r <= best r /\
    (forall n len, 1 <= len -> doneRun h n len -> len <= best r) /\
    (best r = 0 \/ exists n, doneRun h n (best r)).
Proof.
  destruct (calculateStreak_walk LocalTZA h nowv
              (constant_walkUnskipped _ _ _ zone_constant))
    as (cur & b & m & Hr & _ & Hm & Hcur & Hall & _ & Hcase).
  destruct (scanBest_longest h history_wf) as (Hlong & Hwit & Hpos).
  assert (b = scanBest h) as ->.
  { destruct Hcase as [(-> & ->)|(_ & Hb)].
    - unfold scanBest, recordedDays. rewrite keys_empty. reflexivity.
    - rewrite (bestLoop_scanBest LocalTZA h zone_constant history_wf) in Hb.
      congruence. }
  assert (cur <= scanBest h) as Hle.
  { destruct (Z.le_gt_cases cur 0) as [|Hc]; [lia|].
    apply (Hlong (Day nowv - m) cur); [lia|].
    intros j Hj. destruct (doneOn h (Day nowv)) eqn:Ht.
    - destruct (Z.eq_dec j m) as [->|Hne].
      + now replace (Day nowv - m + m) with (Day nowv) by lia.
      + replace (Day nowv - m + j) with (Day nowv - (m - j)) by lia.
        apply Hall. lia.
    - replace (Day nowv - m + j) with (Day nowv - (m - j)) by lia.
      apply Hall. lia. }
  exists {| current := cur; best := Z.max (scanBest h) cur |}. simpl.
  rewrite Z.max_l by exact Hle.
  split; [rewrite Z.max_l in Hr by exact Hle; exact Hr|].
  split; [reflexivity|]. split; [reflexivity|]. split; [exact Hle|].
  split; [exact Hlong|exact Hwit].
Qed.

End BestIsLongestRun.

Example calculateStreak_empty nowv :
  calculateStreak utcZone ∅ nowv = Some {| current := 0; best := 0 |}.
Proof. reflexivity. Qed.

Example calculateStreak_single_day :
  calculateStreak utcZone {[ "2025-03-20"%string := doneSnapshot ]} march20
    = Some {| current := 1; best := 1 |}.
Proof. vm_compute. reflexivity. Qed.

(** C2.  The best streak is meant to be the larger of the current streak
    and the longest run found by scanning the recorded dates in ascending
    order with calendar adjacency.  The source decides adjacency by
    subtracting the two parsed dates as instants.  With the rules of
    New York and entries for 8, 9 and 10 March 2025, all done, the
    difference between the keys of 9 and 10 March is 23 hours, the run is
    restarted and [best] is 2; the scan of the specification gives 3, and so
    does the source in a zone without daylight saving time. *)
Theorem calculateStreak_best_spring_forward :
  calculateStreak newYork2025 springForwardHistory march20
    = Some {| current := 0; best := 2 |} /\
  Z.max (scanBest springForwardHistory) 0 = 3 /\
  doneRun springForwardHistory (Day (newDate 2025 2 8)) 3 /\
  diffIsOne newYork2025 (parseDate "2025-03-09T00:00:00")
    (parseDate "2025-03-10T00:00:00") = false /\
  instant newYork2025 (newDate 2025 2 10) - instant newYork2025 (newDate 2025 2 9)
    = 23 * 3600000 /\
  calculateStreak utcZone springForwardHistory march20
    = Some {| current := 0; best := 3 |}.
Proof.
  split; [vm_compute; reflexivity|]. split; [vm_compute; reflexivity|].
  split.
  { intros j Hj. assert (j = 0 \/ j = 1 \/ j = 2) as [->|[->| ->]] by lia;
      vm_compute; reflexivity. }
  split; [vm_compute; reflexivity|]. split; vm_compute; reflexivity.
Qed.

(* ================================================================== *)
(** * Two runs, today not done *)
(* ================================================================== *)



Section ConcreteHistories.

(** A history whose keys are all keys of the listed days is well formed
    when those days lie in four-digit years, and its done days are among
    the listed ones. *)
Lemma keys_among_days (h : History) (days : list Z) k :
  forallb (fun k => existsb (String.eqb k) (dateKey <$> days)) (keys h) = true ->
  is_Some (h !! k) -> exists n, In n days /\ k = dateKey n.
Proof.
  intros Hk Hs. rewrite forallb_forall in Hk.
  apply elem_of_keys, list_elem_of_In in Hs. apply Hk in Hs.
  apply existsb_exists in Hs. destruct Hs as (k' & Hin & E).
  apply String.eqb_eq in E. subst k'.
  apply list_elem_of_In, list_elem_of_fmap in Hin. destruct Hin as (n & -> & Hn).
  exists n. split; [now apply list_elem_of_In|reflexivity].
Qed.

Lemma wellFormed_by_days (h : History) (days : list Z) :
  forallb (fun k => existsb (String.eqb k) (dateKey <$> days)) (keys h) = true ->
  forallb (fun n => (firstDay4 <=? n) && (n <=? lastDay4)) days = true ->
  wellFormed h.
Proof.
  intros Hk Hr k Hs. destruct (keys_among_days h days k Hk Hs) as (n & Hn & ->).
  exists n. split; [|reflexivity].
  rewrite forallb_forall in Hr. specialize (Hr n Hn).
  apply andb_true_iff in Hr. destruct Hr as [H1 H2].
  apply Z.leb_le in H1, H2. lia.
Qed.


Lemma utcZone_constant : constantOffset utcZone.
Proof. intros a b. reflexivity. Qed.

Lemma twoRunsHistory_wellFormed : wellFormed twoRunsHistory.
Proof.
  apply (wellFormed_by_days _ (seqZ (Day march20 - 18) 19)); vm_compute; reflexivity.
Qed.


End ConcreteHistories.


(* ================================================================== *)
(** * Further properties of the task actions *)
(* ================================================================== *)

Section TaskActionFacts.

Lemma notDone_In (l : list Task) t :
  In t (TaskList.notDone l) <-> In t l /\ done t = false.
Proof.
  unfold TaskList.notDone. rewrite filter_In. rewrite negb_true_iff. reflexivity.
Qed.

Lemma removeId_In i (l : list Task) t :
  In t (TaskList.removeId i l) <-> In t l /\ id t <> i.
Proof.
  unfold TaskList.removeId. rewrite filter_In, negb_true_iff, String.eqb_neq.
  reflexivity.
Qed.

Lemma filter_sublist {A} (f : A -> bool) (l : list A) : sublist (List.filter f l) l.
Proof.
  induction l as [|x r IH]; simpl; [constructor|].
  destruct (f x); [now apply sublist_skip|now apply sublist_cons].
Qed.

Lemma filter_idem {A} (f : A -> bool) (l : list A) :
  List.filter f (List.filter f l) = List.filter f l.
Proof.
  induction l as [|x r IH]; simpl; [reflexivity|].
  destruct (f x) eqn:E; simpl; [rewrite E; f_equal|]; exact IH.
Qed.

Lemma removeId_cons i x (l : list Task) :
  TaskList.removeId i (x :: l) =
    if String.eqb (id x) i then TaskList.removeId i l else x :: TaskList.removeId i l.
Proof. unfold TaskList.removeId. simpl. now destruct (String.eqb (id x) i). Qed.

Lemma removeId_absent i (l : list Task) :
  Forall (fun t => id t <> i) l -> TaskList.removeId i l = l.
Proof.
  induction 1 as [|x r Hx _ IH]; [reflexivity|].
  rewrite removeId_cons. apply String.eqb_neq in Hx. now rewrite Hx, IH.
Qed.

Lemma removeId_unique i (l : list Task) :
  NoDup (map id l) -> (exists t, In t l /\ id t = i) ->
  S (length (TaskList.removeId i l)) = length l.
Proof.
  induction l as [|x r IH]; intros Hnd [t [Hin Hid]]; [destruct Hin|].
  simpl in Hnd. apply NoDup_cons in Hnd. destruct Hnd as [Hx Hnd].
  rewrite removeId_cons.
  destruct (String.eqb (id x) i) eqn:E; simpl.
  - apply String.eqb_eq in E. f_equal.
    rewrite (removeId_absent i r); [reflexivity|].
    apply Forall_forall. intros u Hu Hui. apply Hx.
    rewrite E, <- Hui. apply list_elem_of_fmap. eauto.
  - apply String.eqb_neq in E. f_equal. apply IH; [exact Hnd|].
    destruct Hin as [->|Hin]; [contradiction|eauto].
Qed.

Lemma lastNotDone_all_done (l : list Task) n :
  Forall (fun t => done t = true) l -> TaskList.lastNotDone l n = None.
Proof.
  intros H. induction n as [|n IH]; simpl; [reflexivity|].
  destruct (l !! n) as [t|] eqn:E; [|exact IH].
  rewrite Forall_lookup in H. now rewrite (H n t E).
Qed.

Lemma lastNotDone_snoc (l : list Task) t :
  done t = false ->
  TaskList.lastNotDone (l ++ [t]) (length (l ++ [t])) = Some (length l).
Proof.
  intros H. rewrite length_app. simpl. rewrite Nat.add_1_r. simpl.
  rewrite lookup_app_r by lia. rewrite Nat.sub_diag. simpl. now rewrite H.
Qed.

Lemma splice1_snoc (l : list Task) t : TaskList.splice1 (length l) (l ++ [t]) = l.
Proof.
  unfold TaskList.splice1. rewrite take_app_length.
  rewrite drop_ge by (rewrite length_app; simpl; lia). apply app_nil_r.
Qed.

Lemma notDone_app (l1 l2 : list Task) :
  TaskList.notDone (l1 ++ l2) = TaskList.notDone l1 ++ TaskList.notDone l2.
Proof. apply List.filter_app. Qed.

End TaskActionFacts.

(** X1.  [deleteTask] leaves exactly the stored tasks whose id differs from
    the one given, in their order.  An id that does not occur leaves the
    list as it was, a second deletion changes nothing more, and with
    distinct ids an id that occurs takes exactly one task away. *)
Theorem deleteTask_removes_id (env : Env) (i : string) (p : Page.t) :
  let l := storedTasks p in
  let l' := storedTasks (exec (NewTab.deleteTask env i) p) in
  (forall t, In t l' <-> In t l /\ id t <> i) /\
  sublist l' l /\
  (Forall (fun t => id t <> i) l -> l' = l) /\
  storedTasks (exec (NewTab.deleteTask env i) (exec (NewTab.deleteTask env i) p)) = l' /\
  (NoDup (map id l) -> (exists t, In t l /\ id t = i) -> S (length l') = length l).
Proof.
  cbv zeta. rewrite !deleteTask_stored.
  split; [intros t; apply removeId_In|].
  split; [apply filter_sublist|].
  split; [apply removeId_absent|].
  split; [apply filter_idem|apply removeId_unique].
Qed.

Lemma deleteTask_removes_id_witness :
  NoDup (map id (storedTasks samplePage)) /\
  (exists t, In t (storedTasks samplePage) /\ id t = "b"%string) /\
  S (length (storedTasks (exec (NewTab.deleteTask sampleEnv "b") samplePage)))
    = length (storedTasks samplePage) /\
  Forall (fun t => id t <> "z"%string) (storedTasks samplePage) /\
  storedTasks (exec (NewTab.deleteTask sampleEnv "z") samplePage)
    = storedTasks samplePage.
Proof.
  assert (NoDup (map id (storedTasks samplePage))) as Hnd.
  { change (map id (storedTasks samplePage)) with ["a"; "b"; "c"]%string.
    repeat (apply NoDup_cons; split;
            [intros Hin;
             repeat (apply elem_of_cons in Hin; destruct Hin as [Hin|Hin];
                     [discriminate Hin|]);
             inversion Hin|]).
    apply NoDup_nil. exact I. }
  assert (exists t, In t (storedTasks samplePage) /\ id t = "b"%string) as Hex.
  { eexists. split; [right; left; reflexivity|reflexivity]. }
  assert (Forall (fun t => id t <> "z"%string) (storedTasks samplePage)) as Hz.
  { repeat constructor; discriminate. }
  split; [exact Hnd|]. split; [exact Hex|].
  split; [exact (proj2 (proj2 (proj2 (proj2
            (deleteTask_removes_id sampleEnv "b" samplePage)))) Hnd Hex)|].
  split; [exact Hz|].
  exact (proj1 (proj2 (proj2 (deleteTask_removes_id sampleEnv "z" samplePage))) Hz).
Defined.

(** X2.  [clearCompleted] leaves exactly the stored tasks that are not
    done, in their order, so the remaining count does not change and a
    second call changes nothing.  The entry it records for today never has
    [allDone = true]: what is left is empty or all not done. *)
Theorem clearCompleted_keeps_open_tasks (env : Env) (p : Page.t) :
  let l := storedTasks p in
  let p' := exec (NewTab.clearCompleted env) p in
  (forall t, In t (storedTasks p') <-> In t l /\ done t = false) /\
  sublist (storedTasks p') l /\
  remainingOf (storedTasks p') = remainingOf l /\
  storedTasks (exec (NewTab.clearCompleted env) p') = storedTasks p' /\
  entryAllDone (storedHistory p') (NewTab.todayString env) = false.
Proof.
  cbv zeta. rewrite !clearCompleted_stored.
  split; [intros t; apply notDone_In|].
  split; [apply filter_sublist|].
  split; [unfold remainingOf, TaskList.notDone; now rewrite filter_idem|].
  split; [apply filter_idem|].
  unfold NewTab.clearCompleted. rewrite exec_bind.
  destruct (loadTasks_value p) as [-> ->].
  destruct (saveTasks_effect env (TaskList.notDone (storedTasks p)) p) as (_ & Hh & Hs).
  rewrite Hs, Hh. unfold entryAllDone. rewrite lookup_insert_eq.
  apply not_true_is_false. intros Hall.
  apply snapshotOf_allDone in Hall. destruct Hall as [Hne Hall].
  destruct (TaskList.notDone (storedTasks p)) as [|t r] eqn:E; [congruence|].
  inversion Hall as [|? ? Ht _]; subst.
  assert (In t (TaskList.notDone (storedTasks p))) as Hin by (rewrite E; left; reflexivity).
  apply notDone_In in Hin. destruct Hin as [_ Hd]. congruence.
Qed.

(** X3.  When no stored task is incomplete, the empty list included,
    [deleteLastTask] does nothing at all: nothing is saved, no snapshot is
    taken and nothing is sent. *)
Theorem deleteLastTask_nothing_to_delete (env : Env) (p : Page.t) :
  Forall (fun t => done t = true) (storedTasks p) ->
  exec (NewTab.deleteLastTask env) p = p.
Proof.
  intros H. unfold NewTab.deleteLastTask. rewrite exec_bind.
  destruct (loadTasks_value p) as [-> ->].
  now rewrite lastNotDone_all_done.
Qed.

Lemma deleteLastTask_nothing_to_delete_witness :
  storedTasks allDonePage = doneTasks /\
  Forall (fun t => done t = true) (storedTasks allDonePage) /\
  exec (NewTab.deleteLastTask sampleEnv) allDonePage = allDonePage.
Proof.
  assert (Forall (fun t => done t = true) (storedTasks allDonePage)) as H
    by (repeat constructor).
  split; [reflexivity|]. split; [exact H|].
  exact (deleteLastTask_nothing_to_delete sampleEnv allDonePage H).
Defined.


(** X4.  [deleteLastTask] undoes [addTask]: the task just added is not done
    and stands last, so it is the one removed and the stored list is the
    one before the addition. *)
Theorem addTask_then_deleteLastTask (env1 env2 : Env) (txt : jsstring) (p : Page.t) :
  ~ blank txt ->
  storedTasks (exec (NewTab.deleteLastTask env2) (exec (NewTab.addTask env1 txt) p))
    = storedTasks p.
Proof.
  intros H. rewrite deleteLastTask_stored, (addTask_stored env1 txt p H).
  rewrite lastNotDone_snoc by reflexivity. apply splice1_snoc.
Qed.

Lemma addTask_then_deleteLastTask_witness :
  ~ blank (codeUnits "buy milk") /\
  storedTasks (exec (NewTab.deleteLastTask sampleEnv)
                 (exec (NewTab.addTask sampleEnv (codeUnits "buy milk")) samplePage))
    = storedTasks samplePage.
Proof.
  assert (~ blank (codeUnits "buy milk")) as H.
  { intros Hb. apply trim_blank in Hb. discriminate Hb. }
  split; [exact H|].
  exact (addTask_then_deleteLastTask sampleEnv sampleEnv (codeUnits "buy milk")
           samplePage H).
Defined.

(** X5.  [toggleTask] on an id that occurs keeps the length of the list
    and the ids and texts in their places, and moves the remaining count by
    exactly one: down when the first task with that id was open, up when it
    was done. *)
Theorem toggleTask_remaining (env : Env) (i : string) (p : Page.t) :
  (exists t, In t (storedTasks p) /\ id t = i) ->
  let l := storedTasks p in
  let l' := storedTasks (exec (NewTab.toggleTask env i) p) in
  length l' = length l /\ map id l' = map id l /\ map text l' = map text l /\
  exists l1 t l2,
    l = l1 ++ t :: l2 /\ id t = i /\ Forall (fun u => id u <> i) l1 /\
    remainingOf l' = if done t then remainingOf l + 1 else remainingOf l - 1.
Proof.
  intros Hin. cbv zeta. rewrite toggleTask_stored.
  destruct (toggleFirst_split i _ Hin) as (l1 & t & l2 & Hl & Hid & Hl1 & Ht).
  rewrite Ht, Hl.
  split; [now rewrite !length_app|].
  split; [now rewrite !map_app|]. split; [now rewrite !map_app|].
  exists l1, t, l2. split; [reflexivity|]. split; [exact Hid|]. split; [exact Hl1|].
  unfold remainingOf. rewrite !notDone_app, !length_app.
  change (flipDone t :: l2) with ([flipDone t] ++ l2).
  change (t :: l2) with ([t] ++ l2).
  rewrite !notDone_app, !length_app.
  unfold TaskList.notDone at 2 5. simpl. destruct (done t); simpl; lia.
Qed.

Lemma toggleTask_remaining_witness :
  (exists t, In t (storedTasks samplePage) /\ id t = "b"%string) /\
  length (storedTasks (exec (NewTab.toggleTask sampleEnv "b") samplePage))
    = length (storedTasks samplePage).
Proof.
  assert (exists t, In t (storedTasks samplePage) /\ id t = "b"%string) as H.
  { eexists. split; [right; left; reflexivity|reflexivity]. }
  split; [exact H|].
  exact (proj1 (toggleTask_remaining sampleEnv "b" samplePage H)).
Defined.

Example toggleTask_sample_remaining :
  remainingOf (storedTasks samplePage) = 1 /\
  remainingOf (storedTasks (exec (NewTab.toggleTask sampleEnv "b") samplePage)) = 0.
Proof. vm_compute. split; reflexivity. Qed.

(* ================================================================== *)
(** * What a save leaves on the page *)
(* ================================================================== *)

Section SaveFacts.

Variable env : Env.

(** What [saveTasks] writes and what it leaves as it was. *)
Lemma saveTasks_frame ts p :
  let p' := exec (NewTab.saveTasks env ts) p in
  Page.sent p' = badgeMessage (Storage.badgeEnabled (Page.storage p)) ts :: Page.sent p /\
  Storage.badgeEnabled (Page.storage p') = Storage.badgeEnabled (Page.storage p) /\
  Storage.lastReviewedDate (Page.storage p') = Storage.lastReviewedDate (Page.storage p) /\
  Page.taskListItems p' = ts /\
  Page.taskInputValue p' = Page.taskInputValue p /\
  Page.calendarPanelHidden p' = Page.calendarPanelHidden p /\
  Page.reviewBannerHidden p' = Page.reviewBannerHidden p /\
  Page.calYear p' = Page.calYear p /\ Page.calMonth p' = Page.calMonth p /\
  (forall r,
     calculateStreak (LocalTZA env)
       (<[NewTab.todayString env := NewTab.snapshotOf ts]> (storedHistory p)) (now env)
       = Some r ->
     Page.streakCurrent p' = (if 0 <? current r then DayStreak (current r) else NoStreakYet) /\
     Page.streakBest p' = (if 0 <? best r then Some (best r) else None)) /\
  (Page.calendarPanelHidden p = false ->
   Page.calDays p' =
     NewTab.calendarCells
       (<[NewTab.todayString env := NewTab.snapshotOf ts]> (storedHistory p))
       (NewTab.todayString env) (Page.calYear p) (Page.calMonth p)).
Proof.
  cbv zeta. unfold storedHistory, badgeMessage, remainingOf. run_page.
  destruct (calculateStreak _ _ _) as [r0|] eqn:E; simpl;
    destruct (Page.calendarPanelHidden p) eqn:Hp; simpl.
  all: repeat (split; [reflexivity || exact Hp|]).
  all: split;
    [intros r Hr; try discriminate Hr; try (injection Hr as <-); split; reflexivity
    |intros Hf; try discriminate Hf; repeat split; reflexivity].
Qed.

Lemma saveTasks_tasks_key ts p :
  Storage.tasks (Page.storage (exec (NewTab.saveTasks env ts) p)) = Some ts.
Proof.
  run_page. destruct (calculateStreak _ _ _); simpl;
    destruct (Page.calendarPanelHidden p); reflexivity.
Qed.

Lemma updateStreak_cursor p :
  Page.calYear (exec (NewTab.updateStreak env) p) = Page.calYear p /\
  Page.calMonth (exec (NewTab.updateStreak env) p) = Page.calMonth p.
Proof. run_page. destruct (calculateStreak _ _ _); simpl; auto. Qed.

Lemma snapshotToday_cursor ts p :
  Page.calYear (exec (NewTab.snapshotToday env ts) p) = Page.calYear p /\
  Page.calMonth (exec (NewTab.snapshotToday env ts) p) = Page.calMonth p.
Proof.
  run_page. destruct (calculateStreak _ _ _); simpl;
    destruct (Page.calendarPanelHidden p); simpl; auto.
Qed.

Lemma checkReview_frame p :
  let p' := exec (NewTab.checkReview env) p in
  Storage.dailyHistory (Page.storage p') = Storage.dailyHistory (Page.storage p) /\
  Storage.tasks (Page.storage p') = Storage.tasks (Page.storage p) /\
  Page.dailyHistory p' = Page.dailyHistory p /\
  Page.calYear p' = Page.calYear p /\ Page.calMonth p' = Page.calMonth p.
Proof.
  cbv zeta. unfold NewTab.checkReview. run_page.
  destruct (Storage.lastReviewedDate (Page.storage p)); simpl; auto.
Qed.

Lemma init_effect p :
  let p' := exec (NewTab.init env) p in
  storedHistory p' =
    <[NewTab.todayString env := NewTab.snapshotOf (storedTasks p)]> (storedHistory p) /\
  Page.dailyHistory p' = storedHistory p' /\
  Page.calYear p' = getFullYear (now env) /\
  Page.calMonth p' = getMonth (now env).
Proof.
  cbv zeta. unfold NewTab.init. rewrite !exec_bind.
  destruct (loadTasks_value p) as [-> ->].
  set (p1 := (NewTab.render (storedTasks p) p).2).
  set (p2 := (NewTab.checkReview env p1).2).
  set (p3 := (NewTab.updateBadge (storedTasks p) p2).2).
  set (p4 := (modify (setCalCursor (getFullYear (now env)) (getMonth (now env))) p3).2).
  set (p5 := (NewTab.loadHistory p4).2).
  set (p6 := (NewTab.snapshotToday env (storedTasks p) p5).2).
  destruct (checkReview_frame p1) as (C1 & _ & _ & _ & _).
  change (exec (NewTab.checkReview env) p1) with p2 in C1.
  destruct (snapshotToday_effect env (storedTasks p) p5) as (Hh & Hs & _).
  destruct (snapshotToday_cursor (storedTasks p) p5) as (Hy & Hm).
  change (exec (NewTab.snapshotToday env (storedTasks p)) p5) with p6 in Hh, Hs, Hy, Hm.
  destruct (updateStreak_storage env p6) as (Us & Uh & _).
  destruct (updateStreak_cursor p6) as (Uy & Um).
  assert (storedHistory p5 = storedHistory p) as E5.
  { unfold storedHistory. change (Storage.dailyHistory (Page.storage p5))
      with (Storage.dailyHistory (Page.storage p2)). now rewrite C1. }
  assert (storedHistory (exec (NewTab.updateStreak env) p6)
          = <[NewTab.todayString env := NewTab.snapshotOf (storedTasks p)]>
              (storedHistory p)) as A.
  { unfold storedHistory at 1. rewrite Us, Hs. simpl. now rewrite E5. }
  split; [exact A|]. split; [now rewrite Uh, Hh, E5, A|].
  split; [now rewrite Uy, Hy|now rewrite Um, Hm].
Qed.

End SaveFacts.

(* ================================================================== *)
(** * What one event and a whole session do to the history and to the
      calendar cursor *)
(* ================================================================== *)

Section EventFacts.

Variable env : Env.

Lemma saveTasks_historyStep ts p : historyStep env p (exec (NewTab.saveTasks env ts) p).
Proof.
  right. exists ts. destruct (saveTasks_effect env ts p) as (_ & Hh & Hs).
  split; [now rewrite Hs, Hh|now rewrite Hs].
Qed.

Lemma perform_historyStep a p : historyStep env p (exec (perform env a) p).
Proof.
  destruct a as [txt|i|i| | | | |b| | |]; simpl perform.
  - unfold NewTab.addTask. destruct (truthy (trim txt)); simpl negb; cbv iota.
    + rewrite !exec_bind. destruct (loadTasks_value p) as [-> ->].
      exact (saveTasks_historyStep _ p).
    + left. split; reflexivity.
  - unfold NewTab.toggleTask. rewrite exec_bind.
    destruct (loadTasks_value p) as [-> ->]. apply saveTasks_historyStep.
  - unfold NewTab.deleteTask. rewrite exec_bind.
    destruct (loadTasks_value p) as [-> ->]. apply saveTasks_historyStep.
  - unfold NewTab.clearCompleted. rewrite exec_bind.
    destruct (loadTasks_value p) as [-> ->]. apply saveTasks_historyStep.
  - unfold NewTab.deleteLastTask. rewrite exec_bind.
    destruct (loadTasks_value p) as [-> ->].
    destruct (TaskList.lastNotDone _ _); [apply saveTasks_historyStep|].
    left. split; reflexivity.
  - right. exists (storedTasks p). destruct (init_effect env p) as (A & B & _).
    split; assumption.
  - left. split; reflexivity.
  - left. split; reflexivity.
  - left. unfold NewTab.calPrevClick, exec, mbind, M_bind, get. simpl.
    destruct (Page.calMonth p - 1 <? 0); split; reflexivity.
  - left. unfold NewTab.calNextClick, exec, mbind, M_bind, get. simpl.
    destruct (11 <? Page.calMonth p + 1); split; reflexivity.
  - left. unfold NewTab.calendarToggleClick, exec, mbind, M_bind, get. simpl.
    destruct (Page.calendarPanelHidden p); split; reflexivity.
Qed.

(** The calendar cursor after an event. *)
Lemma perform_cursor a p :
  let p' := exec (perform env a) p in
  match a with
  | Init =>
      Page.calYear p' = getFullYear (now env) /\ Page.calMonth p' = getMonth (now env)
  | CalPrev =>
      (Page.calYear p', Page.calMonth p') =
        if Page.calMonth p - 1 <? 0 then (Page.calYear p - 1, 11)
        else (Page.calYear p, Page.calMonth p - 1)
  | CalNext =>
      (Page.calYear p', Page.calMonth p') =
        if 11 <? Page.calMonth p + 1 then (Page.calYear p + 1, 0)
        else (Page.calYear p, Page.calMonth p + 1)
  | _ => Page.calYear p' = Page.calYear p /\ Page.calMonth p' = Page.calMonth p
  end.
Proof.
  assert (forall ts q,
            Page.calYear (exec (NewTab.saveTasks env ts) q) = Page.calYear q /\
            Page.calMonth (exec (NewTab.saveTasks env ts) q) = Page.calMonth q) as Hsave.
  { intros ts q.
    destruct (saveTasks_frame env ts q) as (_ & _ & _ & _ & _ & _ & _ & Hy & Hm & _).
    auto. }
  cbv zeta. destruct a as [txt|i|i| | | | |b| | |]; simpl perform.
  - unfold NewTab.addTask. destruct (truthy (trim txt)); simpl negb; cbv iota.
    + rewrite !exec_bind. destruct (loadTasks_value p) as [-> ->].
      exact (Hsave _ p).
    + split; reflexivity.
  - unfold NewTab.toggleTask. rewrite exec_bind.
    destruct (loadTasks_value p) as [-> ->]. apply Hsave.
  - unfold NewTab.deleteTask. rewrite exec_bind.
    destruct (loadTasks_value p) as [-> ->]. apply Hsave.
  - unfold NewTab.clearCompleted. rewrite exec_bind.
    destruct (loadTasks_value p) as [-> ->]. apply Hsave.
  - unfold NewTab.deleteLastTask. rewrite exec_bind.
    destruct (loadTasks_value p) as [-> ->].
    destruct (TaskList.lastNotDone _ _); [apply Hsave|split; reflexivity].
  - destruct (init_effect env p) as (_ & _ & Hy & Hm). split; assumption.
  - split; reflexivity.
  - split; reflexivity.
  - unfold NewTab.calPrevClick, exec, mbind, M_bind, get. simpl.
    destruct (Page.calMonth p - 1 <? 0); reflexivity.
  - unfold NewTab.calNextClick, exec, mbind, M_bind, get. simpl.
    destruct (11 <? Page.calMonth p + 1); reflexivity.
  - unfold NewTab.calendarToggleClick, exec, mbind, M_bind, get. simpl.
    destruct (Page.calendarPanelHidden p); split; reflexivity.
Qed.

End EventFacts.

(** X6.  The badge message a save sends carries the number of open tasks
    when the badge is enabled and [null] otherwise.  Handled by the message
    listener of the service worker it gives the badge that the
    storage-change listener computes from the saved list, and the text is
    the count in decimal when the badge is enabled and some task is open,
    and empty otherwise. *)
Theorem saveTasks_badge (env : Env) (ts : list Task) (p : Page.t)
    (b : ServiceWorker.Badge) :
  let p' := exec (NewTab.saveTasks env ts) p in
  let enabled := Storage.badgeEnabled (Page.storage p) in
  exists msg,
    Page.sent p' = msg :: Page.sent p /\
    msg = badgeMessage enabled ts /\
    ServiceWorker.onMessage msg b
      = ServiceWorker.onChanged (Some (Storage.tasks (Page.storage p')))
          (Storage.badgeEnabled (Page.storage p')) b /\
    ServiceWorker.badgeText (ServiceWorker.onMessage msg b)
      = (if default false enabled && (0 <? remainingOf ts)
         then toString (remainingOf ts) else ""%string).
Proof.
  cbv zeta.
  destruct (saveTasks_frame env ts p) as (Hsent & Hen & _).
  destruct (saveTasks_effect env ts p) as (Hts & _).
  exists (badgeMessage (Storage.badgeEnabled (Page.storage p)) ts).
  split; [exact Hsent|]. split; [reflexivity|].
  rewrite (saveTasks_tasks_key env ts p), Hen.
  unfold badgeMessage, ServiceWorker.onMessage, ServiceWorker.onChanged, remainingOf.
  simpl.
  destruct (default false (Storage.badgeEnabled (Page.storage p))); simpl;
    split; reflexivity.
Qed.

Section SessionFacts.

Lemma todayString_dateKey env : NewTab.todayString env = dateKey (Day (now env)).
Proof. apply formatDate_dateKey. Qed.

Lemma historyStep_lookup env p p' k :
  historyStep env p p' ->
  (is_Some (storedHistory p !! k) -> is_Some (storedHistory p' !! k)) /\
  (NewTab.todayString env <> k -> storedHistory p' !! k = storedHistory p !! k).
Proof.
  intros [[E _]|(ts & E & _)]; rewrite E.
  - auto.
  - split.
    + intros Hk. destruct (decide (NewTab.todayString env = k)) as [->|Hne].
      * rewrite lookup_insert_eq. eauto.
      * now rewrite lookup_insert_ne.
    + intros Hne. now rewrite lookup_insert_ne.
Qed.

Lemma historyStep_wellFormed env p p' :
  historyStep env p p' -> clockInRange env ->
  wellFormed (storedHistory p) -> wellFormed (storedHistory p').
Proof.
  intros [[E _]|(ts & E & _)] Hc Hwf; rewrite E; [exact Hwf|].
  intros k Hk. destruct (decide (NewTab.todayString env = k)) as [<-|Hne].
  - exists (Day (now env)). split; [exact Hc|apply todayString_dateKey].
  - rewrite lookup_insert_ne in Hk by assumption. now apply Hwf.
Qed.

Lemma historyStep_agree env p p' :
  historyStep env p p' ->
  Page.dailyHistory p = storedHistory p -> Page.dailyHistory p' = storedHistory p'.
Proof. intros [[E1 E2]|(ts & _ & E)] H; [now rewrite E1, E2|exact E]. Qed.

End SessionFacts.

(** X7.  Over a whole session no entry of the history is ever removed, and
    the entry of a date is never changed by an event that happens on
    another date: past days stay as they were recorded. *)
Theorem session_keeps_entries (steps : list (Env * Action)) (p : Page.t) (k : string) :
  (is_Some (storedHistory p !! k) ->
   is_Some (storedHistory (performAll steps p) !! k)) /\
  (Forall (fun s => NewTab.todayString s.1 <> k) steps ->
   storedHistory (performAll steps p) !! k = storedHistory p !! k).
Proof.
  revert p. induction steps as [|[env a] rest IH]; intros p; simpl.
  - auto.
  - destruct (historyStep_lookup env p _ k (perform_historyStep env a p)) as [H1 H2].
    destruct (IH (exec (perform env a) p)) as [I1 I2]. split.
    + intros Hk. apply I1, H1, Hk.
    + intros Hall. inversion Hall as [|? ? Hne Hrest]; subst. simpl in Hne.
      rewrite (I2 Hrest). now apply H2.
Qed.

Lemma session_keeps_entries_witness :
  Forall (fun s => NewTab.todayString s.1 <> "2025-03-02"%string) sampleSession /\
  storedHistory
    (performAll sampleSession
       (setStorage (fun _ => Storage.mk None (Some twoRunsHistory) None None) emptyPage))
    !! "2025-03-02"%string = Some doneSnapshot.
Proof.
  assert (Forall (fun s => NewTab.todayString s.1 <> "2025-03-02"%string) sampleSession)
    as H.
  { repeat constructor; vm_compute; discriminate. }
  split; [exact H|].
  rewrite (proj2 (session_keeps_entries sampleSession _ "2025-03-02") H).
  vm_compute. reflexivity.
Defined.

(** X8.  When the clock of every event lies in a four-digit year, a session
    keeps every key of the history of the shape YYYY-MM-DD that
    [calculateStreak] sorts and parses. *)
Theorem session_wellFormed (steps : list (Env * Action)) (p : Page.t) :
  wellFormed (storedHistory p) ->
  Forall (fun s => clockInRange s.1) steps ->
  wellFormed (storedHistory (performAll steps p)).
Proof.
  revert p. induction steps as [|[env a] rest IH]; intros p Hwf Hall; simpl.
  - exact Hwf.
  - inversion Hall as [|? ? Hc Hrest]; subst. simpl in Hc.
    apply IH; [|exact Hrest].
    exact (historyStep_wellFormed env p _ (perform_historyStep env a p) Hc Hwf).
Qed.

Lemma session_wellFormed_witness :
  wellFormed (storedHistory emptyPage) /\
  Forall (fun s => clockInRange s.1) sampleSession /\
  wellFormed (storedHistory (performAll sampleSession emptyPage)).
Proof.
  assert (wellFormed (storedHistory emptyPage)) as Hwf.
  { intros k [e He]. change (storedHistory emptyPage) with (∅ : History) in He.
    rewrite lookup_empty in He. discriminate He. }
  assert (Forall (fun s => clockInRange s.1) sampleSession) as Hc.
  { repeat (apply List.Forall_cons;
            [unfold clockInRange; vm_compute; split; discriminate|]).
    apply List.Forall_nil. }
  split; [exact Hwf|]. split; [exact Hc|].
  exact (session_wellFormed sampleSession emptyPage Hwf Hc).
Defined.

(** X9.  The module variable [dailyHistory], from which the calendar and
    the streak are drawn, agrees with the stored history after every event
    of a session that starts with the two in agreement, as on a freshly
    loaded page; after [init] they agree whatever came before. *)
Theorem session_history_agrees (steps : list (Env * Action)) (p : Page.t) :
  (Page.dailyHistory p = storedHistory p ->
   Page.dailyHistory (performAll steps p) = storedHistory (performAll steps p)) /\
  (forall env,
     Page.dailyHistory (performAll steps (exec (perform env Init) p))
     = storedHistory (performAll steps (exec (perform env Init) p))).
Proof.
  assert (forall q, Page.dailyHistory q = storedHistory q ->
            Page.dailyHistory (performAll steps q) = storedHistory (performAll steps q))
    as Hgen.
  { induction steps as [|[env a] rest IH]; intros q Hq; simpl; [exact Hq|].
    apply IH. exact (historyStep_agree env q _ (perform_historyStep env a q) Hq). }
  split; [apply Hgen|].
  intros env. apply Hgen. simpl perform.
  destruct (init_effect env p) as (_ & H & _). exact H.
Qed.

Lemma session_history_agrees_witness :
  Page.dailyHistory emptyPage = storedHistory emptyPage /\
  Page.dailyHistory (performAll sampleSession emptyPage)
    = storedHistory (performAll sampleSession emptyPage).
Proof.
  assert (Page.dailyHistory emptyPage = storedHistory emptyPage) as H by reflexivity.
  split; [exact H|].
  exact (proj1 (session_history_agrees sampleSession emptyPage) H).
Defined.

(** X10.  With the month of the cursor between 0 and 11, the next-month
    button moves the cursor one month forward and the previous-month
    button one month back, carrying into the year at December and
    January; the month stays between 0 and 11 and each button undoes the
    other. *)
Theorem calendar_navigation (env : Env) (p : Page.t) :
  0 <= Page.calMonth p <= 11 ->
  let next := exec (NewTab.calNextClick env) p in
  let prev := exec (NewTab.calPrevClick env) p in
  monthIndex (Page.calYear next) (Page.calMonth next)
    = monthIndex (Page.calYear p) (Page.calMonth p) + 1 /\
  monthIndex (Page.calYear prev) (Page.calMonth prev)
    = monthIndex (Page.calYear p) (Page.calMonth p) - 1 /\
  0 <= Page.calMonth next <= 11 /\ 0 <= Page.calMonth prev <= 11 /\
  (Page.calYear (exec (NewTab.calPrevClick env) next),
   Page.calMonth (exec (NewTab.calPrevClick env) next))
    = (Page.calYear p, Page.calMonth p) /\
  (Page.calYear (exec (NewTab.calNextClick env) prev),
   Page.calMonth (exec (NewTab.calNextClick env) prev))
    = (Page.calYear p, Page.calMonth p).
Proof.
  intros Hm. cbv zeta.
  pose proof (perform_cursor env CalNext p) as Hn.
  pose proof (perform_cursor env CalPrev p) as Hp.
  pose proof (perform_cursor env CalPrev (exec (NewTab.calNextClick env) p)) as Hpn.
  pose proof (perform_cursor env CalNext (exec (NewTab.calPrevClick env) p)) as Hnp.
  cbv zeta in Hn, Hp, Hpn, Hnp. simpl perform in Hn, Hp, Hpn, Hnp.
  rewrite Hpn, Hnp. clear Hpn Hnp.
  destruct (Z.ltb_spec 11 (Page.calMonth p + 1)) as [L1|L1];
    destruct (Z.ltb_spec (Page.calMonth p - 1) 0) as [L2|L2];
    injection Hn as -> ->; injection Hp as -> ->; unfold monthIndex.
  all: repeat match goal with
              | |- context [Z.ltb ?a ?b] => destruct (Z.ltb_spec a b)
              end.
  all: repeat split; try lia; f_equal; lia.
Qed.

Lemma calendar_navigation_witness :
  0 <= Page.calMonth samplePage <= 11 /\
  (Page.calYear (exec (NewTab.calPrevClick sampleEnv)
                   (exec (NewTab.calNextClick sampleEnv) samplePage)),
   Page.calMonth (exec (NewTab.calPrevClick sampleEnv)
                    (exec (NewTab.calNextClick sampleEnv) samplePage)))
    = (Page.calYear samplePage, Page.calMonth samplePage).
Proof.
  assert (0 <= Page.calMonth samplePage <= 11) as H by (vm_compute; split; discriminate).
  split; [exact H|].
  exact (proj1 (proj2 (proj2 (proj2 (proj2
           (calendar_navigation sampleEnv samplePage H)))))).
Defined.

(** X11.  Once the month of the cursor is between 0 and 11 it stays there
    through every event of a session, and [init] puts it there: the grid
    is always drawn for a month of the calendar. *)
Theorem session_month_in_range (steps : list (Env * Action)) (p : Page.t) :
  (0 <= Page.calMonth p <= 11 ->
   0 <= Page.calMonth (performAll steps p) <= 11) /\
  (forall env,
     0 <= Page.calMonth (performAll steps (exec (perform env Init) p)) <= 11).
Proof.
  assert (forall q, 0 <= Page.calMonth q <= 11 ->
            0 <= Page.calMonth (performAll steps q) <= 11) as Hgen.
  { induction steps as [|[env a] rest IH]; intros q Hq; simpl; [exact Hq|].
    apply IH. pose proof (perform_cursor env a q) as Hc. cbv zeta in Hc.
    destruct a as [txt|i|i| | | | |b| | |]; simpl perform in *.
    1-5, 7-8, 11: destruct Hc as [_ Hc]; rewrite Hc; exact Hq.
    - destruct Hc as [_ Hc]. rewrite Hc. apply MonthFromTime_range.
    - destruct (Z.ltb_spec (Page.calMonth q - 1) 0);
        injection Hc as _ Hc; rewrite Hc; lia.
    - destruct (Z.ltb_spec 11 (Page.calMonth q + 1));
        injection Hc as _ Hc; rewrite Hc; lia. }
  split; [apply Hgen|].
  intros env. apply Hgen.
  pose proof (perform_cursor env Init p) as Hc. cbv zeta in Hc.
  simpl perform in *. destruct Hc as [_ Hc]. rewrite Hc. apply MonthFromTime_range.
Qed.

Lemma session_month_in_range_witness :
  0 <= Page.calMonth emptyPage <= 11 /\
  0 <= Page.calMonth (performAll sampleSession emptyPage) <= 11.
Proof.
  assert (0 <= Page.calMonth emptyPage <= 11) as H by (vm_compute; split; discriminate).
  split; [exact H|].
  exact (proj1 (session_month_in_range sampleSession emptyPage) H).
Defined.

(* ================================================================== *)
(** * Further properties of the streak *)
(* ================================================================== *)

Section StreakBounds.

(** A check by computation that the host has the local times of the [k]
    days before a clock reading. *)
Lemma walkUnskipped_check tz nowv k :
  forallb (fun j => LocalTime tz (UTC tz (nowv - j * msPerDay)) =? nowv - j * msPerDay)
    (seqZ 1 k) = true ->
  walkUnskipped tz nowv k.
Proof.
  intros H j Hj. rewrite forallb_forall in H. apply Z.eqb_eq, H.
  apply list_elem_of_In, elem_of_seqZ. lia.
Qed.

(** The walk counts at most one day per entry of the history, today
    included. *)
Lemma specCurrent_bound (h : History) today cur :
  specCurrent h today = Some cur -> 0 <= cur <= Z.of_nat (size h).
Proof.
  unfold specCurrent. intros Hw.
  destruct (doneOn h today) eqn:E.
  - unfold doneOn, entryAllDone in E.
    destruct (h !! dateKey today) as [e|] eqn:He; [|discriminate].
    rewrite <- (specWalk_delete _ h today) in Hw by lia.
    apply specWalk_bound in Hw.
    pose proof (map_size_delete_Some (dateKey today) h (ex_intro _ e He)) as Hs.
    assert (size h <> 0%nat).
    { intros Z0. apply map_size_empty_iff in Z0. subst h. discriminate He. }
    lia.
  - apply specWalk_bound in Hw. lia.
Qed.

End StreakBounds.

(** X12.  Where the host has the local times of the days the walk visits,
    one per entry of the history and two more, [calculateStreak] returns
    numbers between 0 and the number of entries of the history, with
    [current <= best]. *)
Theorem calculateStreak_bounds (LocalTZA : Z -> Z) (h : History) (nowv : Z) :
  walkUnskipped LocalTZA nowv (Z.of_nat (size h) + 2) ->
  exists r,
    calculateStreak LocalTZA h nowv = Some r /\
    0 <= current r <= best r /\ best r <= Z.of_nat (size h).
Proof.
  intros Hu.
  destruct (calculateStreak_parts LocalTZA h nowv Hu) as (cur & b & Hr & Hb & Hcase).
  exists {| current := cur; best := Z.max b cur |}. split; [exact Hr|]. simpl.
  assert (0 <= cur <= Z.of_nat (size h)) as Hc.
  { destruct Hcase as [(_ & -> & _)|(_ & Hw & _)]; [lia|].
    apply (specCurrent_bound h (Day nowv)). exact Hw. }
  lia.
Qed.

Lemma calculateStreak_bounds_witness :
  walkUnskipped nuuk2024 (nuukClock - 12 * 3600000) (Z.of_nat (size nuukHistory) + 2) /\
  exists r,
    calculateStreak nuuk2024 nuukHistory (nuukClock - 12 * 3600000) = Some r /\
    0 <= current r <= best r /\ best r <= Z.of_nat (size nuukHistory).
Proof.
  assert (walkUnskipped nuuk2024 (nuukClock - 12 * 3600000)
            (Z.of_nat (size nuukHistory) + 2)) as Hu
    by (apply walkUnskipped_check; vm_compute; reflexivity).
  split; [exact Hu|].
  exact (calculateStreak_bounds nuuk2024 nuukHistory (nuukClock - 12 * 3600000) Hu).
Defined.

(** Without those local times the bound fails: in Nuuk at 23:30 of 2 April
    2024 a history of three entries gives a streak of 4. *)
Example calculateStreak_bounds_skipped_hour :
  ~ walkUnskipped nuuk2024 nuukClock (Z.of_nat (size nuukHistory) + 2) /\
  calculateStreak nuuk2024 nuukHistory nuukClock = Some {| current := 4; best := 4 |} /\
  size nuukHistory = 3%nat.
Proof.
  split; [|split; vm_compute; reflexivity].
  intros H. specialize (H 3 ltac:(vm_compute; split; discriminate)).
  vm_compute in H. discriminate.
Qed.

(** X13.  In a zone whose offset never changes and on keys of the shape
    YYYY-MM-DD, [best] is the length of the longest run of consecutive
    calendar days that all have [allDone = true]: no such run is longer,
    and a run of that length exists when [best] is not 0. *)
Theorem best_is_longest_run (LocalTZA : Z -> Z) (h : History) (nowv : Z) :
  constantOffset LocalTZA -> wellFormed h ->
  exists r,
    calculateStreak LocalTZA h nowv = Some r /\
    (forall n len, 1 <= len -> doneRun h n len -> len <= best r) /\
    (best r = 0 \/ exists n, doneRun h n (best r)).
Proof.
  intros Hz Hwf.
  destruct (calculateStreak_best_longest LocalTZA h Hz Hwf nowv)
    as (r & Hr & _ & _ & _ & Hlong & Hwit).
  exists r. auto.
Qed.

Lemma best_is_longest_run_witness :
  constantOffset utcZone /\ wellFormed twoRunsHistory /\
  exists r,
    calculateStreak utcZone twoRunsHistory march20 = Some r /\
    (forall n len, 1 <= len -> doneRun twoRunsHistory n len -> len <= best r) /\
    (best r = 0 \/ exists n, doneRun twoRunsHistory n (best r)).
Proof.
  split; [exact utcZone_constant|]. split; [exact twoRunsHistory_wellFormed|].
  exact (best_is_longest_run utcZone twoRunsHistory march20
           utcZone_constant twoRunsHistory_wellFormed).
Defined.

Section NeverInvents.

Variable LocalTZA : Z -> Z.
Variable h : History.
Variable days : list Z.

Hypothesis zone_bounded : boundedOffset LocalTZA.
Hypothesis days_range : Forall (fun n => firstDay4 <= n <= lastDay4) days.
Hypothesis days_recorded : forall n, n ∈ days -> is_Some (h !! dateKey n).

Lemma diffIsOne_adjacent p n :
  diffIsOne LocalTZA (Some (MakeDate p 0)) (Some (MakeDate n 0)) = true -> n = p + 1.
Proof.
  unfold diffIsOne, instant. intros H. apply Z.eqb_eq in H.
  destruct (UTC_offset LocalTZA (MakeDate n 0)) as [a Ha].
  destruct (UTC_offset LocalTZA (MakeDate p 0)) as [b Hb].
  rewrite Ha, Hb in H.
  pose proof (zone_bounded a b) as B.
  unfold MakeDate, msPerDay in *. lia.
Qed.

(** Whatever the loop holds as [run] is a run of done days that ends at
    the key it has just read, and what it holds as [best] is the length of
    some run of done days. *)
Lemma bestLoop_real_run steps i run bst b :
  (i + steps = length days)%nat ->
  0 <= run ->
  (forall last, (0 < i)%nat -> days !! (i - 1)%nat = Some last ->
     forall j, 0 <= j < run -> doneOn h (last - j) = true) ->
  (i = 0%nat -> run = 0) ->
  (bst = 0 \/ exists n, doneRun h n bst) ->
  bestLoop LocalTZA h (dateKey <$> days) i steps run bst = Some b ->
  b = 0 \/ exists n, doneRun h n b.
Proof.
  revert i run bst. induction steps as [|steps IH];
    intros i run bst Hlen Hrun Hinv Hzero Hwit H.
  - simpl in H. injection H as <-. exact Hwit.
  - assert (is_Some (days !! i)) as [n Hn] by (apply lookup_lt_is_Some; lia).
    assert (firstDay4 <= n <= lastDay4) as Hrn.
    { rewrite Forall_forall in days_range. apply days_range.
      eapply list_elem_of_lookup_2. eassumption. }
    destruct (days_recorded n) as [e He]; [eapply list_elem_of_lookup_2; eassumption|].
    simpl bestLoop in H. rewrite list_lookup_fmap, Hn in H. simpl in H. rewrite He in H.
    assert (forall r, 1 <= r ->
              (forall j, 0 <= j < r -> doneOn h (n - j) = true) ->
              (if bst <? r then r else bst) = 0 \/
              exists a, doneRun h a (if bst <? r then r else bst)) as Hwit2.
    { intros r Hr Hd. destruct (Z.ltb_spec bst r); [|exact Hwit].
      right. exists (n - r + 1). intros j Hj.
      replace (n - r + 1 + j) with (n - (r - 1 - j)) by lia. apply Hd. lia. }
    assert (forall r, (forall j, 0 <= j < r -> doneOn h (n - j) = true) ->
              forall last, (0 < S i)%nat -> days !! (S i - 1)%nat = Some last ->
              forall j, 0 <= j < r -> doneOn h (last - j) = true) as Hnext.
    { intros r Hd last _ Hl. replace (S i - 1)%nat with i in Hl by lia.
      rewrite Hn in Hl. injection Hl as <-. exact Hd. }
    destruct (allDone e) eqn:Hde.
    + assert (doneOn h n = true) as Hdn.
      { unfold doneOn, entryAllDone. now rewrite He. }
      assert (forall j, 0 <= j < 1 -> doneOn h (n - j) = true) as Hone.
      { intros j Hj. assert (j = 0) as -> by lia. now rewrite Z.sub_0_r. }
      destruct i as [|i].
      * simpl in H.
        apply (IH 1%nat 1 _ ltac:(lia) ltac:(lia) (Hnext 1 Hone) ltac:(lia)
                 (Hwit2 1 ltac:(lia) Hone) H).
      * simpl Nat.eqb in H. cbv iota in H.
        replace (S i - 1)%nat with i in H by lia.
        assert (is_Some (days !! i)) as [p Hp] by (apply lookup_lt_is_Some; lia).
        assert (firstDay4 <= p <= lastDay4) as Hrp.
        { rewrite Forall_forall in days_range. apply days_range.
          eapply list_elem_of_lookup_2. eassumption. }
        destruct (days_recorded p) as [ep Hep];
          [eapply list_elem_of_lookup_2; eassumption|].
        rewrite list_lookup_fmap, Hp in H. simpl in H. rewrite Hep in H.
        rewrite !parseDate_dateKey in H by assumption.
        destruct (diffIsOne LocalTZA (Some (MakeDate p 0)) (Some (MakeDate n 0)))
          eqn:Hdiff; simpl in H.
        -- destruct (allDone ep).
           ++ pose proof (diffIsOne_adjacent p n Hdiff) as ->.
              assert (forall j, 0 <= j < run + 1 -> doneOn h (p + 1 - j) = true) as Hext.
              { intros j Hj. destruct (Z.eq_dec j 0) as [->|Hj0].
                - now rewrite Z.sub_0_r.
                - replace (p + 1 - j) with (p - (j - 1)) by lia.
                  apply (Hinv p ltac:(lia)); [|lia].
                  now replace (S i - 1)%nat with i by lia. }
              apply (IH (S (S i)) (run + 1) _ ltac:(lia) ltac:(lia)
                       (Hnext (run + 1) Hext) ltac:(lia)
                       (Hwit2 (run + 1) ltac:(lia) Hext) H).
           ++ apply (IH (S (S i)) 1 _ ltac:(lia) ltac:(lia) (Hnext 1 Hone) ltac:(lia)
                       (Hwit2 1 ltac:(lia) Hone) H).
        -- apply (IH (S (S i)) 1 _ ltac:(lia) ltac:(lia) (Hnext 1 Hone) ltac:(lia)
                    (Hwit2 1 ltac:(lia) Hone) H).
    + apply (IH (S i) 0 bst ltac:(lia) ltac:(lia)); [| |exact Hwit|exact H].
      * intros last _ _ j Hj. lia.
      * lia.
Qed.

End NeverInvents.

(** X14.  In any zone whose offsets differ by less than a day, daylight
    saving time included, and at a clock reading whose time of day the
    host has on the days the walk visits, a [best] that is not 0 is the
    length of a run of consecutive calendar days that all have
    [allDone = true]: the scan may cut a run short, it never reports a
    streak that did not happen. *)
Theorem best_is_a_real_run (LocalTZA : Z -> Z) (h : History) (nowv : Z) :
  boundedOffset LocalTZA -> wellFormed h ->
  walkUnskipped LocalTZA nowv (Z.of_nat (size h) + 2) ->
  exists r,
    calculateStreak LocalTZA h nowv = Some r /\
    (best r = 0 \/ exists n, doneRun h n (best r)).
Proof.
  intros Hz Hwf Hu.
  destruct (calculateStreak_walk LocalTZA h nowv Hu)
    as (cur & b & m & Hr & _ & Hm & Hcur & Hall & _ & Hcase).
  exists {| current := cur; best := Z.max b cur |}. split; [exact Hr|]. simpl.
  assert (cur = 0 \/ exists n, doneRun h n cur) as Hc.
  { destruct (Z.eq_dec cur 0) as [->|Hne]; [now left|]. right.
    exists (Day nowv - m). intros j Hj. destruct (doneOn h (Day nowv)) eqn:Ht.
    - destruct (Z.eq_dec j m) as [->|Hjm].
      + now replace (Day nowv - m + m) with (Day nowv) by lia.
      + replace (Day nowv - m + j) with (Day nowv - (m - j)) by lia.
        apply Hall. lia.
    - replace (Day nowv - m + j) with (Day nowv - (m - j)) by lia.
      apply Hall. lia. }
  assert (b = 0 \/ exists n, doneRun h n b) as Hb.
  { destruct Hcase as [(_ & ->)|(_ & Hl)]; [now left|].
    destruct (recordedDays_sorted_keys h Hwf) as (Hk & _ & Hrange & Hmem).
    rewrite sort_sort, Hk in Hl.
    assert (size h = length (recordedDays h)) as Hsz.
    { rewrite <- keys_length, <- (sort_length (keys h)), Hk. apply length_fmap. }
    rewrite Hsz in Hl.
    apply (bestLoop_real_run LocalTZA h (recordedDays h) Hz Hrange
             (fun n Hn => proj1 (Hmem n) Hn) (length (recordedDays h)) 0%nat 0 0 b);
      [reflexivity|lia| |reflexivity|now left|exact Hl].
    intros last Hi. lia. }
  destruct (Z.max_spec b cur) as [[_ ->]|[_ ->]]; assumption.
Qed.

Lemma newYork2025_bounded : boundedOffset newYork2025.
Proof.
  intros a b. unfold newYork2025, msPerDay.
  destruct (_ && _), (_ && _); lia.
Qed.

Lemma springForwardHistory_wellFormed : wellFormed springForwardHistory.
Proof.
  apply (wellFormed_by_days _ (seqZ (Day march20 - 12) 3)); vm_compute; reflexivity.
Qed.

Lemma best_is_a_real_run_witness :
  boundedOffset newYork2025 /\ wellFormed springForwardHistory /\
  walkUnskipped newYork2025 march20 (Z.of_nat (size springForwardHistory) + 2) /\
  exists r,
    calculateStreak newYork2025 springForwardHistory march20 = Some r /\
    (best r = 0 \/ exists n, doneRun springForwardHistory n (best r)).
Proof.
  assert (walkUnskipped newYork2025 march20
            (Z.of_nat (size springForwardHistory) + 2)) as Hu
    by (apply walkUnskipped_check; vm_compute; reflexivity).
  split; [exact newYork2025_bounded|]. split; [exact springForwardHistory_wellFormed|].
  split; [exact Hu|].
  exact (best_is_a_real_run newYork2025 springForwardHistory march20
           newYork2025_bounded springForwardHistory_wellFormed Hu).
Defined.

(** In Nuuk at 23:30 of 2 April 2024 the streak reported, 4, is the length
    of no run of done days: the history has three entries. *)
Example best_not_a_run_skipped_hour :
  boundedOffset nuuk2024 /\ wellFormed nuukHistory /\
  calculateStreak nuuk2024 nuukHistory nuukClock = Some {| current := 4; best := 4 |} /\
  ~ exists n, doneRun nuukHistory n 4.
Proof.
  split.
  { intros a b. unfold nuuk2024, msPerDay. destruct (_ && _), (_ && _); lia. }
  split.
  { apply (wellFormed_by_days _ (seqZ (Day nuukClock - 2) 3)); vm_compute; reflexivity. }
  split; [vm_compute; reflexivity|].
  intros [n Hn].
  assert (forall m, doneOn nuukHistory m = true -> Day nuukClock - 2 <= m <= Day nuukClock)
    as Hin.
  { intros m Hm. unfold doneOn, entryAllDone in Hm.
    destruct (nuukHistory !! dateKey m) as [e|] eqn:He; [|discriminate].
    destruct (keys_among_days nuukHistory (seqZ (Day nuukClock - 2) 3) (dateKey m)
                ltac:(vm_compute; reflexivity) (ex_intro _ e He)) as (d & Hd & Heq).
    apply dateKey_inj in Heq. subst d.
    apply list_elem_of_In, elem_of_seqZ in Hd. lia. }
  pose proof (Hin _ (Hn 0 ltac:(lia))). pose proof (Hin _ (Hn 3 ltac:(lia))). lia.
Qed.

(* ================================================================== *)
(** * What a save shows *)
(* ================================================================== *)

Section LabelFacts.

Variable env : Env.

Lemma doneOn_insert_today (h : History) e :
  doneOn (<[NewTab.todayString env := e]> h) (Day (now env)) = allDone e.
Proof.
  unfold doneOn, entryAllDone, NewTab.todayString.
  rewrite <- formatDate_dateKey, lookup_insert_eq. reflexivity.
Qed.

Lemma doneOn_insert_other (h : History) e n :
  n <> Day (now env) ->
  doneOn (<[NewTab.todayString env := e]> h) n = doneOn h n.
Proof.
  intros Hne. unfold doneOn, entryAllDone, NewTab.todayString.
  rewrite formatDate_dateKey, lookup_insert_ne; [reflexivity|].
  intros E. apply dateKey_inj in E. congruence.
Qed.

Lemma size_insert_le (h : History) k e :
  Z.of_nat (size (<[k := e]> h)) + 2 <= Z.of_nat (size h) + 3.
Proof. rewrite map_size_insert. destruct (h !! k); simpl; lia. Qed.

End LabelFacts.

(** X15.  At a clock reading whose time of day the host has on the days
    the walk visits, one per stored entry and three more: after
    [saveTasks], when the saved list is non-empty and every task in it is
    done, the streak line shows a number of at least 1 and the best line a
    number at least as large.  The line reads "no streak yet" exactly when
    the saved list is not complete and yesterday has no all-done entry. *)
Theorem saveTasks_streak_label (env : Env) (ts : list Task) (p : Page.t) :
  walkUnskipped (LocalTZA env) (now env) (Z.of_nat (size (storedHistory p)) + 3) ->
  let p' := exec (NewTab.saveTasks env ts) p in
  let complete := ts <> [] /\ Forall (fun t => done t = true) ts in
  (complete ->
     exists n b, 1 <= n <= b /\
       Page.streakCurrent p' = DayStreak n /\ Page.streakBest p' = Some b) /\
  (Page.streakCurrent p' = NoStreakYet <->
     ~ complete /\ doneOn (storedHistory p) (Day (now env) - 1) = false).
Proof.
  intros Hu. cbv zeta.
  set (h' := <[NewTab.todayString env := NewTab.snapshotOf ts]> (storedHistory p)).
  assert (walkUnskipped (LocalTZA env) (now env) (Z.of_nat (size h') + 2)) as Hu'.
  { apply (walkUnskipped_le _ _ _ _ (size_insert_le _ _ _) Hu). }
  destruct (calculateStreak_walk (LocalTZA env) h' (now env) Hu')
    as (cur & b & m & Hr & Hb & Hm & Hcur & Hall & Hstop & _).
  destruct (saveTasks_frame env ts p) as (_ & _ & _ & _ & _ & _ & _ & _ & _ & Hlab & _).
  destruct (Hlab _ Hr) as [Hc Hbst]. simpl in Hc, Hbst. clear Hlab.
  unfold h' in Hcur. rewrite doneOn_insert_today in Hcur.
  assert (doneOn (storedHistory p) (Day (now env) - 1) = false <-> m = 0) as Hy.
  { rewrite <- (doneOn_insert_other env _ (NewTab.snapshotOf ts)) by lia. fold h'.
    split.
    - intros Hf. destruct (Z.eq_dec m 0) as [|Hne]; [assumption|].
      rewrite (Hall 1) in Hf by lia. discriminate.
    - intros ->. exact Hstop. }
  split.
  - intros Hdone. apply snapshotOf_allDone in Hdone. rewrite Hdone in Hcur.
    exists cur, (Z.max b cur).
    assert ((0 <? cur) = true) as E1 by (apply Z.ltb_lt; lia).
    assert ((0 <? Z.max b cur) = true) as E2 by (apply Z.ltb_lt; lia).
    rewrite E1 in Hc. rewrite E2 in Hbst. split; [lia|]. split; assumption.
  - rewrite <- snapshotOf_allDone, Hy, Hc.
    destruct (allDone (NewTab.snapshotOf ts)).
    + destruct (Z.ltb_spec 0 cur); [|lia]. split; [discriminate|].
      intros [Hn _]. now elim Hn.
    + destruct (Z.ltb_spec 0 cur).
      * split; [discriminate|]. intros [_ ->]. lia.
      * split; [|reflexivity]. intros _. split; [discriminate|lia].
Qed.

Lemma saveTasks_streak_label_witness :
  walkUnskipped (LocalTZA nuukEnv) (now nuukEnv)
    (Z.of_nat (size (storedHistory nuukPage)) + 3) /\
  exists n b, 1 <= n <= b /\
    Page.streakCurrent (exec (NewTab.saveTasks nuukEnv doneTasks) nuukPage) = DayStreak n /\
    Page.streakBest (exec (NewTab.saveTasks nuukEnv doneTasks) nuukPage) = Some b.
Proof.
  assert (walkUnskipped (LocalTZA nuukEnv) (now nuukEnv)
            (Z.of_nat (size (storedHistory nuukPage)) + 3)) as Hu
    by (apply walkUnskipped_check; vm_compute; reflexivity).
  split; [exact Hu|].
  apply (proj1 (saveTasks_streak_label nuukEnv doneTasks nuukPage Hu)).
  split; [discriminate|]. repeat constructor.
Defined.

(* ================================================================== *)
(** * The marker of today in the calendar *)
(* ================================================================== *)

Section TodayMarker.









End TodayMarker.





(* ================================================================== *)
(** * The review banner *)
(* ================================================================== *)

Section ReviewFacts.

Variable env : Env.

Lemma snapshotToday_review ts p :
  let p' := exec (NewTab.snapshotToday env ts) p in
  Storage.lastReviewedDate (Page.storage p') = Storage.lastReviewedDate (Page.storage p) /\
  Page.reviewBannerHidden p' = Page.reviewBannerHidden p.
Proof.
  cbv zeta. run_page. destruct (calculateStreak _ _ _); simpl;
    destruct (Page.calendarPanelHidden p); simpl; auto.
Qed.

Lemma updateStreak_review p :
  let p' := exec (NewTab.updateStreak env) p in
  Storage.lastReviewedDate (Page.storage p') = Storage.lastReviewedDate (Page.storage p) /\
  Page.reviewBannerHidden p' = Page.reviewBannerHidden p.
Proof. cbv zeta. run_page. destruct (calculateStreak _ _ _); simpl; auto. Qed.

Lemma init_review p :
  let p' := exec (NewTab.init env) p in
  Storage.lastReviewedDate (Page.storage p') = Storage.lastReviewedDate (Page.storage p) /\
  Page.reviewBannerHidden p' =
    match Storage.lastReviewedDate (Page.storage p) with
    | Some s => String.eqb s (NewTab.todayString env)
    | None => false
    end.
Proof.
  cbv zeta. unfold NewTab.init. rewrite !exec_bind.
  destruct (loadTasks_value p) as [-> ->].
  set (p1 := (NewTab.render (storedTasks p) p).2).
  set (p2 := (NewTab.checkReview env p1).2).
  set (p3 := (NewTab.updateBadge (storedTasks p) p2).2).
  set (p4 := (modify (setCalCursor (getFullYear (now env)) (getMonth (now env))) p3).2).
  set (p5 := (NewTab.loadHistory p4).2).
  set (p6 := (NewTab.snapshotToday env (storedTasks p) p5).2).
  destruct (snapshotToday_review (storedTasks p) p5) as (A1 & A2).
  change (exec (NewTab.snapshotToday env (storedTasks p)) p5) with p6 in A1, A2.
  destruct (updateStreak_review p6) as (B1 & B2).
  rewrite B1, B2, A1, A2.
  change (Storage.lastReviewedDate (Page.storage p5))
    with (Storage.lastReviewedDate (Page.storage p2)).
  change (Page.reviewBannerHidden p5) with (Page.reviewBannerHidden p2).
  subst p2 p1. unfold NewTab.checkReview. run_page.
  destruct (Storage.lastReviewedDate (Page.storage p)) eqn:E; simpl; auto.
Qed.

Lemma perform_review a p :
  a <> MarkReviewed ->
  Storage.lastReviewedDate (Page.storage (exec (perform env a) p))
    = Storage.lastReviewedDate (Page.storage p).
Proof.
  assert (forall ts q,
            Storage.lastReviewedDate (Page.storage (exec (NewTab.saveTasks env ts) q))
              = Storage.lastReviewedDate (Page.storage q)) as Hsave.
  { intros ts q. destruct (saveTasks_frame env ts q) as (_ & _ & H & _). exact H. }
  intros Hne. destruct a as [txt|i|i| | | | |b| | |]; simpl perform.
  - unfold NewTab.addTask. destruct (truthy (trim txt)); simpl negb; cbv iota.
    + rewrite !exec_bind. destruct (loadTasks_value p) as [-> ->].
      exact (Hsave _ p).
    + reflexivity.
  - unfold NewTab.toggleTask. rewrite exec_bind.
    destruct (loadTasks_value p) as [-> ->]. apply Hsave.
  - unfold NewTab.deleteTask. rewrite exec_bind.
    destruct (loadTasks_value p) as [-> ->]. apply Hsave.
  - unfold NewTab.clearCompleted. rewrite exec_bind.
    destruct (loadTasks_value p) as [-> ->]. apply Hsave.
  - unfold NewTab.deleteLastTask. rewrite exec_bind.
    destruct (loadTasks_value p) as [-> ->].
    destruct (TaskList.lastNotDone _ _); [apply Hsave|reflexivity].
  - apply init_review.
  - congruence.
  - reflexivity.
  - unfold NewTab.calPrevClick, exec, mbind, M_bind, get. simpl.
    destruct (Page.calMonth p - 1 <? 0); reflexivity.
  - unfold NewTab.calNextClick, exec, mbind, M_bind, get. simpl.
    destruct (11 <? Page.calMonth p + 1); reflexivity.
  - unfold NewTab.calendarToggleClick, exec, mbind, M_bind, get. simpl.
    destruct (Page.calendarPanelHidden p); reflexivity.
Qed.

End ReviewFacts.

Lemma session_review (steps : list (Env * Action)) (p : Page.t) :
  Forall (fun s => s.2 <> MarkReviewed) steps ->
  Storage.lastReviewedDate (Page.storage (performAll steps p))
    = Storage.lastReviewedDate (Page.storage p).
Proof.
  intros H. revert p. induction H as [|[env a] rest Ha _ IH]; intros p; [reflexivity|].
  simpl performAll. rewrite IH. apply perform_review. exact Ha.
Qed.

(** X18.  [markReviewed] hides the review banner, and after any events
    other than another review, the next [init] keeps it hidden exactly when
    its clock shows the calendar day of the review: the banner is back on
    the first page load of another day. *)
Theorem review_banner_until_next_day (env1 env2 : Env)
    (steps : list (Env * Action)) (p : Page.t) :
  Forall (fun s => s.2 <> MarkReviewed) steps ->
  let reviewed := exec (NewTab.markReviewed env1) p in
  Page.reviewBannerHidden reviewed = true /\
  (Page.reviewBannerHidden (exec (NewTab.init env2) (performAll steps reviewed)) = true
     <-> Day (now env1) = Day (now env2)).
Proof.
  intros Hsteps. cbv zeta. split; [reflexivity|].
  destruct (init_review env2 (performAll steps (exec (NewTab.markReviewed env1) p)))
    as (_ & ->).
  rewrite (session_review steps _ Hsteps).
  change (Storage.lastReviewedDate (Page.storage (exec (NewTab.markReviewed env1) p)))
    with (Some (NewTab.todayString env1)).
  rewrite String.eqb_eq. unfold NewTab.todayString. split.
  - apply formatDate_inj.
  - apply formatDate_Day.
Qed.

Lemma review_banner_until_next_day_witness :
  Forall (fun s => s.2 <> MarkReviewed) editSession /\
  Page.reviewBannerHidden
    (exec (NewTab.init nextDayEnv)
       (performAll editSession (exec (NewTab.markReviewed sampleEnv) samplePage)))
    = false.
Proof.
  assert (Forall (fun s : Env * Action => s.2 <> MarkReviewed) editSession) as H.
  { repeat (apply List.Forall_cons; [discriminate|]). apply List.Forall_nil. }
  split; [exact H|].
  apply not_true_is_false. intros Ht.
  apply (proj2 (review_banner_until_next_day sampleEnv nextDayEnv editSession samplePage H))
    in Ht.
  vm_compute in Ht. discriminate Ht.
Defined.

(* ================================================================== *)
(** * The day popup *)
(* ================================================================== *)

(** X19.  A click on a cell of the grid drawn from a history opens the
    popup exactly when the cell's date has an entry in that history, and
    then lists the tasks of that entry; on a padding cell or a day without
    an entry nothing changes. *)
Theorem cellClick_shows_entry (h : History) (todayKey : string) (year month : Z)
    (c : CalendarCell) (v : DayDetail.t) :
  In c (NewTab.calendarCells h todayKey year month) ->
  match c with
  | DayCell day k _ (Some b) =>
      exists e, h !! k = Some e /\ allDone e = b /\
        cellClick h c v =
          DayDetail.mk (parseDate (k +:+ "T00:00:00")) (tasks e) false false
  | DayCell day k _ None => h !! k = None /\ cellClick h c v = v
  | EmptyCell => cellClick h c v = v
  end.
Proof.
  unfold NewTab.calendarCells. intros Hin. apply in_app_or in Hin.
  destruct Hin as [Hin|Hin].
  - apply list_elem_of_In, elem_of_replicate in Hin. destruct Hin as [-> _].
    reflexivity.
  - rewrite dayCells_seqZ in Hin. apply in_map_iff in Hin.
    destruct Hin as (d & <- & _). unfold cellOfDay, cellClick, showDayDetail.
    destruct (h !! dateStrOf year month d) as [e|] eqn:He; simpl.
    + exists e. auto.
    + auto.
Qed.

Lemma cellClick_shows_entry_witness :
  exists e, fourDayHistory !! "2025-03-20"%string = Some e /\ allDone e = true /\
    cellClick fourDayHistory (DayCell 20 "2025-03-20" true (Some true)) closedDetail =
      DayDetail.mk (parseDate ("2025-03-20" +:+ "T00:00:00")) (tasks e) false false.
Proof.
  apply (cellClick_shows_entry fourDayHistory "2025-03-20" 2025 2
           (DayCell 20 "2025-03-20" true (Some true)) closedDetail).
  apply (nth_error_In _ 25%nat). vm_compute. reflexivity.
Defined.

(* ================================================================== *)
(** * Date keys *)
(* ================================================================== *)

(** X20.  [formatDate] gives two time values the same key exactly when
    they lie on the same day, whatever the year.  For a day in a four-digit
    year, the key with the suffix [T00:00:00], the string [calculateStreak]
    and [showDayDetail] hand to [new Date], reads as that day at 00:00:00,
    the local time the host is then asked for; and the keys of an earlier
    and a later day in four-digit years compare in that order, which is
    what sorting the keys relies on. *)
Theorem formatDate_round_trip (t1 t2 : Z) :
  (formatDate t1 = formatDate t2 <-> Day t1 = Day t2) /\
  (firstDay4 <= Day t1 <= lastDay4 ->
   parseDate (formatDate t1 +:+ "T00:00:00")
     = Some (MakeDate (MakeDay (YearFromTime t1) (MonthFromTime t1) (DateFromTime t1))
               (MakeTime 0 0 0 0))) /\
  (firstDay4 <= Day t1 <= lastDay4 -> firstDay4 <= Day t2 <= lastDay4 ->
   Day t1 < Day t2 -> String.compare (formatDate t1) (formatDate t2) = Lt).
Proof.
  split; [split; [apply formatDate_inj|apply formatDate_Day]|].
  rewrite !formatDate_dateKey. split.
  - intros H1. rewrite MakeDay_fields. change (MakeTime 0 0 0 0) with 0.
    now apply parseDate_dateKey.
  - intros H1 H2 Hlt. apply dateKey_compare_lt; lia.
Qed.

Lemma formatDate_round_trip_witness :
  firstDay4 <= Day march20 <= lastDay4 /\
  firstDay4 <= Day (march20 + msPerDay) <= lastDay4 /\
  Day march20 < Day (march20 + msPerDay) /\
  parseDate "2025-03-20T00:00:00" = Some (newDate 2025 2 20) /\
  String.compare (formatDate march20) (formatDate (march20 + msPerDay)) = Lt.
Proof.
  assert (firstDay4 <= Day march20 <= lastDay4) as H1
    by (vm_compute; split; discriminate).
  assert (firstDay4 <= Day (march20 + msPerDay) <= lastDay4) as H2
    by (vm_compute; split; discriminate).
  assert (Day march20 < Day (march20 + msPerDay)) as H3 by (vm_compute; reflexivity).
  destruct (formatDate_round_trip march20 (march20 + msPerDay)) as (_ & Hp & Hc).
  split; [exact H1|]. split; [exact H2|]. split; [exact H3|].
  split; [exact (Hp H1)|exact (Hc H1 H2 H3)].
Defined.

(** In Havana midnight of 9 March 2025 did not exist, the clocks going
    from 00:00 to 01:00: the date built from the key of that day shows
    01:00, and the key of 30 February, a day no month has, reads as
    2 March. *)
Example parsed_key_skipped_midnight :
  parseDate "2025-03-09T00:00:00" = Some (newDate 2025 2 9) /\
  LocalTime havana2025 (instant havana2025 (newDate 2025 2 9))
    = newDate 2025 2 9 + 3600000 /\
  parseDate "2025-02-30T00:00:00" = Some (newDate 2025 2 2).
Proof. vm_compute. repeat split; reflexivity. Qed.

(* ================================================================== *)
(** * The keyboard *)
(* ================================================================== *)


Lemma deleteLastTask_changes (env : Env) (p : Page.t) :
  storedTasks (exec (NewTab.deleteLastTask env) p) <> storedTasks p ->
  exists l1 t l2,
    storedTasks p = l1 ++ t :: l2 /\ done t = false /\
    Forall (fun u => done u = true) l2 /\
    storedTasks (exec (NewTab.deleteLastTask env) p) = l1 ++ l2.
Proof.
  rewrite deleteLastTask_stored. intros Hch.
  destruct (TaskList.lastNotDone _ _) as [i|] eqn:Hi; [|now elim Hch].
  destruct (lastNotDone_split _ _ _ (le_n _) Hi) as (t & Ht & Hd & Hlt & Hall).
  destruct (splice1_split _ _ _ Ht) as [Hl Hs].
  exists (take i (storedTasks p)), t, (drop (S i) (storedTasks p)).
  split; [exact Hl|]. split; [exact Hd|]. split; [|exact Hs].
  apply Forall_lookup_2. intros j u Hj. rewrite lookup_drop in Hj.
  apply (Hall (S i + j)%nat u); [|assumption].
  pose proof (lookup_lt_Some _ _ _ Hj). lia.
Qed.

(** X22.  A key pressed in the document changes the stored task list only
    as Ctrl+Backspace outside the task input, and then it removes the
    incomplete task nearest to the end of the list; the popup changes only
    on Escape while it is open, and then it is closed and the page is left
    alone. *)
Theorem documentKeydown_effect (env : Env) (e : KeyEvent.t) (focused : bool)
    (p : Page.t) (v : DayDetail.t) :
  let s' := documentKeydown env e focused (p, v) in
  (storedTasks s'.1 <> storedTasks p ->
     KeyEvent.ctrlKey e = true /\ KeyEvent.key e = "Backspace"%string /\
     focused = false /\
     exists l1 t l2,
       storedTasks p = l1 ++ t :: l2 /\ done t = false /\
       Forall (fun u => done u = true) l2 /\ storedTasks s'.1 = l1 ++ l2) /\
  (s'.2 <> v ->
     KeyEvent.key e = "Escape"%string /\ DayDetail.popupHidden v = false /\
     s'.2 = closeDayDetail v /\ s'.1 = p).
Proof.
  cbv zeta. unfold documentKeydown.
  destruct (String.eqb_spec (KeyEvent.key e) "Escape") as [Hesc|Hesc];
    destruct (DayDetail.popupHidden v) eqn:Hpop;
    destruct (KeyEvent.ctrlKey e) eqn:Hctrl;
    destruct (String.eqb_spec (KeyEvent.key e) "Backspace") as [Hbs|Hbs];
    destruct focused; simpl.
  all: split; [intros Hch|intros Hv]; try (now elim Hch); try (now elim Hv).
  all: try (repeat split; auto; fail).
  all: split; [reflexivity|split; [assumption|split; [reflexivity|]]].
  all: now apply deleteLastTask_changes.
Qed.

(* ================================================================== *)
(** * The screen follows the store *)
(* ================================================================== *)

(** X23.  At clock readings whose time of day the host has on the days
    the walk visits, [calculateStreak] reads the clock only through its
    calendar day: two such clocks on the same day give the same result.
    The current streak does not depend on the host time zone there
    either. *)
Theorem calculateStreak_clock (tz1 tz2 : Z -> Z) (h : History) (n1 n2 : Z) :
  Day n1 = Day n2 ->
  walkUnskipped tz1 n1 (Z.of_nat (size h) + 2) ->
  walkUnskipped tz1 n2 (Z.of_nat (size h) + 2) ->
  walkUnskipped tz2 n2 (Z.of_nat (size h) + 2) ->
  exists r1 r2,
    calculateStreak tz1 h n1 = Some r1 /\ calculateStreak tz1 h n2 = Some r1 /\
    calculateStreak tz2 h n2 = Some r2 /\ current r1 = current r2.
Proof.
  intros H U1 U2 U3.
  destruct (calculateStreak_parts tz1 h n1 U1) as (c1 & b1 & H1 & _ & P1).
  destruct (calculateStreak_parts tz1 h n2 U2) as (c2 & b2 & H2 & _ & P2).
  destruct (calculateStreak_parts tz2 h n2 U3) as (c3 & b3 & H3 & _ & P3).
  rewrite <- H in P2, P3.
  exists {| current := c1; best := Z.max b1 c1 |},
         {| current := c3; best := Z.max b3 c3 |}.
  split; [exact H1|].
  assert (c2 = c1 /\ b2 = b1) as [-> ->].
  { destruct P1 as [(E1 & -> & ->)|(N1 & W1 & L1)],
             P2 as [(E2 & -> & ->)|(N2 & W2 & L2)]; split; congruence. }
  split; [exact H2|]. split; [exact H3|]. simpl.
  destruct P1 as [(E1 & -> & _)|(N1 & W1 & _)], P3 as [(E3 & -> & _)|(N3 & W3 & _)];
    congruence.
Qed.

Lemma calculateStreak_clock_witness :
  Day march20 = Day (march20 + 3600000) /\
  walkUnskipped utcZone march20 (Z.of_nat (size springForwardHistory) + 2) /\
  walkUnskipped utcZone (march20 + 3600000) (Z.of_nat (size springForwardHistory) + 2) /\
  walkUnskipped newYork2025 (march20 + 3600000)
    (Z.of_nat (size springForwardHistory) + 2) /\
  exists r1 r2,
    calculateStreak utcZone springForwardHistory march20 = Some r1 /\
    calculateStreak utcZone springForwardHistory (march20 + 3600000) = Some r1 /\
    calculateStreak newYork2025 springForwardHistory (march20 + 3600000) = Some r2 /\
    current r1 = current r2.
Proof.
  assert (Day march20 = Day (march20 + 3600000)) as H by (vm_compute; reflexivity).
  assert (walkUnskipped utcZone march20 (Z.of_nat (size springForwardHistory) + 2)) as U1
    by (apply walkUnskipped_check; vm_compute; reflexivity).
  assert (walkUnskipped utcZone (march20 + 3600000)
            (Z.of_nat (size springForwardHistory) + 2)) as U2
    by (apply walkUnskipped_check; vm_compute; reflexivity).
  assert (walkUnskipped newYork2025 (march20 + 3600000)
            (Z.of_nat (size springForwardHistory) + 2)) as U3
    by (apply walkUnskipped_check; vm_compute; reflexivity).
  split; [exact H|]. split; [exact U1|]. split; [exact U2|]. split; [exact U3|].
  exact (calculateStreak_clock utcZone newYork2025 springForwardHistory
           march20 (march20 + 3600000) H U1 U2 U3).
Defined.

(** At 23:30 and at noon of the same day, 2 April 2024 in Nuuk, the
    results differ. *)
Example calculateStreak_clock_skipped_hour :
  Day nuukClock = Day (nuukClock - 12 * 3600000) /\
  calculateStreak nuuk2024 nuukHistory nuukClock = Some {| current := 4; best := 4 |} /\
  calculateStreak nuuk2024 nuukHistory (nuukClock - 12 * 3600000)
    = Some {| current := 3; best := 3 |}.
Proof. vm_compute. repeat split; reflexivity. Qed.

Section ScreenFacts.

Variable env : Env.

Lemma snapshotToday_frame ts p :
  let p' := exec (NewTab.snapshotToday env ts) p in
  let h' := <[NewTab.todayString env := NewTab.snapshotOf ts]> (storedHistory p) in
  Page.sent p' = Page.sent p /\
  Storage.badgeEnabled (Page.storage p') = Storage.badgeEnabled (Page.storage p) /\
  Page.taskListItems p' = Page.taskListItems p /\
  Page.remainingCount p' = Page.remainingCount p /\
  Page.calendarPanelHidden p' = Page.calendarPanelHidden p /\
  (forall r,
     calculateStreak (LocalTZA env) h' (now env) = Some r ->
     Page.streakCurrent p' = (if 0 <? current r then DayStreak (current r) else NoStreakYet) /\
     Page.streakBest p' = (if 0 <? best r then Some (best r) else None)) /\
  (Page.calendarPanelHidden p = false ->
   Page.calDays p' =
     NewTab.calendarCells h' (NewTab.todayString env) (Page.calYear p) (Page.calMonth p)).
Proof.
  cbv zeta. unfold storedHistory. run_page.
  destruct (calculateStreak _ _ _) as [r0|] eqn:E; simpl;
    destruct (Page.calendarPanelHidden p) eqn:Hp; simpl.
  all: repeat (split; [reflexivity || exact Hp|]).
  all: split;
    [intros r Hr; try discriminate Hr; try (injection Hr as <-); split; reflexivity
    |intros Hf; try discriminate Hf; repeat split; reflexivity].
Qed.

Lemma updateStreak_frame p :
  let p' := exec (NewTab.updateStreak env) p in
  Page.sent p' = Page.sent p /\
  Page.storage p' = Page.storage p /\
  Page.taskListItems p' = Page.taskListItems p /\
  Page.remainingCount p' = Page.remainingCount p /\
  Page.calendarPanelHidden p' = Page.calendarPanelHidden p /\
  Page.calDays p' = Page.calDays p /\
  Page.dailyHistory p' = Page.dailyHistory p /\
  (forall r,
     calculateStreak (LocalTZA env) (Page.dailyHistory p) (now env) = Some r ->
     Page.streakCurrent p' = (if 0 <? current r then DayStreak (current r) else NoStreakYet) /\
     Page.streakBest p' = (if 0 <? best r then Some (best r) else None)).
Proof.
  cbv zeta. run_page. destruct (calculateStreak _ _ _) as [r0|] eqn:E; simpl.
  all: repeat (split; [reflexivity|]).
  all: intros r Hr; try discriminate Hr; try (injection Hr as <-); split; reflexivity.
Qed.

Lemma saveTasks_count ts p :
  Page.remainingCount (exec (NewTab.saveTasks env ts) p)
    = toString (remainingOf ts) +:+ " remaining".
Proof.
  unfold remainingOf. run_page. destruct (calculateStreak _ _ _); simpl;
    destruct (Page.calendarPanelHidden p); reflexivity.
Qed.

Lemma clockUnskipped_walk k :
  clockUnskipped env -> walkUnskipped (LocalTZA env) (now env) k.
Proof. intros H j Hj. apply H. lia. Qed.

Lemma calculateStreak_total (h : History) :
  clockUnskipped env -> exists r, calculateStreak (LocalTZA env) h (now env) = Some r.
Proof.
  intros Hu.
  destruct (calculateStreak_parts (LocalTZA env) h (now env) (clockUnskipped_walk _ Hu))
    as (c & b & H & _).
  eauto.
Qed.

(** [saveTasks] brings the whole screen up to date; the streak lines where
    the walk returns. *)
Lemma saveTasks_fresh ts p :
  let p' := exec (NewTab.saveTasks env ts) p in
  listFresh p' /\ badgeFresh p' /\ (clockUnskipped env -> streakFresh env p') /\
  gridFresh env p'.
Proof.
  cbv zeta.
  destruct (saveTasks_frame env ts p)
    as (Hsent & Hen & _ & Hitems & _ & Hpanel & _ & Hy & Hm & Hlab & Hcal).
  destruct (saveTasks_effect env ts p) as (Hts & Hh & _).
  split; [|split; [|split]].
  - split; [now rewrite Hitems, Hts|]. rewrite Hts. apply saveTasks_count.
  - exists (Page.sent p). now rewrite Hsent, Hen, Hts.
  - intros Hu.
    destruct (calculateStreak_total
                (<[NewTab.todayString env := NewTab.snapshotOf ts]> (storedHistory p)) Hu)
      as [r Hr].
    exists r. rewrite Hh. split; [exact Hr|]. exact (Hlab r Hr).
  - intros Hopen. rewrite Hpanel in Hopen. rewrite (Hcal Hopen), Hh, Hy, Hm. reflexivity.
Qed.

Lemma checkReview_screen p :
  let p' := exec (NewTab.checkReview env) p in
  Page.storage p' = Page.storage p /\
  Page.taskListItems p' = Page.taskListItems p /\
  Page.remainingCount p' = Page.remainingCount p /\
  Page.calendarPanelHidden p' = Page.calendarPanelHidden p /\
  Page.sent p' = Page.sent p.
Proof.
  cbv zeta. unfold NewTab.checkReview. run_page.
  destruct (Storage.lastReviewedDate (Page.storage p)); simpl; auto.
Qed.

(** So does [init]. *)
Lemma init_fresh p :
  let p' := exec (NewTab.init env) p in
  listFresh p' /\ badgeFresh p' /\ (clockUnskipped env -> streakFresh env p') /\
  gridFresh env p'.
Proof.
  cbv zeta.
  destruct (other_handlers_keep_tasks env true p) as (Hts & _).
  revert Hts. unfold NewTab.init. rewrite !exec_bind.
  destruct (loadTasks_value p) as [-> ->].
  set (p1 := (NewTab.render (storedTasks p) p).2).
  set (p2 := (NewTab.checkReview env p1).2).
  set (p3 := (NewTab.updateBadge (storedTasks p) p2).2).
  set (p4 := (modify (setCalCursor (getFullYear (now env)) (getMonth (now env))) p3).2).
  set (p5 := (NewTab.loadHistory p4).2).
  set (p6 := (NewTab.snapshotToday env (storedTasks p) p5).2).
  intros Hts.
  destruct (checkReview_screen p1) as (C1 & C2 & C3 & C4 & C5).
  change (exec (NewTab.checkReview env) p1) with p2 in C1, C2, C3, C4, C5.
  destruct (snapshotToday_frame (storedTasks p) p5) as (S1 & S2 & S3 & S4 & S5 & _ & S7).
  destruct (snapshotToday_effect env (storedTasks p) p5) as (Sh & _).
  destruct (snapshotToday_cursor env (storedTasks p) p5) as (Sy & Sm).
  change (exec (NewTab.snapshotToday env (storedTasks p)) p5)
    with p6 in S1, S2, S3, S4, S5, S7, Sh, Sy, Sm.
  destruct (updateStreak_frame p6) as (U1 & U2 & U3 & U4 & U5 & U6 & U7 & U8).
  destruct (updateStreak_cursor env p6) as (Uy & Um).
  split; [|split; [|split]].
  - split.
    + rewrite U3, S3, Hts.
      change (Page.taskListItems p5) with (Page.taskListItems p2). now rewrite C2.
    + rewrite U4, S4, Hts.
      change (Page.remainingCount p5) with (Page.remainingCount p2). now rewrite C3.
  - exists (Page.sent p2). rewrite U1, S1, U2, S2, Hts.
    change (Storage.badgeEnabled (Page.storage p5))
      with (Storage.badgeEnabled (Page.storage p2)).
    reflexivity.
  - intros Hu.
    destruct (calculateStreak_total (Page.dailyHistory p6) Hu) as [r Hr].
    exists r. rewrite U7. split; [exact Hr|]. exact (U8 r Hr).
  - intros Hopen. rewrite U5, S5 in Hopen.
    rewrite U6, (S7 Hopen), U7, Sh, Uy, Um, Sy, Sm. reflexivity.
Qed.

(** What an event does to the page, by shape. *)
Lemma perform_shape a p :
  let p' := exec (perform env a) p in
  p' = p \/
  (exists ts, p' = exec (NewTab.saveTasks env ts) p) \/
  (exists ts, p' = setTaskInput [] (exec (NewTab.saveTasks env ts) p)) \/
  p' = exec (NewTab.init env) p \/
  p' = exec (NewTab.markReviewed env) p \/
  (exists b, p' = exec (NewTab.badgeToggleChange b) p) \/
  (exists y m lbl,
     p' = setCalendar y m lbl
            (NewTab.calendarCells (Page.dailyHistory p) (NewTab.todayString env) y m) p) \/
  p' = setCalendarPanel true p \/
  (exists lbl,
     p' = setCalendar (Page.calYear p) (Page.calMonth p) lbl
            (NewTab.calendarCells (Page.dailyHistory p) (NewTab.todayString env)
               (Page.calYear p) (Page.calMonth p))
            (setCalendarPanel false p)).
Proof.
  cbv zeta. destruct a as [txt|i|i| | | | |b| | |]; simpl perform.
  - unfold NewTab.addTask. destruct (truthy (trim txt)); simpl negb; cbv iota.
    + right. right. left. eexists. rewrite !exec_bind.
      destruct (loadTasks_value p) as [-> ->]. reflexivity.
    + left. reflexivity.
  - right. left. eexists. unfold NewTab.toggleTask. rewrite exec_bind.
    destruct (loadTasks_value p) as [-> ->]. reflexivity.
  - right. left. eexists. unfold NewTab.deleteTask. rewrite exec_bind.
    destruct (loadTasks_value p) as [-> ->]. reflexivity.
  - right. left. eexists. unfold NewTab.clearCompleted. rewrite exec_bind.
    destruct (loadTasks_value p) as [-> ->]. reflexivity.
  - unfold NewTab.deleteLastTask. rewrite exec_bind.
    destruct (loadTasks_value p) as [-> ->].
    destruct (TaskList.lastNotDone _ _).
    + right. left. eexists. reflexivity.
    + left. reflexivity.
  - do 3 right. left. reflexivity.
  - do 4 right. left. reflexivity.
  - do 5 right. left. eexists. reflexivity.
  - do 6 right. left. unfold NewTab.calPrevClick, NewTab.renderCalendar, exec, mbind,
      M_bind, get, modify. simpl.
    destruct (Page.calMonth p - 1 <? 0); do 3 eexists; reflexivity.
  - do 6 right. left. unfold NewTab.calNextClick, NewTab.renderCalendar, exec, mbind,
      M_bind, get, modify. simpl.
    destruct (11 <? Page.calMonth p + 1); do 3 eexists; reflexivity.
  - unfold NewTab.calendarToggleClick, NewTab.renderCalendar, exec, mbind,
      M_bind, get, modify. simpl.
    destruct (Page.calendarPanelHidden p); simpl.
    + do 8 right. eexists. reflexivity.
    + do 7 right. left. reflexivity.
Qed.

Lemma perform_listFresh a p : listFresh p -> listFresh (exec (perform env a) p).
Proof.
  intros H.
  destruct (perform_shape a p)
    as [->|[[ts ->]|[[ts ->]|[->|[->|[[b ->]|[(y & m & lbl & ->)|[->|[lbl ->]]]]]]]]].
  - exact H.
  - apply saveTasks_fresh.
  - exact (proj1 (saveTasks_fresh ts p)).
  - apply init_fresh.
  - exact H.
  - exact H.
  - exact H.
  - exact H.
  - exact H.
Qed.

Lemma perform_badgeFresh a p : badgeFresh p -> badgeFresh (exec (perform env a) p).
Proof.
  intros H.
  destruct (perform_shape a p)
    as [->|[[ts ->]|[[ts ->]|[->|[->|[[b ->]|[(y & m & lbl & ->)|[->|[lbl ->]]]]]]]]].
  - exact H.
  - apply saveTasks_fresh.
  - exact (proj1 (proj2 (saveTasks_fresh ts p))).
  - apply init_fresh.
  - exact H.
  - exists (Page.sent p). reflexivity.
  - exact H.
  - exact H.
  - exact H.
Qed.

End ScreenFacts.

Section SameDayFacts.

Variables env env' : Env.

Hypothesis same_day : Day (now env') = Day (now env).
Hypothesis same_zone : LocalTZA env' = LocalTZA env.



End SameDayFacts.

Section SameDayStreak.

Variables env env' : Env.

Hypothesis same_day : Day (now env') = Day (now env).
Hypothesis same_zone : LocalTZA env' = LocalTZA env.
Hypothesis clock_unskipped : clockUnskipped env.
Hypothesis clock_unskipped' : clockUnskipped env'.

(** Two clocks on the same day, both at a time of day the host has on
    every earlier day, give the same streak. *)
Lemma calculateStreak_Day (h : History) :
  calculateStreak (LocalTZA env') h (now env') = calculateStreak (LocalTZA env) h (now env).
Proof.
  destruct (calculateStreak_parts (LocalTZA env') h (now env')
              (clockUnskipped_walk env' _ clock_unskipped'))
    as (c1 & b1 & H1 & _ & P1).
  destruct (calculateStreak_parts (LocalTZA env) h (now env)
              (clockUnskipped_walk env _ clock_unskipped))
    as (c2 & b2 & H2 & _ & P2).
  rewrite H1, H2. rewrite same_day, same_zone in P1.
  assert (c2 = c1 /\ b2 = b1) as [-> ->]; [|reflexivity].
  destruct P1 as [(E1 & -> & ->)|(N1 & W1 & L1)],
           P2 as [(E2 & -> & ->)|(N2 & W2 & L2)]; split; congruence.
Qed.

Lemma streakFresh_sameDay p : streakFresh env' p -> streakFresh env p.
Proof. unfold streakFresh. now rewrite calculateStreak_Day. Qed.

Lemma perform_streakFresh a p :
  streakFresh env p -> streakFresh env (exec (perform env' a) p).
Proof.
  intros H.
  destruct (perform_shape env' a p)
    as [->|[[ts ->]|[[ts ->]|[->|[->|[[b ->]|[(y & m & lbl & ->)|[->|[lbl ->]]]]]]]]].
  - exact H.
  - apply streakFresh_sameDay.
    exact (proj1 (proj2 (proj2 (saveTasks_fresh env' ts p))) clock_unskipped').
  - apply streakFresh_sameDay.
    exact (proj1 (proj2 (proj2 (saveTasks_fresh env' ts p))) clock_unskipped').
  - apply streakFresh_sameDay.
    exact (proj1 (proj2 (proj2 (init_fresh env' p))) clock_unskipped').
  - exact H.
  - exact H.
  - exact H.
  - exact H.
  - exact H.
Qed.

End SameDayStreak.

Section SessionScreen.

Lemma session_listFresh steps p : listFresh p -> listFresh (performAll steps p).
Proof.
  revert p. induction steps as [|[env a] rest IH]; intros p H; [exact H|].
  simpl performAll. apply IH, perform_listFresh, H.
Qed.

Lemma session_badgeFresh steps p : badgeFresh p -> badgeFresh (performAll steps p).
Proof.
  revert p. induction steps as [|[env a] rest IH]; intros p H; [exact H|].
  simpl performAll. apply IH, perform_badgeFresh, H.
Qed.

Lemma session_streakFresh env steps p :
  Forall (sameDay env) steps ->
  clockUnskipped env ->
  Forall (fun s => clockUnskipped s.1) steps ->
  streakFresh env p -> streakFresh env (performAll steps p).
Proof.
  intros Hs Hu Hus. revert p.
  induction Hs as [|[env' a] rest [Hd Hz] _ IH]; intros p H; [exact H|].
  inversion Hus as [|? ? Hu' Hus']; subst.
  simpl performAll. apply (IH Hus'), perform_streakFresh; assumption.
Qed.

(** The clocks of the sample session in Nuuk, 09:00 and 21:00, exist on
    every day. *)
Lemma nuuk_clocks_unskipped :
  clockUnskipped nuukEnv /\ clockUnskipped nuukEvening.
Proof.
  split; intros j Hj; unfold unskipped, LocalTime, UTC; cbv zeta;
    cbn [LocalTZA now nuukEnv nuukEvening]; unfold nuuk2024;
    repeat match goal with
    | |- context [MakeDate ?a ?b] =>
        let v := eval vm_compute in (MakeDate a b) in change (MakeDate a b) with v
    | |- context [newDate ?a ?b ?c] =>
        let v := eval vm_compute in (newDate a b c) in change (newDate a b c) with v
    end;
    unfold msPerDay;
    repeat (match goal with
            | |- context [?a <=? ?b] =>
                lazymatch constr:((a, b)) with
                | context [if _ then _ else _] => fail
                | _ => destruct (Z.leb_spec a b)
                end
            | |- context [?a <? ?b] =>
                lazymatch constr:((a, b)) with
                | context [if _ then _ else _] => fail
                | _ => destruct (Z.ltb_spec a b)
                end
            | |- context [?a =? ?b] =>
                lazymatch constr:((a, b)) with
                | context [if _ then _ else _] => fail
                | _ => destruct (Z.eqb_spec a b)
                end
            end; cbn [andb]; cbv beta iota);
    lia.
Qed.


Lemma badgeMessage_text enabled ts b :
  ServiceWorker.badgeText (ServiceWorker.onMessage (badgeMessage enabled ts) b)
    = (if default false enabled && (0 <? remainingOf ts)
       then toString (remainingOf ts) else ""%string).
Proof.
  unfold badgeMessage, ServiceWorker.onMessage, remainingOf. simpl.
  destruct (default false enabled); reflexivity.
Qed.

End SessionScreen.

(** X24.  From [init] on, through every event of a session, the task list
    on screen is the stored list and the text beside it counts its open
    tasks. *)
Theorem session_list_fresh (env : Env) (steps : list (Env * Action)) (p : Page.t) :
  let p' := performAll ((env, Init) :: steps) p in
  Page.taskListItems p' = storedTasks p' /\
  Page.remainingCount p' =
    toString (Z.of_nat (length (TaskList.notDone (storedTasks p')))) +:+ " remaining".
Proof.
  cbv zeta. simpl performAll.
  exact (session_listFresh steps _ (proj1 (init_fresh env p))).
Qed.

(** X25.  From [init] on, through every event of a session, the message
    sent last to the service worker is the one for the stored list and the
    stored badge switch, so the badge it makes the worker show is the
    number of open stored tasks when the switch is on and that number is
    positive, and empty otherwise. *)
Theorem session_badge_fresh (env : Env) (steps : list (Env * Action)) (p : Page.t)
    (b : ServiceWorker.Badge) :
  let p' := performAll ((env, Init) :: steps) p in
  exists msg rest,
    Page.sent p' = msg :: rest /\
    ServiceWorker.badgeText (ServiceWorker.onMessage msg b)
      = (if default false (Storage.badgeEnabled (Page.storage p'))
            && (0 <? remainingOf (storedTasks p'))
         then toString (remainingOf (storedTasks p')) else ""%string).
Proof.
  cbv zeta. simpl performAll.
  destruct (session_badgeFresh steps _ (proj1 (proj2 (init_fresh env p)))) as [rest Hr].
  eexists. exists rest. split; [exact Hr|]. apply badgeMessage_text.
Qed.

(** X26.  From [init] on, through the events of one calendar day in one
    zone, each at a clock reading whose time of day the host has on every
    earlier day, the two streak lines show the streak [calculateStreak]
    gives for the history in memory: no event leaves a stale streak on
    screen. *)
Theorem session_streak_fresh (env : Env) (steps : list (Env * Action)) (p : Page.t) :
  Forall (sameDay env) steps ->
  clockUnskipped env ->
  Forall (fun s => clockUnskipped s.1) steps ->
  let p' := performAll ((env, Init) :: steps) p in
  exists r,
    calculateStreak (LocalTZA env) (Page.dailyHistory p') (now env) = Some r /\
    Page.streakCurrent p' = (if 0 <? current r then DayStreak (current r) else NoStreakYet) /\
    Page.streakBest p' = (if 0 <? best r then Some (best r) else None).
Proof.
  intros Hs Hu Hus. cbv zeta. simpl performAll.
  exact (session_streakFresh env steps _ Hs Hu Hus
           (proj1 (proj2 (proj2 (init_fresh env p))) Hu)).
Qed.

Lemma session_streak_fresh_witness :
  Forall (sameDay nuukEnv) nuukSession /\
  clockUnskipped nuukEnv /\
  Forall (fun s => clockUnskipped s.1) nuukSession /\
  exists r,
    calculateStreak (LocalTZA nuukEnv)
      (Page.dailyHistory (performAll ((nuukEnv, Init) :: nuukSession) nuukPage))
      (now nuukEnv) = Some r /\
    Page.streakCurrent (performAll ((nuukEnv, Init) :: nuukSession) nuukPage)
      = (if 0 <? current r then DayStreak (current r) else NoStreakYet) /\
    Page.streakBest (performAll ((nuukEnv, Init) :: nuukSession) nuukPage)
      = (if 0 <? best r then Some (best r) else None).
Proof.
  assert (Forall (sameDay nuukEnv) nuukSession) as H.
  { repeat (apply List.Forall_cons; [split; [vm_compute; reflexivity|reflexivity]|]).
    apply List.Forall_nil. }
  assert (Forall (fun s => clockUnskipped s.1) nuukSession) as Hus.
  { repeat (apply List.Forall_cons;
            [first [exact (proj1 nuuk_clocks_unskipped)
                   |exact (proj2 nuuk_clocks_unskipped)]|]).
    apply List.Forall_nil. }
  split; [exact H|]. split; [exact (proj1 nuuk_clocks_unskipped)|]. split; [exact Hus|].
  exact (session_streak_fresh nuukEnv nuukSession nuukPage H
           (proj1 nuuk_clocks_unskipped) Hus).
Defined.



(* ================================================================== *)
(** * Identifiers and today's entry *)
(* ================================================================== *)

Section IdFacts.

Lemma sublist_map {A B} (f : A -> B) (l1 l2 : list A) :
  l1 `sublist_of` l2 -> map f l1 `sublist_of` map f l2.
Proof.
  induction 1 as [|x l1 l2 _ IH|x l1 l2 _ IH]; simpl.
  - constructor.
  - now apply sublist_skip.
  - now apply sublist_cons.
Qed.

Lemma toggleFirst_ids i (l : list Task) : map id (TaskList.toggleFirst i l) = map id l.
Proof.
  induction l as [|t r IH]; [reflexivity|]. simpl.
  destruct (String.eqb (id t) i); simpl; [reflexivity|now rewrite IH].
Qed.

Lemma splice1_sublist i (l : list Task) : TaskList.splice1 i l `sublist_of` l.
Proof.
  unfold TaskList.splice1. rewrite <- (take_drop i l) at 3.
  apply sublist_app; [reflexivity|].
  replace (drop (S i) l) with (drop 1 (drop i l))
    by (rewrite drop_drop; f_equal; lia).
  apply sublist_drop.
Qed.

(** The identifiers stored after an event. *)
Lemma perform_ids env a p :
  let ids := map id (storedTasks p) in
  let ids' := map id (storedTasks (exec (perform env a) p)) in
  match a with
  | AddTask txt =>
      ids' = if truthy (trim txt) then ids ++ [randomUUID env] else ids
  | _ => ids' `sublist_of` ids
  end.
Proof.
  cbv zeta. destruct (other_handlers_keep_tasks env true p)
    as (Hi & _ & Hm & _ & Hp & Hn & Ht).
  destruct a as [txt|i|i| | | | |b| | |]; simpl perform.
  - destruct (truthy (trim txt)) eqn:E.
    + rewrite addTask_stored.
      * rewrite map_app. reflexivity.
      * intros Hb. apply truthy_trim in Hb. congruence.
    + apply truthy_trim in E. now rewrite (addTask_blank env txt p E).
  - rewrite toggleTask_stored, toggleFirst_ids. reflexivity.
  - rewrite deleteTask_stored. apply sublist_map, filter_sublist.
  - rewrite clearCompleted_stored. apply sublist_map, filter_sublist.
  - rewrite deleteLastTask_stored. destruct (TaskList.lastNotDone _ _); [|reflexivity].
    apply sublist_map, splice1_sublist.
  - now rewrite Hi.
  - now rewrite Hm.
  - destruct (other_handlers_keep_tasks env b p) as (_ & _ & _ & Hb & _). now rewrite Hb.
  - now rewrite Hp.
  - now rewrite Hn.
  - now rewrite Ht.
Qed.

End IdFacts.

(** X28.  When the identifiers [crypto.randomUUID] hands out in a session
    are new, different from one another and from the stored ones, no two
    stored tasks share an identifier after the session, whatever its
    events are. *)
Theorem session_ids_unique (steps : list (Env * Action)) (p : Page.t) :
  NoDup (map id (storedTasks p) ++ addedIds steps) ->
  NoDup (map id (storedTasks (performAll steps p))).
Proof.
  revert p. induction steps as [|[env a] rest IH]; intros p H.
  - simpl in *. now rewrite app_nil_r in H.
  - simpl performAll. apply IH. pose proof (perform_ids env a p) as Hid. cbv zeta in Hid.
    assert (forall ids',
              ids' `sublist_of` map id (storedTasks p) ->
              NoDup (map id (storedTasks p) ++ addedIds rest) ->
              NoDup (ids' ++ addedIds rest)) as Hsub.
    { intros ids' Hs Hn. apply (sublist_NoDup _ _ Hn).
      apply sublist_app; [exact Hs|reflexivity]. }
    destruct a as [txt|i|i| | | | |b| | |]; simpl addedIds in H;
      try (apply Hsub; assumption).
    rewrite Hid. destruct (truthy (trim txt)).
    + now rewrite <- app_assoc.
    + exact H.
Qed.

Lemma session_ids_unique_witness :
  NoDup (map id (storedTasks samplePage) ++ addedIds sampleSession) /\
  NoDup (map id (storedTasks (performAll sampleSession samplePage))).
Proof.
  assert (NoDup (map id (storedTasks samplePage) ++ addedIds sampleSession)) as H.
  { change (map id (storedTasks samplePage) ++ addedIds sampleSession)
      with ["a"; "b"; "c"; "6f1c2f0e-0000-4000-8000-000000000003"]%string.
    repeat (apply NoDup_cons; split;
            [intros Hin;
             repeat (apply elem_of_cons in Hin; destruct Hin as [Hin|Hin];
                     [discriminate Hin|]);
             inversion Hin|]).
    apply NoDup_nil. exact I. }
  split; [exact H|].
  exact (session_ids_unique sampleSession samplePage H).
Defined.

Section TodayEntry.

Variables env env' : Env.

Hypothesis same_day : Day (now env') = Day (now env).

Lemma perform_today_entry a p :
  storedHistory p !! NewTab.todayString env = Some (NewTab.snapshotOf (storedTasks p)) ->
  storedHistory (exec (perform env' a) p) !! NewTab.todayString env
    = Some (NewTab.snapshotOf (storedTasks (exec (perform env' a) p))).
Proof.
  assert (NewTab.todayString env' = NewTab.todayString env) as Hk
    by (apply formatDate_Day, same_day).
  assert (forall ts,
            storedHistory (exec (NewTab.saveTasks env' ts) p) !! NewTab.todayString env
              = Some (NewTab.snapshotOf
                        (storedTasks (exec (NewTab.saveTasks env' ts) p)))) as Hsave.
  { intros ts. destruct (saveTasks_effect env' ts p) as (-> & Hh & ->).
    rewrite Hh, Hk. apply lookup_insert_eq. }
  intros H.
  destruct (perform_shape env' a p)
    as [->|[[ts ->]|[[ts ->]|[->|[->|[[b ->]|[(y & m & lbl & ->)|[->|[lbl ->]]]]]]]]].
  - exact H.
  - apply Hsave.
  - exact (Hsave ts).
  - destruct (init_effect env' p) as (-> & _).
    destruct (other_handlers_keep_tasks env' true p) as (-> & _).
    rewrite Hk. apply lookup_insert_eq.
  - exact H.
  - exact H.
  - exact H.
  - exact H.
  - exact H.
Qed.

End TodayEntry.

(** X29.  From [init] on, through the events of one calendar day, the
    entry stored under today's key is the snapshot of the stored task
    list: its [allDone] is true exactly when that list is non-empty and
    every task in it is done, and is never left over from an earlier
    list. *)
Theorem session_today_entry (env : Env) (steps : list (Env * Action)) (p : Page.t) :
  Forall (sameDay env) steps ->
  let p' := performAll ((env, Init) :: steps) p in
  storedHistory p' !! NewTab.todayString env = Some (NewTab.snapshotOf (storedTasks p')) /\
  (entryAllDone (storedHistory p') (NewTab.todayString env) = true <->
     storedTasks p' <> [] /\ Forall (fun t => done t = true) (storedTasks p')).
Proof.
  intros Hs. cbv zeta. simpl performAll.
  assert (storedHistory (exec (NewTab.init env) p) !! NewTab.todayString env
          = Some (NewTab.snapshotOf (storedTasks (exec (NewTab.init env) p)))) as H0.
  { destruct (init_effect env p) as (-> & _).
    destruct (other_handlers_keep_tasks env true p) as (-> & _).
    apply lookup_insert_eq. }
  revert H0. generalize (exec (NewTab.init env) p). clear p.
  induction Hs as [|[env' a] rest [Hd _] _ IH]; intros p H.
  - simpl performAll. split; [exact H|].
    unfold entryAllDone. rewrite H. apply snapshotOf_allDone.
  - simpl performAll. apply IH. now apply perform_today_entry.
Qed.

Lemma session_today_entry_witness :
  Forall (sameDay sampleEnv) editSession /\
  storedHistory (performAll ((sampleEnv, Init) :: editSession) samplePage)
    !! NewTab.todayString sampleEnv
    = Some (NewTab.snapshotOf
              (storedTasks (performAll ((sampleEnv, Init) :: editSession) samplePage))).
Proof.
  assert (Forall (sameDay sampleEnv) editSession) as H.
  { repeat (apply List.Forall_cons; [split; reflexivity|]). apply List.Forall_nil. }
  split; [exact H|].
  exact (proj1 (session_today_entry sampleEnv editSession samplePage H)).
Defined.
